(** * foody-api: cart, checkout, order status and review aggregation

    A shallow embedding of the route handlers of [src/routes/cart.js],
    [src/routes/order.js] and [src/routes/review.js] over an explicit model of
    the relational store of [prisma/migrations/.../migration.sql].

    Conventions of the embedding.
    - A JS number that holds an integer (ids, prices, quantities, stars,
      millisecond timestamps) is a [Z]; the restaurant rating, a DOUBLE
      PRECISION column, is a [Q] and the arithmetic on it is taken exact
      ([double_rating_agrees] compares with binary64 arithmetic).
    - The cart routes and the order listing answer with products and sums
      of stored numbers; these are rounded as binary64 operations round
      ([JS.mul], [JS.add]).  Numbers that a handler writes to an INTEGER
      column (the quantity that POST /cart adds up, the amounts of checkout)
      are bounded by the column, and their arithmetic is taken exact.
    - A table is the list of its rows in insertion order; SERIAL columns draw
      from a counter kept in the store.
    - An [async] handler is a computation in the monad [M]: it threads the
      store, records which Prisma calls it made, and may throw. A [try]/[catch]
      is [try_catch]; nothing is rolled back by a throw, as in the source,
      which opens no database transaction.
    - The handlers are embedded for every typed input; the validation
      middleware in front of some routes only narrows those inputs.
    - The Prisma schema is not among the sources.  The [updatedAt] columns,
      which the migration creates without a database default, are refreshed
      by every update, as the specification has it for the order status. *)

From Stdlib Require Import ZArith List String Ascii Bool Lia.
From Stdlib Require Import Permutation.
From Stdlib Require Import QArith Qround Lqa.
From Stdlib Require Import DecimalString DecimalPos DecimalZ.
From Stdlib Require PrimFloat FloatOps SpecFloat Uint63.
Import ListNotations.

Open Scope string_scope.
Open Scope list_scope.
Open Scope Z_scope.

(** ** JavaScript primitives used by the handlers *)

Module JS.

(** [`${n}`] for an integer-valued number. *)
Definition toString (n : Z) : string := NilZero.string_of_int (Z.to_int n).

(** Truthiness of an optional integer-valued number: [undefined], [null]
    and [0] are falsy. *)
Definition truthy (v : option Z) : bool :=
  match v with
  | Some n => negb (n =? 0)
  | None => false
  end.

(** [Math.round]: the nearest integer, ties towards plus infinity. *)
Definition Math_round (x : Q) : Z := Qfloor (x + (1 # 2)).

(** The same computation on IEEE 754 binary64 numbers, which is what the
    engine runs.  It is used to check, for review lists of bounded length,
    that taking the arithmetic exact selects the same tenth. *)
Module Double.

Definition of_Z (z : Z) : PrimFloat.float :=
  match z with
  | Z0 => PrimFloat.zero
  | Zpos _ => PrimFloat.of_uint63 (Uint63.of_Z z)
  | Zneg p => PrimFloat.opp (PrimFloat.of_uint63 (Uint63.of_Z (Zpos p)))
  end.

(** [Math.round] of a finite double [(-1)^sign * m * 2^ex], as an integer. *)
Definition Math_round (x : PrimFloat.float) : Z :=
  match FloatOps.Prim2SF x with
  | SpecFloat.S754_finite sign m ex =>
      let v := if sign then Zneg m else Zpos m in
      if 0 <=? ex then v * 2 ^ ex
      else (2 * v + 2 ^ (- ex)) / 2 ^ (- ex + 1)
  | _ => 0
  end.

(** [Math.round(total / n * 10)] *)
Definition tenths (total n : Z) : Z :=
  Math_round (PrimFloat.mul (PrimFloat.div (of_Z total) (of_Z n)) (of_Z 10)).

(** [a * b] and [a + b] on doubles, for operands below [2^63] in
    magnitude; the result is integer-valued. *)
Definition mul (a b : Z) : Z := Math_round (PrimFloat.mul (of_Z a) (of_Z b)).

Definition add (a b : Z) : Z := Math_round (PrimFloat.add (of_Z a) (of_Z b)).

End Double.

(** [Number.MAX_SAFE_INTEGER], [2^53 - 1]: up to it in magnitude every
    integer is a double. *)
Definition MAX_SAFE_INTEGER : Z := 9007199254740991.

(** The double nearest to the integer [z], ties going to the even
    significand: what an operation on doubles returns when its exact result
    is [z].  Past [2^53] a double keeps the 53 leading bits of the integer.
    (Overflow to [Infinity], past [2^1024], is out of reach of sums and
    products of INTEGER columns.) *)
Definition number (z : Z) : Z :=
  let a := Z.abs z in
  let drop := Z.log2 a - 52 in
  if drop <=? 0 then z
  else
    let ulp := 2 ^ drop in
    let m := a / ulp in
    let r := a mod ulp in
    let m' := if 2 * r <? ulp then m
              else if ulp <? 2 * r then m + 1
              else if Z.even m then m else m + 1 in
    Z.sgn z * (m' * ulp).

(** [a * b] and [a + b] on integer-valued numbers. *)
Definition mul (a b : Z) : Z := number (a * b).

Definition add (a b : Z) : Z := number (a + b).

Arguments number : simpl never.
Arguments mul : simpl never.
Arguments add : simpl never.

(** [array.forEach(callback)] whose callback updates the variables [acc]
    and may raise ([None]): the iteration stops at the first exception. *)
Fixpoint forEach {A S : Type} (f : S -> A -> option S) (l : list A) (acc : S) : option S :=
  match l with
  | [] => Some acc
  | x :: l' =>
      match f acc x with
      | Some acc' => forEach f l' acc'
      | None => None
      end
  end.

(** A plain object used as a dictionary with integer keys, kept as an
    association list in the order in which [Object.values] enumerates it:
    the keys that are array indices ([0] to [2^32 - 2]) in ascending order
    first, then every other key (a negative id, say) in the order in which
    the keys were created. *)
Definition object (V : Type) : Type := list (Z * V).

Definition is_index (k : Z) : bool := (0 <=? k) && (k <=? 4294967294).

(** A new key [k] is enumerated before the present key [k']. *)
Definition precedes (k k' : Z) : bool :=
  is_index k && (negb (is_index k') || (k <? k')).

Fixpoint get {V} (o : object V) (k : Z) : option V :=
  match o with
  | [] => None
  | (k', v) :: o' => if k' =? k then Some v else get o' k
  end.

Fixpoint set {V} (o : object V) (k : Z) (v : V) : object V :=
  match o with
  | [] => [(k, v)]
  | (k', v') :: o' =>
      if k' =? k then (k, v) :: o'
      else if precedes k k' then (k, v) :: (k', v') :: o'
      else (k', v') :: set o' k v
  end.

Definition values {V} (o : object V) : list V := map snd o.

End JS.

(** ** The schema: one record per table, with the columns of the migration *)

Module Restaurant.
Record t := mk {
  id : Z;
  name : string;
  star : Q;
  place : string;
  logo : option string
}.
Definition with_star (r : t) (v : Q) : t :=
  mk (id r) (name r) v (place r) (logo r).
End Restaurant.

Module RestoMenu.
Record t := mk {
  id : Z;
  restaurantId : Z;
  foodName : string;
  price : Z;
  type : string;
  image : option string
}.
Definition with_price (m : t) (p : Z) : t :=
  mk (id m) (restaurantId m) (foodName m) p (type m) (image m).
End RestoMenu.

Module RestoReview.
Record t := mk {
  id : Z;
  userId : Z;
  restaurantId : Z;
  star : Z;
  comment : option string;
  createdAt : Z;
  updatedAt : Z
}.
End RestoReview.

Module UserCartItem.
Record t := mk {
  id : Z;
  cartId : string;
  userId : Z;
  restaurantId : Z;
  menuId : Z;
  quantity : Z;
  createdAt : Z;
  updatedAt : Z
}.
End UserCartItem.

(** One element of the JSONB column [transactions.items]. *)
Module OrderItem.
Record t := mk {
  restaurantId : Z;
  restaurantName : string;
  menuId : Z;
  menuName : string;
  price : Z;
  quantity : Z;
  itemTotal : Z
}.
End OrderItem.

Module Transaction.
Record t := mk {
  id : Z;
  transactionId : string;
  userId : Z;
  paymentMethod : string;
  price : Z;
  serviceFee : Z;
  deliveryFee : Z;
  totalPrice : Z;
  status : string;
  items : list OrderItem.t;
  createdAt : Z;
  updatedAt : Z
}.
End Transaction.

(** ** The store *)

Record store := mkStore {
  restaurants : list Restaurant.t;
  restoMenus : list RestoMenu.t;
  restoReviews : list RestoReview.t;
  userCartItems : list UserCartItem.t;
  transactions : list Transaction.t;
  restoReviews_id_seq : Z;
  userCartItems_id_seq : Z;
  transactions_id_seq : Z
}.

Definition with_restaurants (s : store) (l : list Restaurant.t) : store :=
  mkStore l (restoMenus s) (restoReviews s) (userCartItems s) (transactions s)
    (restoReviews_id_seq s) (userCartItems_id_seq s) (transactions_id_seq s).

Definition with_restoMenus (s : store) (l : list RestoMenu.t) : store :=
  mkStore (restaurants s) l (restoReviews s) (userCartItems s) (transactions s)
    (restoReviews_id_seq s) (userCartItems_id_seq s) (transactions_id_seq s).

Definition with_restoReviews (s : store) (l : list RestoReview.t) (seq : Z) : store :=
  mkStore (restaurants s) (restoMenus s) l (userCartItems s) (transactions s)
    seq (userCartItems_id_seq s) (transactions_id_seq s).

Definition with_userCartItems (s : store) (l : list UserCartItem.t) (seq : Z) : store :=
  mkStore (restaurants s) (restoMenus s) (restoReviews s) l (transactions s)
    (restoReviews_id_seq s) seq (transactions_id_seq s).

Definition with_transactions (s : store) (l : list Transaction.t) (seq : Z) : store :=
  mkStore (restaurants s) (restoMenus s) (restoReviews s) (userCartItems s) l
    (restoReviews_id_seq s) (userCartItems_id_seq s) seq.

(** ** The Prisma calls made by the handlers *)

Inductive op : Set :=
| restaurant_findUnique
| restaurant_update
| restoMenu_findFirst
| restoReview_findMany
| restoReview_findFirst
| restoReview_create
| restoReview_update
| restoReview_delete
| userCartItem_findMany
| userCartItem_findFirst
| userCartItem_create
| userCartItem_update
| userCartItem_delete
| userCartItem_deleteMany
| transaction_count
| transaction_findMany
| transaction_findFirst
| transaction_create
| transaction_update.

Definition op_eq_dec (a b : op) : {a = b} + {a <> b}.
Proof. decide equality. Defined.

(** What a request cannot control: the clock read by [Date.now()] and the
    database defaults, and which of its store calls fail (connection lost,
    timeout, ...). *)
Record env := mkEnv {
  now : Z;
  fails : op -> bool
}.

(** ** The handler monad *)

Record world := mkWorld {
  db : store;
  calls : list op
}.

Inductive outcome (A : Type) : Type :=
| Return (a : A) (w : world)
| Throw (w : world).
Arguments Return {A} a w.
Arguments Throw {A} w.

Definition M (A : Type) : Type := world -> outcome A.

Definition ret {A} (a : A) : M A := fun w => Return a w.

Definition bind {A B} (m : M A) (k : A -> M B) : M B :=
  fun w =>
    match m w with
    | Return a w' => k a w'
    | Throw w' => Throw w'
    end.

Definition throw {A} : M A := fun w => Throw w.

Definition try_catch {A} (body : M A) (handler : M A) : M A :=
  fun w =>
    match body w with
    | Return a w' => Return a w'
    | Throw w' => handler w'
    end.

(** Reading a property of [null] raises a TypeError. *)
Definition deref {A} (v : option A) : M A :=
  match v with
  | Some a => ret a
  | None => throw
  end.

Declare Scope M_scope.
Delimit Scope M_scope with M.
Notation "x <- m ;; k" := (bind m (fun x => k))
  (at level 61, m at next level, right associativity) : M_scope.
Notation "m ;;; k" := (bind m (fun _ => k))
  (at level 61, right associativity) : M_scope.
Open Scope M_scope.

(** [await prisma.<model>.<call>(...)]: the call is recorded; it throws when
    the environment makes it fail or when the query itself is rejected
    ([None]: a violated unique index, a record to update that is absent),
    and then leaves the tables as they were. *)
Definition prisma {A} (e : env) (o : op) (q : store -> option (A * store)) : M A :=
  fun w =>
    let called := calls w ++ [o] in
    if fails e o then Throw (mkWorld (db w) called)
    else match q (db w) with
         | Some (a, s') => Return a (mkWorld s' called)
         | None => Throw (mkWorld (db w) called)
         end.

(** A query that only reads. *)
Definition reading {A} (f : store -> A) : store -> option (A * store) :=
  fun s => Some (f s, s).

(** ** [src/utils/response.js] *)

Module Response.
Record t (D : Type) := mk {
  statusCode : Z;
  success : bool;
  message : string;
  data : option D
}.
Arguments mk {D}.
Arguments statusCode {D}.
Arguments success {D}.
Arguments message {D}.
Arguments data {D}.
End Response.

(** The defaults [message = "Success"], [statusCode = 200] are written out
    at the call sites that rely on them; [data = null] is [None]. *)
Definition successResponse {D} (data : option D) (message : string) (statusCode : Z)
  : Response.t D :=
  Response.mk statusCode true message data.

(** [errors] is never passed by the handlers below. *)
Definition errorResponse {D} (message : string) (statusCode : Z) : Response.t D :=
  Response.mk statusCode false message None.

(** A route handler: [async (req, res) => { try { body } catch (error)
    { return errorResponse(res, failure) } }], started on the store [s]. *)
Definition route {D} (body : M (Response.t D)) (failure : string) (s : store)
  : Response.t D * world :=
  match body (mkWorld s []) with
  | Return r w => (r, w)
  | Throw w => (errorResponse failure 500, w)
  end.

(** ** Queries against the store

    Each function is the effect of one Prisma call on the tables; [None]
    is a call rejected by the database. *)

Module Db.

(** [select: { id, name, logo }] and [select: { id, foodName, price, type,
    image }], the relations loaded by [include]. *)
Record restaurantSel := mkRestaurantSel {
  rs_id : Z;
  rs_name : string;
  rs_logo : option string
}.

Record menuSel := mkMenuSel {
  ms_id : Z;
  ms_foodName : string;
  ms_price : Z;
  ms_type : string;
  ms_image : option string
}.

Record cartItemIncluded := mkIncluded {
  item : UserCartItem.t;
  restaurant : option restaurantSel;
  menu : option menuSel
}.

Definition restaurant_by_id (id : Z) (s : store) : option Restaurant.t :=
  find (fun r => Restaurant.id r =? id) (restaurants s).

Definition menu_by_id (id : Z) (s : store) : option RestoMenu.t :=
  find (fun m => RestoMenu.id m =? id) (restoMenus s).

Definition select_restaurant (r : Restaurant.t) : restaurantSel :=
  mkRestaurantSel (Restaurant.id r) (Restaurant.name r) (Restaurant.logo r).

Definition select_menu (m : RestoMenu.t) : menuSel :=
  mkMenuSel (RestoMenu.id m) (RestoMenu.foodName m) (RestoMenu.price m)
    (RestoMenu.type m) (RestoMenu.image m).

(** [include: { restaurant: ..., menu: ... }] on a cart row: the related
    rows are read from the tables when the query runs. *)
Definition include (s : store) (c : UserCartItem.t) : cartItemIncluded :=
  mkIncluded c
    (option_map select_restaurant (restaurant_by_id (UserCartItem.restaurantId c) s))
    (option_map select_menu (menu_by_id (UserCartItem.menuId c) s)).

(** [restoMenu.findFirst({ where: { id, restaurantId } })] *)
Definition menu_of_restaurant (id restaurantId : Z) (s : store) : option RestoMenu.t :=
  find (fun m => (RestoMenu.id m =? id) && (RestoMenu.restaurantId m =? restaurantId))
    (restoMenus s).

(** [userCartItem.findFirst({ where: { userId, restaurantId, menuId } })] *)
Definition same_entry (userId restaurantId menuId : Z) (c : UserCartItem.t) : bool :=
  (UserCartItem.userId c =? userId)
  && (UserCartItem.restaurantId c =? restaurantId)
  && (UserCartItem.menuId c =? menuId).

Definition cart_entry (userId restaurantId menuId : Z) (s : store)
  : option UserCartItem.t :=
  find (same_entry userId restaurantId menuId) (userCartItems s).

(** [userCartItem.findFirst({ where: { id, userId } })] *)
Definition cart_item_of_user (id userId : Z) (s : store) : option UserCartItem.t :=
  find (fun c => (UserCartItem.id c =? id) && (UserCartItem.userId c =? userId))
    (userCartItems s).

(** [userCartItem.findMany({ where: { userId }, include })] *)
Definition cart_of_user (userId : Z) (s : store) : list UserCartItem.t :=
  filter (fun c => UserCartItem.userId c =? userId) (userCartItems s).

Definition cart_of_user_included (userId : Z) (s : store) : list cartItemIncluded :=
  map (include s) (cart_of_user userId s).

Definition set_quantity (quantity updatedAt : Z) (c : UserCartItem.t) : UserCartItem.t :=
  UserCartItem.mk (UserCartItem.id c) (UserCartItem.cartId c) (UserCartItem.userId c)
    (UserCartItem.restaurantId c) (UserCartItem.menuId c) quantity
    (UserCartItem.createdAt c) updatedAt.

(** [userCartItem.update({ where: { id }, data: { quantity }, include })]:
    rejected when no row has that id; [updatedAt] is refreshed. *)
Definition cart_update (e : env) (id quantity : Z) (s : store)
  : option (cartItemIncluded * store) :=
  match find (fun c => UserCartItem.id c =? id) (userCartItems s) with
  | None => None
  | Some c =>
      let rows := map (fun c' => if UserCartItem.id c' =? id
                                 then set_quantity quantity (now e) c' else c')
                    (userCartItems s) in
      let s' := with_userCartItems s rows (userCartItems_id_seq s) in
      Some (include s' (set_quantity quantity (now e) c), s')
  end.

(** [userCartItem.create({ data: { cartId, userId, restaurantId, menuId,
    quantity }, include })] *)
Definition cart_create (e : env) (cartId : string) (userId restaurantId menuId quantity : Z)
  (s : store) : option (cartItemIncluded * store) :=
  let c := UserCartItem.mk (userCartItems_id_seq s) cartId userId restaurantId menuId
             quantity (now e) (now e) in
  let s' := with_userCartItems s (userCartItems s ++ [c]) (userCartItems_id_seq s + 1) in
  Some (include s' c, s').

(** [userCartItem.delete({ where: { id } })] *)
Definition cart_delete (id : Z) (s : store) : option (unit * store) :=
  match find (fun c => UserCartItem.id c =? id) (userCartItems s) with
  | None => None
  | Some _ =>
      Some (tt, with_userCartItems s
                  (filter (fun c => negb (UserCartItem.id c =? id)) (userCartItems s))
                  (userCartItems_id_seq s))
  end.

(** [userCartItem.deleteMany({ where: { userId } })] *)
Definition cart_deleteMany (userId : Z) (s : store) : option (unit * store) :=
  Some (tt, with_userCartItems s
              (filter (fun c => negb (UserCartItem.userId c =? userId)) (userCartItems s))
              (userCartItems_id_seq s)).

(** [transaction.create({ data })].  The unique index on
    [transactions.transactionId] rejects a second row with the same
    identifier; [createdAt] and [updatedAt] take the current time. *)
Definition transaction_insert (e : env) (transactionId : string) (userId : Z)
  (paymentMethod : string) (price serviceFee deliveryFee totalPrice : Z)
  (status : string) (items : list OrderItem.t) (s : store)
  : option (Transaction.t * store) :=
  if existsb (fun t => (Transaction.transactionId t =? transactionId)%string)
       (transactions s)
  then None
  else
    let t := Transaction.mk (transactions_id_seq s) transactionId userId paymentMethod
               price serviceFee deliveryFee totalPrice status items (now e) (now e) in
    Some (t, with_transactions s (transactions s ++ [t]) (transactions_id_seq s + 1)).

(** The [where] clause of GET /my-order: [{ userId }], with [status]
    when the query gives one. *)
Definition order_matches (userId : Z) (status : option string) (t : Transaction.t) : bool :=
  (Transaction.userId t =? userId)
  && match status with
     | Some st => (Transaction.status t =? st)%string
     | None => true
     end.

Definition orders_where (userId : Z) (status : option string) (s : store)
  : list Transaction.t :=
  filter (order_matches userId status) (transactions s).

(** [orderBy: { createdAt: "desc" }]; rows with equal timestamps keep
    their table order. *)
Fixpoint insert_desc (t : Transaction.t) (l : list Transaction.t) : list Transaction.t :=
  match l with
  | [] => [t]
  | t' :: l' =>
      if Transaction.createdAt t' <=? Transaction.createdAt t
      then t :: t' :: l'
      else t' :: insert_desc t l'
  end.

Definition order_by_createdAt_desc (l : list Transaction.t) : list Transaction.t :=
  fold_right insert_desc [] l.

(** [transaction.findMany({ where, orderBy, skip, take })] *)
Definition orders_page (userId : Z) (status : option string) (skip take : Z) (s : store)
  : list Transaction.t :=
  firstn (Z.to_nat take)
    (skipn (Z.to_nat skip) (order_by_createdAt_desc (orders_where userId status s))).

(** [transaction.findFirst({ where: { id, userId } })] *)
Definition order_of_user (id userId : Z) (s : store) : option Transaction.t :=
  find (fun t => (Transaction.id t =? id) && (Transaction.userId t =? userId))
    (transactions s).

(** [transaction.findFirst({ where: { transactionId, userId } })] *)
Definition order_by_transactionId (transactionId : string) (userId : Z) (s : store)
  : option Transaction.t :=
  find (fun t => (Transaction.transactionId t =? transactionId)%string
                 && (Transaction.userId t =? userId))
    (transactions s).

Definition set_status (status : string) (updatedAt : Z) (t : Transaction.t)
  : Transaction.t :=
  Transaction.mk (Transaction.id t) (Transaction.transactionId t) (Transaction.userId t)
    (Transaction.paymentMethod t) (Transaction.price t) (Transaction.serviceFee t)
    (Transaction.deliveryFee t) (Transaction.totalPrice t) status (Transaction.items t)
    (Transaction.createdAt t) updatedAt.

(** Modelled from the spec: the Prisma schema that declares
    [Transaction.updatedAt] is not among the sources; a status update
    "updates status and the update timestamp".

    [transaction.update({ where: { id }, data: { status } })]: rejected
    when no row has that id. *)
Definition transaction_set_status (e : env) (id : Z) (status : string) (s : store)
  : option (Transaction.t * store) :=
  match find (fun t => Transaction.id t =? id) (transactions s) with
  | None => None
  | Some t =>
      let rows := map (fun t' => if Transaction.id t' =? id
                                 then set_status status (now e) t' else t')
                    (transactions s) in
      Some (set_status status (now e) t,
            with_transactions s rows (transactions_id_seq s))
  end.

(** [restoReview.findMany({ where: { restaurantId }, select: { star: true } })] *)
Definition reviews_of_restaurant (restaurantId : Z) (s : store) : list RestoReview.t :=
  filter (fun r => RestoReview.restaurantId r =? restaurantId) (restoReviews s).

Definition stars_of_restaurant (restaurantId : Z) (s : store) : list Z :=
  map RestoReview.star (reviews_of_restaurant restaurantId s).

(** [restaurant.update({ where: { id }, data: { star } })]: rejected when
    no row has that id. *)
Definition restaurant_set_star (id : Z) (star : Q) (s : store) : option (unit * store) :=
  match restaurant_by_id id s with
  | None => None
  | Some _ =>
      Some (tt, with_restaurants s
                  (map (fun r => if Restaurant.id r =? id
                                 then Restaurant.with_star r star else r)
                     (restaurants s)))
  end.

(** [restoReview.findFirst({ where: { userId, restaurantId } })] *)
Definition review_of_pair (userId restaurantId : Z) (s : store) : option RestoReview.t :=
  find (fun r => (RestoReview.userId r =? userId)
                 && (RestoReview.restaurantId r =? restaurantId))
    (restoReviews s).

(** [restoReview.findFirst({ where: { id, userId } })] *)
Definition review_of_user (id userId : Z) (s : store) : option RestoReview.t :=
  find (fun r => (RestoReview.id r =? id) && (RestoReview.userId r =? userId))
    (restoReviews s).

(** [include: { restaurant: { select: { id, name } } }] *)
Record restaurantRef := mkRestaurantRef {
  rr_id : Z;
  rr_name : string
}.

Record reviewIncluded := mkReviewIncluded {
  review : RestoReview.t;
  review_restaurant : option restaurantRef
}.

Definition include_review (s : store) (r : RestoReview.t) : reviewIncluded :=
  mkReviewIncluded r
    (option_map (fun x => mkRestaurantRef (Restaurant.id x) (Restaurant.name x))
       (restaurant_by_id (RestoReview.restaurantId r) s)).

(** [restoReview.create({ data: { userId, restaurantId, star, comment },
    include })] *)
Definition review_insert (e : env) (userId restaurantId star : Z) (comment : option string)
  (s : store) : option (reviewIncluded * store) :=
  let r := RestoReview.mk (restoReviews_id_seq s) userId restaurantId star comment
             (now e) (now e) in
  let s' := with_restoReviews s (restoReviews s ++ [r]) (restoReviews_id_seq s + 1) in
  Some (include_review s' r, s').

(** The [data] of the review update: [star] and [comment] are present
    only when the handler spreads them in. *)
Definition review_patch (star : option Z) (comment : option (option string))
  (updatedAt : Z) (r : RestoReview.t) : RestoReview.t :=
  RestoReview.mk (RestoReview.id r) (RestoReview.userId r) (RestoReview.restaurantId r)
    (match star with Some v => v | None => RestoReview.star r end)
    (match comment with Some c => c | None => RestoReview.comment r end)
    (RestoReview.createdAt r) updatedAt.

(** [restoReview.update({ where: { id }, data, include })] *)
Definition review_update (e : env) (id : Z) (star : option Z)
  (comment : option (option string)) (s : store) : option (reviewIncluded * store) :=
  match find (fun r => RestoReview.id r =? id) (restoReviews s) with
  | None => None
  | Some r =>
      let rows := map (fun r' => if RestoReview.id r' =? id
                                 then review_patch star comment (now e) r' else r')
                    (restoReviews s) in
      let s' := with_restoReviews s rows (restoReviews_id_seq s) in
      Some (include_review s' (review_patch star comment (now e) r), s')
  end.

(** [restoReview.delete({ where: { id } })] *)
Definition review_delete (id : Z) (s : store) : option (unit * store) :=
  match find (fun r => RestoReview.id r =? id) (restoReviews s) with
  | None => None
  | Some _ =>
      Some (tt, with_restoReviews s
                  (filter (fun r => negb (RestoReview.id r =? id)) (restoReviews s))
                  (restoReviews_id_seq s))
  end.

(** [orderBy: { createdAt: "desc" }] on cart rows; rows with equal
    timestamps keep their table order. *)
Fixpoint insert_cart_desc (c : UserCartItem.t) (l : list UserCartItem.t)
  : list UserCartItem.t :=
  match l with
  | [] => [c]
  | c' :: l' =>
      if UserCartItem.createdAt c' <=? UserCartItem.createdAt c
      then c :: c' :: l'
      else c' :: insert_cart_desc c l'
  end.

Definition cart_by_createdAt_desc (l : list UserCartItem.t) : list UserCartItem.t :=
  fold_right insert_cart_desc [] l.

(** [userCartItem.findMany({ where: { userId }, include, orderBy:
    { createdAt: "desc" } })] *)
Definition cart_newest_first (userId : Z) (s : store) : list cartItemIncluded :=
  map (include s) (cart_by_createdAt_desc (cart_of_user userId s)).

(** One group of [restoReview.groupBy({ by: ["star"], _count: { star: true } })]:
    a star value and the number of rows that hold it. *)
Record starGroup := mkStarGroup { g_star : Z; g_count : Z }.

(** [restoReview.groupBy({ by: ["star"], where: { restaurantId },
    _count: { star: true } })]: one group for each star value the reviews
    of the restaurant hold. *)
Definition review_groupBy_star (restaurantId : Z) (s : store) : list starGroup :=
  let stars := stars_of_restaurant restaurantId s in
  map (fun k => mkStarGroup k (Z.of_nat (count_occ Z.eq_dec stars k)))
    (nodup Z.eq_dec stars).

End Db.

(** ** [src/routes/cart.js] *)

Module Cart.

Record cartItemData := mkCartItemData {
  id : Z;
  restaurant : option Db.restaurantSel;
  menu : Db.menuSel;
  quantity : Z;
  itemTotal : Z
}.

(** An entry of [groupedCart[...].items] in GET /cart. *)
Record cartLine := mkCartLine {
  cl_id : Z;
  cl_menu : Db.menuSel;
  cl_quantity : Z;
  cl_itemTotal : Z
}.

(** A value of [groupedCart]. *)
Record cartGroup := mkCartGroup {
  gr_restaurant : option Db.restaurantSel;
  gr_items : list cartLine;
  gr_subtotal : Z
}.

Record cartSummary := mkCartSummary {
  sm_totalItems : Z;
  sm_totalPrice : Z;
  sm_restaurantCount : Z
}.

Record cartData := mkCartData {
  cart : list cartGroup;
  summary : cartSummary
}.

(** The variables the [forEach] of GET /cart assigns. *)
Record cartTotals := mkCartTotals {
  groupedCart : JS.object cartGroup;
  totalItems : Z;
  totalPrice : Z
}.

(** The callback of that [forEach]; [None] is the TypeError of reading
    [item.menu.price] on [null].  Its product and its three [+=] are
    operations on doubles. *)
Definition group_cart_item (acc : cartTotals) (item : Db.cartItemIncluded)
  : option cartTotals :=
  match Db.menu item with
  | Some menu =>
      let restaurantId := UserCartItem.restaurantId (Db.item item) in
      let itemTotal := JS.mul (Db.ms_price menu) (UserCartItem.quantity (Db.item item)) in
      let group :=
        match JS.get (groupedCart acc) restaurantId with
        | Some g => g
        | None => mkCartGroup (Db.restaurant item) [] 0
        end in
      Some (mkCartTotals
              (JS.set (groupedCart acc) restaurantId
                 (mkCartGroup (gr_restaurant group)
                    (gr_items group
                     ++ [mkCartLine (UserCartItem.id (Db.item item)) menu
                           (UserCartItem.quantity (Db.item item)) itemTotal])
                    (JS.add (gr_subtotal group) itemTotal)))
              (JS.add (totalItems acc) (UserCartItem.quantity (Db.item item)))
              (JS.add (totalPrice acc) itemTotal))
  | None => None
  end.

Section Handlers.
Variable e : env.
Variable userId : Z.   (* req.user.id *)

(** The [cartItem] object in the answers of POST /cart and PUT /cart/:id;
    [itemTotal] is a product of doubles. *)
Definition cartItem_json (cartItem : Db.cartItemIncluded) : M cartItemData :=
  menu <- deref (Db.menu cartItem) ;;
  ret (mkCartItemData
         (UserCartItem.id (Db.item cartItem))
         (Db.restaurant cartItem)
         menu
         (UserCartItem.quantity (Db.item cartItem))
         (JS.mul (Db.ms_price menu) (UserCartItem.quantity (Db.item cartItem)))).

(** POST /cart: add an item to the cart.  [quantity = 1] when the body
    has none. *)
Definition post_cart_body (restaurantId menuId : Z) (quantity_opt : option Z)
  : M (Response.t cartItemData) :=
  let quantity := match quantity_opt with Some q => q | None => 1 end in
  restaurant <- prisma e restaurant_findUnique
                  (reading (Db.restaurant_by_id restaurantId)) ;;
  match restaurant with
  | None => ret (errorResponse "Restaurant not found" 404)
  | Some _ =>
      menu <- prisma e restoMenu_findFirst
                (reading (Db.menu_of_restaurant menuId restaurantId)) ;;
      match menu with
      | None => ret (errorResponse "Menu item not found" 404)
      | Some _ =>
          let cartId := ("cart_" ++ JS.toString userId ++ "_" ++ JS.toString (now e))%string in
          existingCartItem <- prisma e userCartItem_findFirst
                                (reading (Db.cart_entry userId restaurantId menuId)) ;;
          cartItem <-
            match existingCartItem with
            | Some existing =>
                prisma e userCartItem_update
                  (Db.cart_update e (UserCartItem.id existing)
                     (UserCartItem.quantity existing + quantity))
            | None =>
                prisma e userCartItem_create
                  (Db.cart_create e cartId userId restaurantId menuId quantity)
            end ;;
          json <- cartItem_json cartItem ;;
          ret (successResponse (Some json) "Item added to cart successfully" 201)
      end
  end.

Definition post_cart (restaurantId menuId : Z) (quantity : option Z) (s : store) :=
  route (post_cart_body restaurantId menuId quantity) "Failed to add item to cart" s.

(** PUT /cart/:id: replace the quantity.  [id] is [Number.parseInt] of
    the path parameter. *)
Definition put_cart_body (id quantity : Z) : M (Response.t cartItemData) :=
  cartItem <- prisma e userCartItem_findFirst (reading (Db.cart_item_of_user id userId)) ;;
  match cartItem with
  | None => ret (errorResponse "Cart item not found" 404)
  | Some _ =>
      updatedCartItem <- prisma e userCartItem_update (Db.cart_update e id quantity) ;;
      json <- cartItem_json updatedCartItem ;;
      ret (successResponse (Some json) "Success" 200)
  end.

Definition put_cart (id quantity : Z) (s : store) :=
  route (put_cart_body id quantity) "Failed to update cart item" s.

(** DELETE /cart/:id *)
Definition delete_cart_item_body (id : Z) : M (Response.t unit) :=
  cartItem <- prisma e userCartItem_findFirst (reading (Db.cart_item_of_user id userId)) ;;
  match cartItem with
  | None => ret (errorResponse "Cart item not found" 404)
  | Some _ =>
      prisma e userCartItem_delete (Db.cart_delete id) ;;;
      ret (successResponse None "Item removed from cart successfully" 200)
  end.

Definition delete_cart_item (id : Z) (s : store) :=
  route (delete_cart_item_body id) "Failed to remove cart item" s.

(** DELETE /cart *)
Definition delete_cart_body : M (Response.t unit) :=
  prisma e userCartItem_deleteMany (Db.cart_deleteMany userId) ;;;
  ret (successResponse None "Cart cleared successfully" 200).

Definition delete_cart (s : store) :=
  route delete_cart_body "Failed to clear cart" s.

(** GET /cart: the cart grouped by restaurant, with its summary. *)
Definition get_cart_body : M (Response.t cartData) :=
  cartItems <- prisma e userCartItem_findMany (reading (Db.cart_newest_first userId)) ;;
  acc <- deref (JS.forEach group_cart_item cartItems (mkCartTotals [] 0 0)) ;;
  let cartArray := JS.values (groupedCart acc) in
  ret (successResponse
         (Some (mkCartData cartArray
                  (mkCartSummary (totalItems acc) (totalPrice acc)
                     (Z.of_nat (List.length cartArray)))))
         "Success" 200).

Definition get_cart (s : store) :=
  route get_cart_body "Failed to get cart" s.

End Handlers.

End Cart.

(** ** [src/routes/order.js] *)

Module Order.

(** An entry of [restaurantGroups[...].items]. *)
Record lineView := mkLineView {
  lv_menuId : Z;
  lv_menuName : string;
  lv_price : Z;
  lv_quantity : Z;
  lv_itemTotal : Z
}.

(** A value of [restaurantGroups] in the checkout handler. *)
Record checkoutGroup := mkCheckoutGroup {
  cg_restaurant : Db.restaurantSel;
  cg_items : list lineView;
  cg_subtotal : Z
}.

Record pricing := mkPricing {
  p_subtotal : Z;
  p_serviceFee : Z;
  p_deliveryFee : Z;
  p_totalPrice : Z
}.

Record checkoutData := mkCheckoutData {
  cd_id : Z;
  cd_transactionId : string;
  cd_paymentMethod : string;
  cd_status : string;
  cd_pricing : pricing;
  cd_restaurants : list checkoutGroup;
  cd_createdAt : Z
}.

(** The variables the [forEach] of the checkout handler assigns. *)
Record totals := mkTotals {
  subtotal : Z;
  orderItems : list OrderItem.t;
  restaurantGroups : JS.object checkoutGroup
}.

(** [cartItems.forEach(...)] whose callback may raise: the iteration stops
    at the first exception. *)
Fixpoint forEach {A S : Type} (f : S -> A -> option S) (l : list A) (acc : S) : option S :=
  match l with
  | [] => Some acc
  | x :: l' =>
      match f acc x with
      | Some acc' => forEach f l' acc'
      | None => None
      end
  end.

(** The callback of the [forEach]; [None] is the TypeError of reading
    [item.menu.price] or [item.restaurant.name] on [null]. *)
Definition checkout_item (acc : totals) (item : Db.cartItemIncluded) : option totals :=
  match Db.menu item, Db.restaurant item with
  | Some menu, Some restaurant =>
      let row := Db.item item in
      let itemTotal := Db.ms_price menu * UserCartItem.quantity row in
      let line :=
        OrderItem.mk (UserCartItem.restaurantId row) (Db.rs_name restaurant)
          (UserCartItem.menuId row) (Db.ms_foodName menu) (Db.ms_price menu)
          (UserCartItem.quantity row) itemTotal in
      let group :=
        match JS.get (restaurantGroups acc) (UserCartItem.restaurantId row) with
        | Some g => g
        | None => mkCheckoutGroup restaurant [] 0
        end in
      let view :=
        mkLineView (UserCartItem.menuId row) (Db.ms_foodName menu) (Db.ms_price menu)
          (UserCartItem.quantity row) itemTotal in
      Some (mkTotals
              (subtotal acc + itemTotal)
              (orderItems acc ++ [line])
              (JS.set (restaurantGroups acc) (UserCartItem.restaurantId row)
                 (mkCheckoutGroup (cg_restaurant group) (cg_items group ++ [view])
                    (cg_subtotal group + itemTotal))))
  | _, _ => None
  end.

Definition serviceFee : Z := 1000.
Definition deliveryFee : Z := 10000.

(** [`TXN${Date.now()}${userId}`] *)
Definition transactionId (now userId : Z) : string :=
  ("TXN" ++ JS.toString now ++ JS.toString userId)%string.

(** A value of [restaurantGroups] in GET /my-order. *)
Record orderGroup := mkOrderGroup {
  og_restaurantId : Z;
  og_restaurantName : string;
  og_items : list lineView;
  og_subtotal : Z
}.

Record formattedOrder := mkFormattedOrder {
  fo_id : Z;
  fo_transactionId : string;
  fo_status : string;
  fo_paymentMethod : string;
  fo_pricing : pricing;
  fo_restaurants : list orderGroup;
  fo_createdAt : Z;
  fo_updatedAt : Z
}.

(** The callback of [order.items.forEach(...)]; its [subtotal +=] is an
    addition of doubles. *)
Definition group_item (groups : JS.object orderGroup) (item : OrderItem.t)
  : JS.object orderGroup :=
  let group :=
    match JS.get groups (OrderItem.restaurantId item) with
    | Some g => g
    | None => mkOrderGroup (OrderItem.restaurantId item) (OrderItem.restaurantName item) [] 0
    end in
  JS.set groups (OrderItem.restaurantId item)
    (mkOrderGroup (og_restaurantId group) (og_restaurantName group)
       (og_items group
        ++ [mkLineView (OrderItem.menuId item) (OrderItem.menuName item)
              (OrderItem.price item) (OrderItem.quantity item) (OrderItem.itemTotal item)])
       (JS.add (og_subtotal group) (OrderItem.itemTotal item))).

(** The callback of [orders.map(...)]. *)
Definition format_order (order : Transaction.t) : formattedOrder :=
  let restaurantGroups := fold_left group_item (Transaction.items order) [] in
  mkFormattedOrder (Transaction.id order) (Transaction.transactionId order)
    (Transaction.status order) (Transaction.paymentMethod order)
    (mkPricing (Transaction.price order) (Transaction.serviceFee order)
       (Transaction.deliveryFee order) (Transaction.totalPrice order))
    (JS.values restaurantGroups)
    (Transaction.createdAt order) (Transaction.updatedAt order).

Record pagination := mkPagination {
  pg_page : Z;
  pg_limit : Z;
  pg_total : Z;
  pg_totalPages : Z
}.

Record myOrderData := mkMyOrderData {
  mo_orders : list formattedOrder;
  mo_pagination : pagination;
  mo_filter_status : string
}.

Record statusData := mkStatusData {
  sd_id : Z;
  sd_transactionId : string;
  sd_status : string;
  sd_updatedAt : Z
}.

Definition validStatuses : list string :=
  ["preparing"; "on_the_way"; "delivered"; "done"; "cancelled"].

(** [validStatuses.includes(status)]; an absent [status] is [undefined],
    which the array does not contain. *)
Definition includes (l : list string) (v : option string) : bool :=
  match v with
  | Some st => existsb (fun x => (x =? st)%string) l
  | None => false
  end.

Section Handlers.
Variable e : env.
Variable userId : Z.   (* req.user.id *)

(** POST /checkout.  The body fields [deliveryAddress] and [notes] are
    read and never used. *)
Definition post_checkout_body (paymentMethod : string) : M (Response.t checkoutData) :=
  cartItems <- prisma e userCartItem_findMany
                 (reading (Db.cart_of_user_included userId)) ;;
  if (Z.of_nat (List.length cartItems) =? 0) then ret (errorResponse "Cart is empty" 400)
  else
    acc <- deref (forEach checkout_item cartItems (mkTotals 0 [] [])) ;;
    let totalPrice := subtotal acc + serviceFee + deliveryFee in
    transaction <- prisma e transaction_create
                     (Db.transaction_insert e (transactionId (now e) userId) userId
                        paymentMethod (subtotal acc) serviceFee deliveryFee totalPrice
                        "preparing" (orderItems acc)) ;;
    prisma e userCartItem_deleteMany (Db.cart_deleteMany userId) ;;;
    ret (successResponse
           (Some (mkCheckoutData
                    (Transaction.id transaction)
                    (Transaction.transactionId transaction)
                    (Transaction.paymentMethod transaction)
                    (Transaction.status transaction)
                    (mkPricing (subtotal acc) serviceFee deliveryFee totalPrice)
                    (JS.values (restaurantGroups acc))
                    (Transaction.createdAt transaction)))
           "Order placed successfully" 201).

Definition post_checkout (paymentMethod : string) (s : store) :=
  route (post_checkout_body paymentMethod) "Failed to process checkout" s.

(** GET /my-order.  [status] is absent or one of [validStatuses];
    [page] and [limit] are the integers read by [Number.parseInt], at
    least 1 after validation, with the defaults 1 and 10. *)
Definition get_my_order_body (status : option string) (page_opt limit_opt : option Z)
  : M (Response.t myOrderData) :=
  let page := match page_opt with Some p => p | None => 1 end in
  let limit := match limit_opt with Some l => l | None => 10 end in
  let status := match status with Some "" => None | st => st end in
  totalOrders <- prisma e transaction_count
                   (reading (fun s => Z.of_nat (List.length (Db.orders_where userId status s)))) ;;
  orders <- prisma e transaction_findMany
              (reading (Db.orders_page userId status ((page - 1) * limit) limit)) ;;
  ret (successResponse
         (Some (mkMyOrderData
                  (map format_order orders)
                  (mkPagination page limit totalOrders
                     (Qceiling (inject_Z totalOrders / inject_Z limit)))
                  (match status with Some st => st | None => "all" end)))
         "Success" 200).

Definition get_my_order (status : option string) (page limit : option Z) (s : store) :=
  route (get_my_order_body status page limit) "Failed to get orders" s.

(** PUT /:id/status.  [id] is [Number.parseInt] of the path parameter. *)
Definition put_status_body (id : Z) (status : option string) : M (Response.t statusData) :=
  if negb (includes validStatuses status) then ret (errorResponse "Invalid status" 400)
  else
    order <- prisma e transaction_findFirst (reading (Db.order_of_user id userId)) ;;
    match order with
    | None => ret (errorResponse "Order not found" 404)
    | Some _ =>
        updatedOrder <- prisma e transaction_update
                          (Db.transaction_set_status e id
                             (match status with Some st => st | None => "" end)) ;;
        ret (successResponse
               (Some (mkStatusData
                        (Transaction.id updatedOrder)
                        (Transaction.transactionId updatedOrder)
                        (Transaction.status updatedOrder)
                        (Transaction.updatedAt updatedOrder)))
               "Success" 200)
    end.

Definition put_status (id : Z) (status : option string) (s : store) :=
  route (put_status_body id status) "Failed to update order status" s.

End Handlers.

End Order.

(** ** [src/routes/review.js] *)

Module Review.

(** The [review] object of the responses.  The [user] relation of the
    created review lives in the accounts table, which is outside this
    model; only the requesting user's id is kept. *)
Record reviewData := mkReviewData {
  rd_id : Z;
  rd_star : Z;
  rd_comment : option string;
  rd_timestamp : Z;
  rd_user : option Z;
  rd_restaurant : option Db.restaurantRef
}.

Section Handlers.
Variable e : env.

(** Helper: update the restaurant's average rating.  Its own
    [try]/[catch] logs the error and returns normally. *)
Definition updateRestaurantRating (restaurantId : Z) : M unit :=
  try_catch
    (reviews <- prisma e restoReview_findMany
                  (reading (Db.stars_of_restaurant restaurantId)) ;;
     if (0 <? Z.of_nat (List.length reviews)) then
       let total := fold_left (fun sum star => sum + star) reviews 0 in
       let averageRating :=
         (inject_Z total / inject_Z (Z.of_nat (List.length reviews)))%Q in
       prisma e restaurant_update
         (Db.restaurant_set_star restaurantId
            (Qred (inject_Z (JS.Math_round (averageRating * 10)) / 10)%Q))
     else ret tt)
    (ret tt).

Variable userId : Z.   (* req.user.id *)

(** POST /review *)
Definition post_review_body (transactionId : string) (restaurantId star : Z)
  (comment : option string) : M (Response.t reviewData) :=
  transaction <- prisma e transaction_findFirst
                   (reading (Db.order_by_transactionId transactionId userId)) ;;
  match transaction with
  | None => ret (errorResponse "Transaction not found or does not belong to you" 404)
  | Some transaction =>
      restaurant <- prisma e restaurant_findUnique
                      (reading (Db.restaurant_by_id restaurantId)) ;;
      match restaurant with
      | None => ret (errorResponse "Restaurant not found" 404)
      | Some _ =>
          let hasOrderedFromRestaurant :=
            existsb (fun item => OrderItem.restaurantId item =? restaurantId)
              (Transaction.items transaction) in
          if negb hasOrderedFromRestaurant
          then ret (errorResponse
                      "You can only review restaurants you have ordered from" 400)
          else
            existingReview <- prisma e restoReview_findFirst
                                (reading (Db.review_of_pair userId restaurantId)) ;;
            match existingReview with
            | Some _ =>
                ret (errorResponse "You have already reviewed this restaurant" 409)
            | None =>
                review <- prisma e restoReview_create
                            (Db.review_insert e userId restaurantId star
                               (match comment with
                                | Some "" => None   (* comment || null *)
                                | c => c
                                end)) ;;
                updateRestaurantRating restaurantId ;;;
                ret (successResponse
                       (Some (mkReviewData
                                (RestoReview.id (Db.review review))
                                (RestoReview.star (Db.review review))
                                (RestoReview.comment (Db.review review))
                                (RestoReview.createdAt (Db.review review))
                                (Some (RestoReview.userId (Db.review review)))
                                (Db.review_restaurant review)))
                       "Review created successfully" 201)
            end
      end
  end.

Definition post_review (transactionId : string) (restaurantId star : Z)
  (comment : option string) (s : store) :=
  route (post_review_body transactionId restaurantId star comment)
    "Failed to create review" s.

(** PUT /review/:id.  No validation middleware runs before this handler.
    [id] is [Number.parseInt] of the path parameter; [star] is absent
    or an integer-valued number; [comment] is absent ([None]), [null]
    or a string. *)
Definition put_review_body (id : Z) (star : option Z) (comment : option (option string))
  : M (Response.t reviewData) :=
  if JS.truthy star
     && match star with Some v => (v <? 1) || (5 <? v) | None => false end
  then ret (errorResponse "Rating must be between 1 and 5 stars" 400)
  else
    review <- prisma e restoReview_findFirst (reading (Db.review_of_user id userId)) ;;
    match review with
    | None => ret (errorResponse "Review not found or does not belong to you" 404)
    | Some review =>
        updatedReview <- prisma e restoReview_update
                           (Db.review_update e id
                              (if JS.truthy star then star else None)
                              comment) ;;
        (if JS.truthy star
         then updateRestaurantRating (RestoReview.restaurantId review)
         else ret tt) ;;;
        ret (successResponse
               (Some (mkReviewData
                        (RestoReview.id (Db.review updatedReview))
                        (RestoReview.star (Db.review updatedReview))
                        (RestoReview.comment (Db.review updatedReview))
                        (RestoReview.updatedAt (Db.review updatedReview))
                        None
                        (Db.review_restaurant updatedReview)))
               "Success" 200)
    end.

Definition put_review (id : Z) (star : option Z) (comment : option (option string))
  (s : store) :=
  route (put_review_body id star comment) "Failed to update review" s.

(** DELETE /review/:id *)
Definition delete_review_body (id : Z) : M (Response.t unit) :=
  review <- prisma e restoReview_findFirst (reading (Db.review_of_user id userId)) ;;
  match review with
  | None => ret (errorResponse "Review not found or does not belong to you" 404)
  | Some review =>
      prisma e restoReview_delete (Db.review_delete id) ;;;
      updateRestaurantRating (RestoReview.restaurantId review) ;;;
      ret (successResponse None "Review deleted successfully" 200)
  end.

Definition delete_review (id : Z) (s : store) :=
  route (delete_review_body id) "Failed to delete review" s.

End Handlers.

(** [ratingStats] of GET /review/restaurant/:restaurantId: an object with
    the keys 1 to 5 at 0, in which [ratingDistribution.forEach] stores the
    count of every group under its star. *)
Definition ratingStats (ratingDistribution : list Db.starGroup) : JS.object Z :=
  fold_left (fun stats rating => JS.set stats (Db.g_star rating) (Db.g_count rating))
    ratingDistribution
    [(1, 0); (2, 0); (3, 0); (4, 0); (5, 0)].

End Review.

(** ** Sums, and a change of menu price *)

Fixpoint sumZ (l : list Z) : Z :=
  match l with
  | [] => 0
  | x :: l' => x + sumZ l'
  end.

(** The catalogue changes the price of a menu; no route of this service
    does it, so it is an update of the [resto_menus] table. *)
Definition set_menu_price (menuId price : Z) (s : store) : store :=
  with_restoMenus s
    (map (fun m => if RestoMenu.id m =? menuId then RestoMenu.with_price m price else m)
       (restoMenus s)).

(** An environment in which no store call fails. *)
Definition reliable (e : env) : Prop := forall o, fails e o = false.

(** ** What checkout is expected to write *)

(** The line item that freezes the cart entry [c] against the catalogue of
    the store [s]. *)
Definition line_of (s : store) (c : UserCartItem.t) (line : OrderItem.t) : Prop :=
  exists m r,
    Db.menu_by_id (UserCartItem.menuId c) s = Some m
    /\ Db.restaurant_by_id (UserCartItem.restaurantId c) s = Some r
    /\ line = OrderItem.mk (UserCartItem.restaurantId c) (Restaurant.name r)
                (UserCartItem.menuId c) (RestoMenu.foodName m) (RestoMenu.price m)
                (UserCartItem.quantity c)
                (RestoMenu.price m * UserCartItem.quantity c).

(** The order row built from the cart of [u] in [s] at time [now e]. *)
Definition checkout_order (e : env) (u : Z) (paymentMethod : string) (s : store)
  (t : Transaction.t) : Prop :=
  exists lines,
    Forall2 (line_of s) (Db.cart_of_user u s) lines
    /\ t = Transaction.mk (transactions_id_seq s) (Order.transactionId (now e) u) u
             paymentMethod (sumZ (map OrderItem.itemTotal lines)) 1000 10000
             (sumZ (map OrderItem.itemTotal lines) + 1000 + 10000)
             "preparing" lines (now e) (now e).

(** Creation and clearing taken as one unit: from the store [s] the
    checkout of [u] either changes nothing, or leaves a new order row and an
    empty cart for [u]. *)
Definition all_or_nothing (u : Z) (s s' : store) : Prop :=
  s' = s
  \/ ((exists t, transactions s' = transactions s ++ [t]) /\ Db.cart_of_user u s' = []).

(** The three ways a checkout can end: nothing was written; the order was
    written and clearing the cart failed; the order was written and the
    cart cleared. *)
Inductive checkout_result (e : env) (u : Z) (paymentMethod : string) (s : store)
  : Response.t Order.checkoutData -> store -> Prop :=
| checkout_refused r :
    Response.statusCode r <> 201 ->
    checkout_result e u paymentMethod s r s
| checkout_half t :
    checkout_order e u paymentMethod s t ->
    fails e transaction_create = false ->
    (forall t', In t' (transactions s) ->
                Transaction.transactionId t' <> Order.transactionId (now e) u) ->
    fails e userCartItem_deleteMany = true ->
    checkout_result e u paymentMethod s
      (errorResponse "Failed to process checkout" 500)
      (with_transactions s (transactions s ++ [t]) (transactions_id_seq s + 1))
| checkout_done t r :
    checkout_order e u paymentMethod s t ->
    fails e transaction_create = false ->
    (forall t', In t' (transactions s) ->
                Transaction.transactionId t' <> Order.transactionId (now e) u) ->
    Db.cart_of_user u s <> [] ->
    Response.statusCode r = 201 ->
    option_map Order.cd_pricing (Response.data r)
    = Some (Order.mkPricing (Transaction.price t) 1000 10000 (Transaction.totalPrice t)) ->
    checkout_result e u paymentMethod s r
      (with_userCartItems
         (with_transactions s (transactions s ++ [t]) (transactions_id_seq s + 1))
         (filter (fun c => negb (UserCartItem.userId c =? u)) (userCartItems s))
         (userCartItems_id_seq s)).

(** ** Sequences of additions to the cart *)

(** The quantity a POST /cart request passes: 1 when the body has none. *)
Definition quantity_passed (quantity : option Z) : Z :=
  match quantity with
  | Some q => q
  | None => 1
  end.

(** Successive POST /cart requests of the user [u] for the same restaurant
    and menu, each with its own environment and optional quantity; the
    responses in order, and the store after the last one. *)
Fixpoint add_items (u restaurantId menuId : Z) (requests : list (env * option Z))
  (s : store) : list (Response.t Cart.cartItemData) * store :=
  match requests with
  | [] => ([], s)
  | (e, quantity) :: requests' =>
      let (response, w) := Cart.post_cart e u restaurantId menuId quantity s in
      let (responses, s') := add_items u restaurantId menuId requests' (db w) in
      (response :: responses, s')
  end.

(** The cart entries stored for a (user, restaurant, menu) triple. *)
Definition entries (u restaurantId menuId : Z) (s : store) : list UserCartItem.t :=
  filter (Db.same_entry u restaurantId menuId) (userCartItems s).

(** ** Ratings *)

(** The store a computation leaves behind, started on [s]. *)
Definition exec {A} (m : M A) (s : store) : store :=
  match m (mkWorld s []) with
  | Return _ w => db w
  | Throw w => db w
  end.

(** The arithmetic mean of a list of star values. *)
Definition mean (stars : list Z) : Q :=
  (inject_Z (sumZ stars) / inject_Z (Z.of_nat (List.length stars)))%Q.

(** [v] is [x] rounded to one decimal place, half-up: [v] is a whole number
    of tenths, and [x] lies in the interval from [v - 0.05] included to
    [v + 0.05] excluded. *)
Definition rounded_to_tenths (x v : Q) : Prop :=
  ((exists k : Z, v == inject_Z k / 10) /\ v - (1 # 20) <= x /\ x < v + (1 # 20))%Q.

(** The integers [lo], [lo + 1], ..., [k] of them. *)
Fixpoint upto (lo : Z) (k : nat) : list Z :=
  match k with
  | O => []
  | S k' => lo :: upto (lo + 1) k'
  end.

(** Whether, for every count [n] of reviews from 1 to [bound] and every
    total of [n] stars between 1 and 5, the binary64 computation and the
    exact one pick the same number of tenths. *)
Definition doubles_agree (bound : nat) : bool :=
  forallb
    (fun n =>
       forallb
         (fun total =>
            JS.Double.tenths total n
            =? JS.Math_round (inject_Z total / inject_Z n * 10)%Q)
         (upto n (Z.to_nat (4 * n + 1))))
    (upto 1 bound).

(** The rating stored for a restaurant. *)
Definition rating (restaurantId : Z) (s : store) : option Q :=
  option_map Restaurant.star (Db.restaurant_by_id restaurantId s).

(** ** Grouping by restaurant *)

(** Strictly ascending integers: the order in which an object lists the
    keys that are array indices. *)
Fixpoint ascending (l : list Z) : Prop :=
  match l with
  | [] => True
  | x :: l' => (forall y, In y l' -> x < y) /\ ascending l'
  end.

(** Keys in the order of enumeration: no key twice, and no key behind one
    that it precedes. *)
Fixpoint enumerated (l : list Z) : Prop :=
  match l with
  | [] => True
  | x :: l' => (forall y, In y l' -> x <> y /\ JS.precedes y x = false) /\ enumerated l'
  end.

(** An integer that a double holds exactly. *)
Definition safe (z : Z) : Prop := Z.abs z <= JS.MAX_SAFE_INTEGER.

(** Integers that are doubles, around the places where products and sums
    start to round: the bounds of an INTEGER column, [2^53] and its
    neighbours, and multiples of 4 past [2^54]. *)
Definition operands : list Z :=
  [0; 1; 2; 3; 5; -1; -3; 50000; 4194305; -4194305; 2147483647; -2147483648;
   9007199254740991; 9007199254740992; 9007199254740994; -9007199254740994;
   18014398509481988; 18014398509481992; 4611686014132420608].

(** On those operands [JS.mul] and [JS.add] return what the binary64
    operations return. *)
Definition numbers_agree (l : list Z) : bool :=
  forallb
    (fun a =>
       forallb
         (fun b =>
            (JS.Double.mul a b =? JS.mul a b) && (JS.Double.add a b =? JS.add a b))
         l)
    l.

(** The keys of an object, in enumeration order. *)
Definition keys {V} (o : JS.object V) : list Z := map fst o.

(** The number of distinct integers in a list. *)
Definition distinct (l : list Z) : Z := Z.of_nat (List.length (nodup Z.eq_dec l)).

(** The price of a cart entry at the catalogue of [s]: menu price times
    quantity (0 when the menu row is missing). *)
Definition line_price (s : store) (c : UserCartItem.t) : Z :=
  match Db.menu_by_id (UserCartItem.menuId c) s with
  | Some m => RestoMenu.price m * UserCartItem.quantity c
  | None => 0
  end.

(** ** Integrity of the cart table *)

(** The foreign key [user_cart_items_menuId_fkey]: every cart row refers
    to a menu row. *)
Definition cart_menus_exist (s : store) : Prop :=
  forall c, In c (userCartItems s) -> Db.menu_by_id (UserCartItem.menuId c) s <> None.

(** At most one cart entry per (user, restaurant, menu). *)
Definition merged (s : store) : Prop :=
  forall u restaurantId menuId,
    (List.length (entries u restaurantId menuId s) <= 1)%nat.

(** ** Lists of orders *)

(** Timestamps from the newest to the oldest. *)
Fixpoint descending (l : list Z) : Prop :=
  match l with
  | [] => True
  | x :: l' => (forall y, In y l' -> y <= x) /\ descending l'
  end.

(** What an order keeps for life: every column but [status] and
    [updatedAt]. *)
Definition frozen_part (t : Transaction.t)
  : Z * string * Z * string * (Z * Z * Z * Z) * list OrderItem.t * Z :=
  (Transaction.id t, Transaction.transactionId t, Transaction.userId t,
   Transaction.paymentMethod t,
   (Transaction.price t, Transaction.serviceFee t, Transaction.deliveryFee t,
    Transaction.totalPrice t),
   Transaction.items t, Transaction.createdAt t).

(** The orders GET /my-order shows on a page (none when it fails). *)
Definition my_orders_on (e : env) (u : Z) (status : option string) (page limit : Z)
  (s : store) : list Order.formattedOrder :=
  match Response.data (fst (Order.get_my_order e u status (Some page) (Some limit) s)) with
  | Some d => Order.mo_orders d
  | None => []
  end.

(** ** Consistency of the cached rating *)

(** The stored rating of a restaurant is the mean of the stars stored for
    it, rounded as [updateRestaurantRating] rounds. *)
Definition fresh_rating (restaurantId : Z) (s : store) : Prop :=
  rating restaurantId s
  = Some (Qred (inject_Z
                  (JS.Math_round (mean (Db.stars_of_restaurant restaurantId s) * 10))
                / 10)%Q).

(** One review per (user, restaurant). *)
Definition one_review_per_pair (s : store) : Prop :=
  NoDup (map (fun r => (RestoReview.userId r, RestoReview.restaurantId r))
           (restoReviews s)).

(** The primary key of the cart table: ids are distinct and below the
    next value of the sequence. *)
Definition cart_keys (s : store) : Prop :=
  NoDup (map UserCartItem.id (userCartItems s))
  /\ forall c, In c (userCartItems s) -> UserCartItem.id c < userCartItems_id_seq s.

(** Two environments that differ at most in whether the two store calls of
    the rating recomputation fail. *)
Definition same_but_rating (e e' : env) : Prop :=
  now e = now e'
  /\ forall o, o <> restoReview_findMany -> o <> restaurant_update ->
               fails e o = fails e' o.

(** ** A concrete deployment, used to exercise the statements below *)

Module Scenario.

Definition t0 : Z := 1756650000000.

Definition ok (now : Z) : env := mkEnv now (fun _ => false).

Definition failing (now : Z) (o : op) : env :=
  mkEnv now (fun o' => if op_eq_dec o o' then true else false).

(** Two restaurants, menu #5 at 50000 and menu #9 at 15000. *)
Definition seeded : store :=
  mkStore
    [Restaurant.mk 1 "Burger King" (9 # 2) "Jakarta Selatan" None;
     Restaurant.mk 2 "KFC" (4 # 1) "Jakarta Utara" None]
    [RestoMenu.mk 5 1 "Whopper" 50000 "food" None;
     RestoMenu.mk 9 2 "Cola" 15000 "drink" None]
    [] [] [] 1 1 1.

(** User 7 adds menu #5 twice over and menu #9 once. *)
Definition cart1 : store := db (snd (Cart.post_cart (ok t0) 7 1 5 (Some 2) seeded)).
Definition cart2 : store := db (snd (Cart.post_cart (ok (t0 + 1)) 7 2 9 None cart1)).

(** ... and checks out. *)
Definition ordered : store := db (snd (Order.post_checkout (ok (t0 + 2)) 7 "BRI" cart2)).

(** After the order, user 7 puts menu #5 in the cart again, in the
    millisecond of the checkout. *)
Definition again : store := db (snd (Cart.post_cart (ok (t0 + 2)) 7 1 5 None ordered)).

(** Three additions of menu #5 by user 7: quantities 2, none and 4. *)
Definition three_adds : list (env * option Z) :=
  [(ok t0, Some 2); (ok (t0 + 5), None); (ok (t0 + 9), Some 4)].

(** Restaurant 1, rated 4.5 by the seed, has received stars 5, 4 and 3;
    restaurant 2 has no review. *)
Definition reviewed : store :=
  with_restoReviews seeded
    [RestoReview.mk 1 7 1 5 (Some "Great") t0 t0;
     RestoReview.mk 2 8 1 4 None t0 t0;
     RestoReview.mk 3 9 1 3 None t0 t0]
    4.

(** What GET /cart shows user 7 before the checkout. *)
Definition cart2_view : Cart.cartData :=
  match Response.data (fst (Cart.get_cart (ok t0) 7 cart2)) with
  | Some d => d
  | None => Cart.mkCartData [] (Cart.mkCartSummary 0 0 0)
  end.


(** User 8 also has an entry while user 7 fills the cart. *)
Definition shared : store := db (snd (Cart.post_cart (ok (t0 + 1)) 8 1 5 (Some 3) cart2)).

(** Menu #5 at the largest price an INTEGER column holds, and user 7 with
    as many of it in the cart. *)
Definition large : store :=
  db (snd (Cart.post_cart (ok t0) 7 1 5 (Some 2147483647)
             (set_menu_price 5 2147483647 seeded))).

(** An order whose second line is of a restaurant with a negative id. *)
Definition negative_id_order : Transaction.t :=
  Transaction.mk 3 "TXN17566500000099" 9 "BRI" 65000 1000 10000 76000 "done"
    [OrderItem.mk 2 "KFC" 9 "Cola" 15000 1 15000;
     OrderItem.mk (-1) "Pop-up" 4 "Satay" 50000 1 50000]
    t0 t0.

(** User 7 reviews restaurant 1 after the order, with an empty comment. *)
Definition rated : store :=
  db (snd (Review.post_review (ok (t0 + 3)) 7 "TXN17566500000027" 1 5 (Some "") ordered)).

End Scenario.

(** * Properties *)

Ltac run_M :=
  cbv beta iota zeta delta
    [route bind ret throw deref prisma reading try_catch db calls] in *.

Ltac not_called :=
  simpl; intuition discriminate.

(** ** Checkout on an empty cart *)

(** C3.  For a user whose cart has no entries, checkout leaves the store as
    it was and never calls [transaction.create]; when the read of the cart
    does not fail, the answer is the client error "Cart is empty" (400) and
    that read is the only store call made. *)
Theorem checkout_empty_cart (e : env) (u : Z) (paymentMethod : string) (s : store) :
  Db.cart_of_user u s = [] ->
  db (snd (Order.post_checkout e u paymentMethod s)) = s
  /\ ~ In transaction_create (calls (snd (Order.post_checkout e u paymentMethod s)))
  /\ (fails e userCartItem_findMany = false ->
      Order.post_checkout e u paymentMethod s
      = (errorResponse "Cart is empty" 400, mkWorld s [userCartItem_findMany])).
Proof.
  intros Hempty.
  unfold Order.post_checkout, Order.post_checkout_body. run_M.
  unfold Db.cart_of_user_included. rewrite Hempty. simpl.
  destruct (fails e userCartItem_findMany); not_called.
Qed.

Lemma checkout_empty_cart_witness :
  Db.cart_of_user 7 Scenario.seeded = []
  /\ Order.post_checkout (Scenario.ok Scenario.t0) 7 "BRI" Scenario.seeded
     = (errorResponse "Cart is empty" 400,
        mkWorld Scenario.seeded [userCartItem_findMany]).
Proof.
  split; [reflexivity |].
  apply (checkout_empty_cart (Scenario.ok Scenario.t0) 7 "BRI" Scenario.seeded);
    reflexivity.
Defined.

(** ** Order status *)

Lemma includes_In (l : list string) (st : string) :
  Order.includes l (Some st) = true <-> In st l.
Proof.
  simpl. rewrite existsb_exists. split.
  - intros [x [Hx Heq]]. apply String.eqb_eq in Heq. now subst.
  - intros H. exists st. split; [assumption | apply String.eqb_refl].
Qed.

Lemma find_map_by_id {A} (key : A -> Z) (f : A -> A) (p : A -> bool) (id : Z) (l : list A) :
  (forall a, p (f a) = p a) ->
  find p (map (fun a => if key a =? id then f a else a) l)
  = option_map (fun a => if key a =? id then f a else a) (find p l).
Proof.
  intros Hp. induction l as [| a l IH]; simpl; [reflexivity |].
  destruct (key a =? id) eqn:E; [rewrite Hp |];
    destruct (p a); simpl; rewrite ?E; auto.
Qed.

(** C6.  PUT /:id/status.  (1) A status outside the five allowed values is
    answered "Invalid status" (400) without any store call, so the stored
    status stays as it was.  (2) Otherwise, when no order with this id
    belongs to the caller, the answer is "Order not found" (404) and the
    store is unchanged.  (3) Otherwise the order now carries the new status
    and the current time as its update timestamp, and the answer (200)
    reports them.  (2) and (3) are for store calls that do not fail. *)
Theorem put_status_cases (e : env) (u id : Z) (status : option string) (s : store) :
  (~ (exists st, status = Some st
                 /\ In st ["preparing"; "on_the_way"; "delivered"; "done"; "cancelled"]) ->
   Order.put_status e u id status s = (errorResponse "Invalid status" 400, mkWorld s []))
  /\ (forall st,
        status = Some st ->
        In st ["preparing"; "on_the_way"; "delivered"; "done"; "cancelled"] ->
        reliable e ->
        (Db.order_of_user id u s = None ->
         Order.put_status e u id status s
         = (errorResponse "Order not found" 404, mkWorld s [transaction_findFirst]))
        /\ (forall order,
              Db.order_of_user id u s = Some order ->
              let w := snd (Order.put_status e u id status s) in
              Db.order_of_user id u (db w) = Some (Db.set_status st (now e) order)
              /\ Transaction.status (Db.set_status st (now e) order) = st
              /\ Transaction.updatedAt (Db.set_status st (now e) order) = now e
              /\ exists d,
                   fst (Order.put_status e u id status s)
                   = successResponse (Some d) "Success" 200
                   /\ Order.sd_id d = id
                   /\ Order.sd_status d = st
                   /\ Order.sd_updatedAt d = now e)).
Proof.
  split.
  - intros Hout.
    unfold Order.put_status, Order.put_status_body.
    destruct (Order.includes Order.validStatuses status) eqn:Hin.
    + exfalso. apply Hout. destruct status as [st |]; [| discriminate].
      exists st. split; [reflexivity | now apply includes_In].
    + reflexivity.
  - intros st -> Hvalid Hrel.
    unfold Order.put_status, Order.put_status_body.
    apply includes_In in Hvalid. unfold Order.validStatuses. rewrite Hvalid.
    run_M. rewrite !Hrel. simpl. split.
    + intros ->. reflexivity.
    + intros order Horder. rewrite Horder.
      unfold Db.transaction_set_status.
      assert (Hid : Transaction.id order = id).
      { unfold Db.order_of_user in Horder. apply find_some in Horder.
        destruct Horder as [_ H]. apply andb_prop in H. destruct H as [H _].
        now apply Z.eqb_eq in H. }
      destruct (find (fun t => Transaction.id t =? id) (transactions s)) as [t |] eqn:Hfind.
      * simpl. unfold Db.order_of_user. simpl.
        rewrite (find_map_by_id Transaction.id (Db.set_status st (now e))) by reflexivity.
        fold (Db.order_of_user id u s). rewrite Horder. simpl.
        rewrite Hid, Z.eqb_refl. repeat split.
        eexists. split; [reflexivity |]. simpl. repeat split.
        apply find_some in Hfind. destruct Hfind as [_ H]. now apply Z.eqb_eq in H.
      * exfalso. unfold Db.order_of_user in Horder.
        apply find_some in Horder. destruct Horder as [Hin _].
        apply (find_none _ _ Hfind) in Hin. rewrite Hid, Z.eqb_refl in Hin. discriminate.
Qed.

Lemma put_status_cases_witness :
  Order.put_status (Scenario.ok Scenario.t0) 7 1 (Some "shipped") Scenario.ordered
  = (errorResponse "Invalid status" 400, mkWorld Scenario.ordered [])
  /\ Order.put_status (Scenario.ok Scenario.t0) 8 1 (Some "done") Scenario.ordered
     = (errorResponse "Order not found" 404,
        mkWorld Scenario.ordered [transaction_findFirst])
  /\ option_map Transaction.status
       (Db.order_of_user 1 7
          (db (snd (Order.put_status (Scenario.ok Scenario.t0) 7 1 (Some "done")
                      Scenario.ordered))))
     = Some "done".
Proof.
  split; [| split].
  - apply (proj1 (put_status_cases (Scenario.ok Scenario.t0) 7 1 (Some "shipped")
                    Scenario.ordered)).
    intros [st [Hst Hin]]. injection Hst as <-.
    simpl in Hin. intuition discriminate.
  - apply (proj2 (put_status_cases (Scenario.ok Scenario.t0) 8 1 (Some "done")
                    Scenario.ordered) "done" eq_refl).
    + simpl. tauto.
    + intros o. reflexivity.
    + reflexivity.
  - destruct (proj2 (put_status_cases (Scenario.ok Scenario.t0) 7 1 (Some "done")
                       Scenario.ordered) "done" eq_refl) as [_ H].
    + simpl. tauto.
    + intros o. reflexivity.
    + destruct (Db.order_of_user 1 7 Scenario.ordered) as [order |] eqn:Horder;
        [| vm_compute in Horder; discriminate].
      destruct (H order eq_refl) as [Hfound _].
      cbv zeta in Hfound. rewrite Hfound. reflexivity.
Defined.

(** ** Checkout *)

Lemma sumZ_app (l1 l2 : list Z) : sumZ (l1 ++ l2) = sumZ l1 + sumZ l2.
Proof. induction l1 as [| x l1 IH]; simpl; [reflexivity | rewrite IH; ring]. Qed.

Lemma forEach_checkout_item (s : store) (items : list UserCartItem.t) :
  forall acc acc',
    Order.forEach Order.checkout_item (map (Db.include s) items) acc = Some acc' ->
    exists lines,
      Forall2 (line_of s) items lines
      /\ Order.orderItems acc' = Order.orderItems acc ++ lines
      /\ Order.subtotal acc' = Order.subtotal acc + sumZ (map OrderItem.itemTotal lines).
Proof.
  induction items as [| c items IH]; intros acc acc' Hrun; simpl in Hrun.
  - injection Hrun as <-. exists []. rewrite app_nil_r. simpl.
    repeat split; [constructor | ring].
  - unfold Order.checkout_item at 1 in Hrun. simpl in Hrun.
    destruct (Db.menu_by_id (UserCartItem.menuId c) s) as [m |] eqn:Hm;
      simpl in Hrun; [| discriminate].
    destruct (Db.restaurant_by_id (UserCartItem.restaurantId c) s) as [r |] eqn:Hr;
      simpl in Hrun; [| discriminate].
    apply IH in Hrun. destruct Hrun as [lines [Hlines [Hitems Hsub]]].
    simpl in Hitems, Hsub.
    eexists (_ :: lines). split; [| split].
    + constructor; [| exact Hlines]. exists m, r. repeat split; eassumption.
    + rewrite Hitems, <- app_assoc. reflexivity.
    + rewrite Hsub. simpl. ring.
Qed.

Lemma cart_cleared (u : Z) (l : list UserCartItem.t) :
  filter (fun c => UserCartItem.userId c =? u)
    (filter (fun c => negb (UserCartItem.userId c =? u)) l) = [].
Proof.
  induction l as [| c l IH]; simpl; [reflexivity |].
  destruct (UserCartItem.userId c =? u) eqn:E; simpl; rewrite ?E; exact IH.
Qed.

Lemma existsb_nexists_string {A} (key : A -> string) (k : string) (l : list A) :
  existsb (fun a => (key a =? k)%string) l = false ->
  forall a, In a l -> key a <> k.
Proof.
  intros Hex a Hin Heq.
  assert (H : existsb (fun a => (key a =? k)%string) l = true).
  { apply existsb_exists. exists a. split; [assumption |]. now apply String.eqb_eq. }
  rewrite H in Hex. discriminate.
Qed.

Lemma checkout_cases (e : env) (u : Z) (paymentMethod : string) (s : store) :
  checkout_result e u paymentMethod s
    (fst (Order.post_checkout e u paymentMethod s))
    (db (snd (Order.post_checkout e u paymentMethod s))).
Proof.
  unfold Order.post_checkout, Order.post_checkout_body. run_M.
  destruct (fails e userCartItem_findMany); simpl;
    [apply checkout_refused; discriminate |].
  destruct (Z.of_nat (List.length (Db.cart_of_user_included u s)) =? 0) eqn:Hlen; simpl;
    [apply checkout_refused; discriminate |].
  unfold Db.cart_of_user_included in *.
  destruct (Order.forEach Order.checkout_item
              (map (Db.include s) (Db.cart_of_user u s))
              (Order.mkTotals 0 [] [])) as [acc |] eqn:Hrun; simpl;
    [| apply checkout_refused; discriminate].
  apply forEach_checkout_item in Hrun. destruct Hrun as [lines [Hlines [Hitems Hsub]]].
  simpl in Hitems, Hsub.
  destruct (fails e transaction_create) eqn:Hcreate; simpl;
    [apply checkout_refused; discriminate |].
  unfold Db.transaction_insert.
  destruct (existsb _ (transactions s)) eqn:Hdup; simpl;
    [apply checkout_refused; discriminate |].
  assert (Hfresh : forall t', In t' (transactions s) ->
                     Transaction.transactionId t' <> Order.transactionId (now e) u).
  { intros t' Hin Heq.
    exact (existsb_nexists_string _ _ _ Hdup t' Hin Heq). }
  rewrite Hitems, Hsub. unfold Order.serviceFee, Order.deliveryFee.
  destruct (fails e userCartItem_deleteMany) eqn:Hdel; simpl.
  - apply checkout_half; try assumption.
    exists lines. split; [assumption | reflexivity].
  - eapply checkout_done with
      (t := Transaction.mk (transactions_id_seq s) (Order.transactionId (now e) u) u
              paymentMethod (sumZ (map OrderItem.itemTotal lines)) 1000 10000
              (sumZ (map OrderItem.itemTotal lines) + 1000 + 10000)
              "preparing" lines (now e) (now e));
      try assumption; try reflexivity.
    + exists lines. split; [assumption | reflexivity].
    + intros Hnil. rewrite Hnil in Hlen. discriminate.
Qed.





(** The scenario of the specification: menu #5 (50000) twice and menu #9
    (15000) once, fees 1000 and 10000: subtotal 115000, total 126000, two
    restaurant groups. *)
Example checkout_scenario :
  option_map
    (fun d => (Order.cd_pricing d, map Order.cg_subtotal (Order.cd_restaurants d)))
    (Response.data
       (fst (Order.post_checkout (Scenario.ok (Scenario.t0 + 2)) 7 "BRI" Scenario.cart2)))
  = Some (Order.mkPricing 115000 1000 10000 126000, [100000; 15000]).
Proof. reflexivity. Qed.

Lemma app_one_neq {A} (l : list A) (a : A) : l ++ [a] <> l.
Proof.
  intros H. apply (f_equal (@List.length A)) in H.
  rewrite length_app in H. simpl in H. lia.
Qed.

Lemma checkout_needs_clear (e : env) (u : Z) (paymentMethod : string) (s : store) :
  Response.statusCode (fst (Order.post_checkout e u paymentMethod s)) = 201 ->
  fails e userCartItem_deleteMany = false.
Proof.
  unfold Order.post_checkout, Order.post_checkout_body. run_M.
  destruct (fails e userCartItem_findMany); [discriminate |].
  destruct (Z.of_nat (List.length (Db.cart_of_user_included u s)) =? 0); [discriminate |].
  destruct (Order.forEach Order.checkout_item _ _) as [acc |]; [| discriminate].
  simpl.
  destruct (fails e transaction_create); [discriminate |].
  destruct (Db.transaction_insert _ _ _ _ _ _ _ _ _ _ _) as [[t s1] |]; [| discriminate].
  simpl. destruct (fails e userCartItem_deleteMany); [discriminate | reflexivity].
Qed.

(** C2, as the code has it.  Order creation and cart clearing in checkout
    are two successive writes, not one unit.  (1) When the
    [transaction.create] call fails, or the unique index rejects the
    generated identifier, the whole store, the cart included, is as before.
    (2) Whenever the store ends up without a new order row, it is as before.
    (3) Whenever the cart table differs afterwards, the order row built from
    the cart has been appended.  (4) When the [userCartItem.deleteMany] call
    does not fail, the outcome is all or nothing.  (5) When that call fails
    after the order was written, the caller is told 500, the order row
    built from the cart stays appended and the cart table is as before. *)
Theorem checkout_create_then_clear (e : env) (u : Z) (paymentMethod : string) (s : store) :
  ((fails e transaction_create = true
    \/ exists t', In t' (transactions s)
                  /\ Transaction.transactionId t' = Order.transactionId (now e) u) ->
   db (snd (Order.post_checkout e u paymentMethod s)) = s)
  /\ (transactions (db (snd (Order.post_checkout e u paymentMethod s))) = transactions s ->
      db (snd (Order.post_checkout e u paymentMethod s)) = s)
  /\ (userCartItems (db (snd (Order.post_checkout e u paymentMethod s)))
      <> userCartItems s ->
      exists t,
        checkout_order e u paymentMethod s t
        /\ transactions (db (snd (Order.post_checkout e u paymentMethod s)))
           = transactions s ++ [t])
  /\ (fails e userCartItem_deleteMany = false ->
      all_or_nothing u s (db (snd (Order.post_checkout e u paymentMethod s))))
  /\ (fails e userCartItem_deleteMany = true ->
      transactions (db (snd (Order.post_checkout e u paymentMethod s)))
      <> transactions s ->
      fst (Order.post_checkout e u paymentMethod s)
      = errorResponse "Failed to process checkout" 500
      /\ userCartItems (db (snd (Order.post_checkout e u paymentMethod s)))
         = userCartItems s
      /\ exists t,
           checkout_order e u paymentMethod s t
           /\ transactions (db (snd (Order.post_checkout e u paymentMethod s)))
              = transactions s ++ [t]).
Proof.
  pose proof (checkout_cases e u paymentMethod s) as Hcases.
  pose proof (checkout_needs_clear e u paymentMethod s) as Hneeds.
  destruct (Order.post_checkout e u paymentMethod s) as [r [s' called]]. simpl in *.
  inversion Hcases as [r' Hcode | t Ht Hcreate Hfresh Hclear Hr
                       | t r' Ht Hcreate Hfresh _ H201 _];
    subst; simpl.
  - split; [reflexivity |]. split; [reflexivity |].
    split; [intros H; now contradiction H |].
    split; [intros _; now left |].
    intros _ H. now contradiction H.
  - split; [| split; [| split; [| split]]].
    + intros [Hf | [t' [Hin Heq]]]; [congruence | now elim (Hfresh t' Hin)].
    + intros H. now elim (app_one_neq _ _ H).
    + intros H. now contradiction H.
    + congruence.
    + intros _ _. split; [reflexivity |]. split; [reflexivity |].
      exists t. split; [assumption | reflexivity].
  - split; [| split; [| split; [| split]]].
    + intros [Hf | [t' [Hin Heq]]]; [congruence | now elim (Hfresh t' Hin)].
    + intros H. now elim (app_one_neq _ _ H).
    + intros _. exists t. split; [assumption | reflexivity].
    + intros _. right. split; [exists t; reflexivity | apply cart_cleared].
    + intros Hfails. specialize (Hneeds H201). congruence.
Qed.

Lemma checkout_create_then_clear_witness :
  fails (Scenario.failing Scenario.t0 transaction_create) transaction_create = true
  /\ db (snd (Order.post_checkout (Scenario.failing Scenario.t0 transaction_create) 7 "BRI"
                Scenario.cart2)) = Scenario.cart2
  /\ userCartItems
       (db (snd (Order.post_checkout (Scenario.ok (Scenario.t0 + 2)) 7 "BRI"
                   Scenario.cart2)))
     <> userCartItems Scenario.cart2
  /\ List.length (transactions Scenario.ordered) = 1%nat
  /\ all_or_nothing 7 Scenario.cart2 Scenario.ordered
  /\ userCartItems
       (db (snd (Order.post_checkout
                   (Scenario.failing (Scenario.t0 + 2) userCartItem_deleteMany) 7 "BRI"
                   Scenario.cart2)))
     = userCartItems Scenario.cart2.
Proof.
  split; [reflexivity |]. split; [| split; [| split; [| split]]].
  - apply (proj1 (checkout_create_then_clear
                    (Scenario.failing Scenario.t0 transaction_create) 7 "BRI"
                    Scenario.cart2)).
    left. reflexivity.
  - vm_compute. discriminate.
  - destruct (proj1 (proj2 (proj2 (checkout_create_then_clear
                                     (Scenario.ok (Scenario.t0 + 2)) 7 "BRI"
                                     Scenario.cart2))))
      as [t [_ Hrows]].
    + vm_compute. discriminate.
    + fold Scenario.ordered in Hrows. rewrite Hrows. reflexivity.
  - apply (proj1 (proj2 (proj2 (proj2 (checkout_create_then_clear
                                         (Scenario.ok (Scenario.t0 + 2)) 7 "BRI"
                                         Scenario.cart2))))).
    reflexivity.
  - apply (proj2 (proj2 (proj2 (proj2 (checkout_create_then_clear
                                         (Scenario.failing (Scenario.t0 + 2)
                                            userCartItem_deleteMany)
                                         7 "BRI" Scenario.cart2))))).
    + reflexivity.
    + vm_compute. discriminate.
Defined.

(** C2 as stated fails on the code: when the order has been written and the
    clearing of the cart then fails, the order stays, the cart keeps its two
    entries and the caller is told that checkout failed; the two writes were
    not applied as one unit. *)
Lemma checkout_not_atomic :
  ~ all_or_nothing 7 Scenario.cart2
      (db (snd (Order.post_checkout
                  (Scenario.failing (Scenario.t0 + 2) userCartItem_deleteMany) 7 "BRI"
                  Scenario.cart2)))
  /\ fst (Order.post_checkout
            (Scenario.failing (Scenario.t0 + 2) userCartItem_deleteMany) 7 "BRI"
            Scenario.cart2)
     = errorResponse "Failed to process checkout" 500
  /\ transactions
       (db (snd (Order.post_checkout
                   (Scenario.failing (Scenario.t0 + 2) userCartItem_deleteMany) 7 "BRI"
                   Scenario.cart2)))
     = transactions Scenario.ordered
  /\ userCartItems
       (db (snd (Order.post_checkout
                   (Scenario.failing (Scenario.t0 + 2) userCartItem_deleteMany) 7 "BRI"
                   Scenario.cart2)))
     = userCartItems Scenario.cart2
  /\ List.length (userCartItems Scenario.cart2) = 2%nat.
Proof.
  split; [| vm_compute; repeat split].
  intros [Hsame | [_ Hcart]].
  - apply (f_equal transactions) in Hsame. vm_compute in Hsame. discriminate.
  - vm_compute in Hcart. discriminate.
Qed.

(** ** Frozen line items *)

Lemma get_my_order_ignores_menus (e : env) (u : Z) (status : option string)
  (page limit : option Z) (s : store) (menus : list RestoMenu.t) :
  fst (Order.get_my_order e u status page limit (with_restoMenus s menus))
  = fst (Order.get_my_order e u status page limit s).
Proof.
  unfold Order.get_my_order, Order.get_my_order_body. run_M.
  destruct (fails e transaction_count); [reflexivity |].
  destruct (fails e transaction_findMany); reflexivity.
Qed.

(** C8.  After a checkout answered 201, a change of any menu price leaves
    the order table as checkout wrote it: the new order row, with the
    per-line price and line total taken from the catalogue as it was at
    checkout, its subtotal and its total, is the same row, and GET /my-order
    returns the same data as before the change. *)
Theorem order_frozen (e : env) (u : Z) (paymentMethod : string) (s : store)
  (menuId price : Z) :
  Response.statusCode (fst (Order.post_checkout e u paymentMethod s)) = 201 ->
  exists t,
    checkout_order e u paymentMethod s t
    /\ transactions (db (snd (Order.post_checkout e u paymentMethod s)))
       = transactions s ++ [t]
    /\ transactions
         (set_menu_price menuId price (db (snd (Order.post_checkout e u paymentMethod s))))
       = transactions s ++ [t]
    /\ forall e' status page limit,
         fst (Order.get_my_order e' u status page limit
                (set_menu_price menuId price
                   (db (snd (Order.post_checkout e u paymentMethod s)))))
         = fst (Order.get_my_order e' u status page limit
                  (db (snd (Order.post_checkout e u paymentMethod s)))).
Proof.
  intros Hok.
  pose proof (checkout_cases e u paymentMethod s) as Hcases.
  destruct (Order.post_checkout e u paymentMethod s) as [r [s' called]]. simpl in *.
  inversion Hcases as [r' Hcode | t Ht _ _ _ Hr | t r' Ht _ _ _ _ _]; subst.
  - contradiction.
  - discriminate.
  - exists t. repeat split; try assumption.
    intros e' status page limit. unfold set_menu_price.
    apply get_my_order_ignores_menus.
Qed.

Lemma order_frozen_witness :
  Response.statusCode
    (fst (Order.post_checkout (Scenario.ok (Scenario.t0 + 2)) 7 "BRI" Scenario.cart2)) = 201
  /\ option_map RestoMenu.price (Db.menu_by_id 5 (set_menu_price 5 60000 Scenario.ordered))
     = Some 60000
  /\ map (fun t => (map OrderItem.price (Transaction.items t), Transaction.totalPrice t))
       (transactions (set_menu_price 5 60000 Scenario.ordered))
     = [([50000; 15000], 126000)].
Proof.
  split; [reflexivity |]. split; [reflexivity |].
  destruct (order_frozen (Scenario.ok (Scenario.t0 + 2)) 7 "BRI" Scenario.cart2 5 60000
              eq_refl) as [t [_ [Hrows [Hafter _]]]].
  fold Scenario.ordered in Hrows, Hafter.
  rewrite Hafter, <- Hrows. reflexivity.
Defined.

(** ** Adding to the cart *)

Lemma find_filter {A} (p : A -> bool) (l : list A) :
  find p l = hd_error (filter p l).
Proof.
  induction l as [| a l IH]; simpl; [reflexivity |].
  destruct (p a); [reflexivity | exact IH].
Qed.

Lemma filter_map_stable {A} (p : A -> bool) (f : A -> A) (l : list A) :
  (forall a, p (f a) = p a) ->
  filter p (map f l) = map f (filter p l).
Proof.
  intros Hp. induction l as [| a l IH]; simpl; [reflexivity |].
  rewrite Hp. destruct (p a); simpl; now rewrite IH.
Qed.

Lemma same_entry_refl (u r m : Z) (c : UserCartItem.t) :
  UserCartItem.userId c = u -> UserCartItem.restaurantId c = r ->
  UserCartItem.menuId c = m -> Db.same_entry u r m c = true.
Proof. intros <- <- <-. unfold Db.same_entry. now rewrite !Z.eqb_refl. Qed.

(** One successful addition: a first entry is created with the quantity
    passed, or the single existing entry grows by it. *)
Lemma post_cart_entries (e : env) (u r m : Z) (quantity : option Z) (s : store) :
  Response.statusCode (fst (Cart.post_cart e u r m quantity s)) = 201 ->
  (entries u r m s = [] ->
   exists c, entries u r m (db (snd (Cart.post_cart e u r m quantity s))) = [c]
             /\ UserCartItem.quantity c = quantity_passed quantity)
  /\ (forall c0, entries u r m s = [c0] ->
      exists c, entries u r m (db (snd (Cart.post_cart e u r m quantity s))) = [c]
                /\ UserCartItem.quantity c
                   = UserCartItem.quantity c0 + quantity_passed quantity).
Proof.
  unfold Cart.post_cart, Cart.post_cart_body, Cart.cartItem_json. run_M.
  fold (quantity_passed quantity).
  destruct (fails e restaurant_findUnique); [discriminate |].
  destruct (Db.restaurant_by_id r s); [| discriminate].
  destruct (fails e restoMenu_findFirst); [discriminate |].
  destruct (Db.menu_of_restaurant m r s); [| discriminate].
  destruct (fails e userCartItem_findFirst); [discriminate |].
  unfold Db.cart_entry. rewrite find_filter. fold (entries u r m s).
  destruct (entries u r m s) as [| c0 rest] eqn:Hentries; simpl.
  - (* no entry yet: userCartItem.create *)
    destruct (fails e userCartItem_create); [discriminate |].
    unfold Db.cart_create. simpl.
    destruct (option_map Db.select_menu _); [| discriminate].
    simpl. intros _. split; [| discriminate].
    intros _. eexists. unfold entries. simpl.
    rewrite filter_app. fold (entries u r m s). rewrite Hentries. simpl.
    rewrite same_entry_refl by reflexivity. split; reflexivity.
  - (* an entry exists: userCartItem.update *)
    destruct (fails e userCartItem_update); [discriminate |].
    unfold Db.cart_update.
    destruct (find _ (userCartItems s)); [| discriminate].
    simpl. destruct (option_map Db.select_menu _); [| discriminate].
    simpl. intros _. split; [discriminate |].
    intros c Hc. injection Hc as -> ->.
    eexists. unfold entries. simpl.
    rewrite filter_map_stable.
    + fold (entries u r m s). rewrite Hentries. simpl.
      rewrite Z.eqb_refl. split; reflexivity.
    + intros a. destruct (UserCartItem.id a =? UserCartItem.id c); reflexivity.
Qed.

Lemma add_items_grow (u r m : Z) (requests : list (env * option Z)) :
  forall (s : store) (c0 : UserCartItem.t),
    entries u r m s = [c0] ->
    Forall (fun response => Response.statusCode response = 201)
      (fst (add_items u r m requests s)) ->
    exists c,
      entries u r m (snd (add_items u r m requests s)) = [c]
      /\ UserCartItem.quantity c
         = UserCartItem.quantity c0
           + sumZ (map (fun request => quantity_passed (snd request)) requests).
Proof.
  induction requests as [| [e quantity] requests IH]; intros s c0 Hentries Hall; simpl in *.
  - exists c0. split; [assumption | ring].
  - pose proof (post_cart_entries e u r m quantity s) as Hstep.
    destruct (Cart.post_cart e u r m quantity s) as [response w]. simpl in Hstep.
    specialize (IH (db w)).
    destruct (add_items u r m requests (db w)) as [responses s']. simpl in *.
    inversion Hall as [| ? ? Hok Hrest]; subst.
    destruct (proj2 (Hstep Hok) c0 Hentries) as [c1 [Hc1 Hq1]].
    destruct (IH c1 Hc1 Hrest) as [c [Hc Hq]].
    exists c. split; [assumption |]. rewrite Hq, Hq1. ring.
Qed.

(** C4.  Starting from a store with no cart entry for (user, restaurant,
    menu), after a non-empty sequence of POST /cart requests for that triple
    which all answered 201, the cart table holds exactly one entry for the
    triple, and its quantity is the sum of the quantities passed, a missing
    quantity counting as 1. *)
Theorem add_items_merge (u r m : Z) (requests : list (env * option Z)) (s : store) :
  requests <> [] ->
  entries u r m s = [] ->
  Forall (fun response => Response.statusCode response = 201)
    (fst (add_items u r m requests s)) ->
  exists c,
    entries u r m (snd (add_items u r m requests s)) = [c]
    /\ UserCartItem.quantity c
       = sumZ (map (fun request => quantity_passed (snd request)) requests).
Proof.
  destruct requests as [| [e quantity] requests]; [congruence |].
  intros _ Hentries Hall. simpl in *.
  pose proof (post_cart_entries e u r m quantity s) as Hstep.
  pose proof (add_items_grow u r m requests) as Hgrow.
  destruct (Cart.post_cart e u r m quantity s) as [response w]. simpl in Hstep.
  specialize (Hgrow (db w)).
  destruct (add_items u r m requests (db w)) as [responses s']. simpl in *.
  inversion Hall as [| ? ? Hok Hrest]; subst.
  destruct (proj1 (Hstep Hok) Hentries) as [c1 [Hc1 Hq1]].
  destruct (Hgrow c1 Hc1 Hrest) as [c [Hc Hq]].
  exists c. split; [assumption |]. rewrite Hq, Hq1. reflexivity.
Qed.

Lemma add_items_merge_witness :
  Scenario.three_adds <> []
  /\ entries 7 1 5 Scenario.seeded = []
  /\ Forall (fun response => Response.statusCode response = 201)
       (fst (add_items 7 1 5 Scenario.three_adds Scenario.seeded))
  /\ map UserCartItem.quantity
       (entries 7 1 5 (snd (add_items 7 1 5 Scenario.three_adds Scenario.seeded))) = [7].
Proof.
  assert (Hall : Forall (fun response => Response.statusCode response = 201)
                   (fst (add_items 7 1 5 Scenario.three_adds Scenario.seeded))).
  { vm_compute. repeat constructor. }
  split; [discriminate |]. split; [reflexivity |]. split; [exact Hall |].
  destruct (add_items_merge 7 1 5 Scenario.three_adds Scenario.seeded)
    as [c [Hc Hq]]; [discriminate | reflexivity | exact Hall |].
  rewrite Hc. simpl. rewrite Hq. reflexivity.
Defined.

(** ** Rating aggregation *)

Lemma fold_left_sum (l : list Z) (a : Z) :
  fold_left (fun sum star => sum + star) l a = a + sumZ l.
Proof.
  revert a. induction l as [| x l IH]; intros a; simpl; [ring |].
  rewrite IH. ring.
Qed.

Lemma Math_round_tenths (x : Q) :
  rounded_to_tenths x (Qred (inject_Z (JS.Math_round (x * 10)) / 10)%Q).
Proof.
  unfold rounded_to_tenths, JS.Math_round. split; [| split].
  - eexists. apply Qred_correct.
  - rewrite Qred_correct.
    pose proof (Qfloor_le (x * 10 + (1 # 2))%Q) as H.
    unfold Qdiv. change (/ 10)%Q with (1 # 10)%Q. lra.
  - rewrite Qred_correct.
    pose proof (Qlt_floor (x * 10 + (1 # 2))%Q) as H.
    rewrite inject_Z_plus in H. change (inject_Z 1) with 1%Q in H.
    unfold Qdiv. change (/ 10)%Q with (1 # 10)%Q. lra.
Qed.

Lemma updateRestaurantRating_empty (e : env) (restaurantId : Z) (s : store) :
  Db.stars_of_restaurant restaurantId s = [] ->
  exec (Review.updateRestaurantRating e restaurantId) s = s.
Proof.
  intros Hnone. unfold exec, Review.updateRestaurantRating. run_M.
  rewrite Hnone. simpl. destruct (fails e restoReview_findMany); reflexivity.
Qed.

Lemma updateRestaurantRating_value (e : env) (restaurantId : Z) (s : store)
  (r0 : Restaurant.t) :
  fails e restoReview_findMany = false ->
  fails e restaurant_update = false ->
  Db.stars_of_restaurant restaurantId s <> [] ->
  Db.restaurant_by_id restaurantId s = Some r0 ->
  rating restaurantId (exec (Review.updateRestaurantRating e restaurantId) s)
  = Some (Qred (inject_Z
                  (JS.Math_round (mean (Db.stars_of_restaurant restaurantId s) * 10))
                / 10)%Q).
Proof.
  intros Hread Hwrite Hsome Hr0.
  unfold rating, exec, Review.updateRestaurantRating. run_M.
  rewrite Hread, Hwrite.
  destruct (Db.stars_of_restaurant restaurantId s) as [| x stars] eqn:Hstars;
    [congruence |].
  replace (0 <? Z.of_nat (List.length (x :: stars))) with true
    by (symmetry; apply Z.ltb_lt; simpl; lia).
  unfold Db.restaurant_set_star. rewrite Hr0. simpl db.
  unfold Db.restaurant_by_id in *. simpl restaurants.
  rewrite (find_map_by_id Restaurant.id (fun r => Restaurant.with_star r _)) by reflexivity.
  rewrite Hr0. simpl option_map.
  apply find_some in Hr0. destruct Hr0 as [_ Hid]. rewrite Hid. simpl.
  rewrite fold_left_sum. unfold mean. simpl sumZ.
  replace (0 + x + sumZ stars) with (x + sumZ stars) by ring.
  reflexivity.
Qed.

(** C5.  [updateRestaurantRating] on a restaurant present in the store, the
    two store calls not failing: (1) with at least one review, the stored
    rating becomes the mean of the stars rounded to one decimal place,
    half-up; (2) stars 5, 4, 3 give 4 and a single 5 gives 5; (3) with no
    review, whatever the environment, the store is left as it was. *)
Theorem rating_recomputed (e : env) (restaurantId : Z) (s : store) :
  (fails e restoReview_findMany = false ->
   fails e restaurant_update = false ->
   Db.restaurant_by_id restaurantId s <> None ->
   (Db.stars_of_restaurant restaurantId s <> [] ->
    exists v,
      rating restaurantId (exec (Review.updateRestaurantRating e restaurantId) s) = Some v
      /\ rounded_to_tenths (mean (Db.stars_of_restaurant restaurantId s)) v)
   /\ (Db.stars_of_restaurant restaurantId s = [5; 4; 3] ->
       rating restaurantId (exec (Review.updateRestaurantRating e restaurantId) s)
       = Some (4 # 1))
   /\ (Db.stars_of_restaurant restaurantId s = [5] ->
       rating restaurantId (exec (Review.updateRestaurantRating e restaurantId) s)
       = Some (5 # 1)))
  /\ (Db.stars_of_restaurant restaurantId s = [] ->
      exec (Review.updateRestaurantRating e restaurantId) s = s).
Proof.
  split; [| apply updateRestaurantRating_empty].
  intros Hread Hwrite Hexists.
  destruct (Db.restaurant_by_id restaurantId s) as [r0 |] eqn:Hr0; [| congruence].
  split; [| split].
  - intros Hsome. eexists. split.
    + apply (updateRestaurantRating_value e restaurantId s r0); assumption.
    + apply Math_round_tenths.
  - intros Hstars.
    rewrite (updateRestaurantRating_value e restaurantId s r0); try assumption.
    + rewrite Hstars. reflexivity.
    + rewrite Hstars. discriminate.
  - intros Hstars.
    rewrite (updateRestaurantRating_value e restaurantId s r0); try assumption.
    + rewrite Hstars. reflexivity.
    + rewrite Hstars. discriminate.
Qed.

Lemma rating_recomputed_witness :
  Db.stars_of_restaurant 1 Scenario.reviewed = [5; 4; 3]
  /\ rating 1 Scenario.reviewed = Some (9 # 2)
  /\ rating 1 (exec (Review.updateRestaurantRating (Scenario.ok Scenario.t0) 1)
                 Scenario.reviewed) = Some (4 # 1)
  /\ Db.stars_of_restaurant 2 Scenario.reviewed = []
  /\ exec (Review.updateRestaurantRating (Scenario.ok Scenario.t0) 2) Scenario.reviewed
     = Scenario.reviewed.
Proof.
  split; [reflexivity |]. split; [reflexivity |]. split; [| split; [reflexivity |]].
  - apply (proj1 (rating_recomputed (Scenario.ok Scenario.t0) 1 Scenario.reviewed));
      try reflexivity.
    discriminate.
  - apply (proj2 (rating_recomputed (Scenario.ok Scenario.t0) 2 Scenario.reviewed)).
    reflexivity.
Defined.

Lemma In_upto (x lo : Z) (k : nat) :
  In x (upto lo k) <-> lo <= x < lo + Z.of_nat k.
Proof.
  revert lo. induction k as [| k IH]; intros lo; simpl upto.
  - simpl. lia.
  - simpl In. rewrite IH. lia.
Qed.

Lemma sumZ_stars_bounds (stars : list Z) :
  Forall (fun x => 1 <= x <= 5) stars ->
  Z.of_nat (List.length stars) <= sumZ stars <= 5 * Z.of_nat (List.length stars).
Proof.
  induction 1 as [| x stars Hx _ IH]; simpl List.length; simpl sumZ; lia.
Qed.

Lemma doubles_agree_spec (bound : nat) :
  doubles_agree bound = true ->
  forall n total,
    1 <= n <= Z.of_nat bound ->
    n <= total <= 5 * n ->
    JS.Double.tenths total n = JS.Math_round (inject_Z total / inject_Z n * 10)%Q.
Proof.
  unfold doubles_agree. intros Htable n total Hn Htotal.
  rewrite forallb_forall in Htable.
  specialize (Htable n). rewrite forallb_forall in Htable.
  apply Z.eqb_eq. apply Htable; apply In_upto; lia.
Qed.

Lemma doubles_agree_100 : doubles_agree 100 = true.
Proof. vm_compute. reflexivity. Qed.

(** X25: For up to 100 reviews with stars between 1 and 5, the double-precision
    computation of the source picks the tenth the exact model picks. *)
Lemma double_rating_agrees (stars : list Z) :
  stars <> [] ->
  (List.length stars <= 100)%nat ->
  Forall (fun x => 1 <= x <= 5) stars ->
  JS.Double.tenths (sumZ stars) (Z.of_nat (List.length stars))
  = JS.Math_round (mean stars * 10).
Proof.
  intros Hsome Hlen Hstars.
  pose proof (sumZ_stars_bounds stars Hstars) as Hsum.
  assert (Hn : 1 <= Z.of_nat (List.length stars)).
  { destruct stars; [congruence | simpl List.length; lia]. }
  apply (doubles_agree_spec 100 doubles_agree_100); lia.
Qed.

(** A tie at the second decimal goes up: stars 5, 4, 4, 4 have mean 4.25
    and the stored rating is 4.3. *)
Example rating_tie_rounds_up :
  Qred (inject_Z (JS.Math_round (mean [5; 4; 4; 4]%Z * 10)) / 10)%Q = (43 # 10)%Q.
Proof. reflexivity. Qed.

(** ** Reviews *)

(** [updateRestaurantRating] returns normally whatever happens, and writes
    nothing but the restaurant table. *)
Lemma updateRestaurantRating_returns (e : env) (restaurantId : Z) (w : world) :
  exists w',
    Review.updateRestaurantRating e restaurantId w = Return tt w'
    /\ restoReviews (db w') = restoReviews (db w)
    /\ transactions (db w') = transactions (db w)
    /\ userCartItems (db w') = userCartItems (db w).
Proof.
  unfold Review.updateRestaurantRating. run_M.
  destruct (fails e restoReview_findMany); [eexists; split; [reflexivity | auto] |].
  destruct (0 <? _); [| eexists; split; [reflexivity | auto]].
  destruct (fails e restaurant_update); [eexists; split; [reflexivity | auto] |].
  unfold Db.restaurant_set_star.
  destruct (Db.restaurant_by_id restaurantId _);
    eexists; (split; [reflexivity | auto]).
Qed.

Lemma map_star_patch (id updatedAt : Z) (comment : option (option string))
  (l : list RestoReview.t) :
  map RestoReview.star
    (map (fun r => if RestoReview.id r =? id
                   then Db.review_patch None comment updatedAt r else r) l)
  = map RestoReview.star l.
Proof.
  rewrite map_map. apply map_ext. intros r.
  destruct (RestoReview.id r =? id); reflexivity.
Qed.

(** C10.  PUT /review/:id with [star = 0].  The range check, which rejects
    every non-zero star below 1 or above 5, does not fire: the answer is
    never "Rating must be between 1 and 5 stars".  Every stored star value
    and the restaurant table are as before, and neither store call of the
    rating recomputation is made.  When the review belongs to the caller and
    no store call fails, the answer is a success (200). *)
Theorem put_review_star_zero (e : env) (u id : Z) (comment : option (option string))
  (s : store) :
  (forall v, v <> 0 -> v < 1 \/ 5 < v ->
             Review.put_review e u id (Some v) comment s
             = (errorResponse "Rating must be between 1 and 5 stars" 400, mkWorld s []))
  /\ Response.message (fst (Review.put_review e u id (Some 0) comment s))
     <> "Rating must be between 1 and 5 stars"
  /\ map RestoReview.star (restoReviews (db (snd (Review.put_review e u id (Some 0) comment s))))
     = map RestoReview.star (restoReviews s)
  /\ restaurants (db (snd (Review.put_review e u id (Some 0) comment s))) = restaurants s
  /\ ~ In restoReview_findMany (calls (snd (Review.put_review e u id (Some 0) comment s)))
  /\ ~ In restaurant_update (calls (snd (Review.put_review e u id (Some 0) comment s)))
  /\ (reliable e ->
      Db.review_of_user id u s <> None ->
      Response.statusCode (fst (Review.put_review e u id (Some 0) comment s)) = 200
      /\ Response.success (fst (Review.put_review e u id (Some 0) comment s)) = true).
Proof.
  split.
  { intros v Hv Hrange. unfold Review.put_review, Review.put_review_body. simpl JS.truthy.
    replace (negb (v =? 0)) with true by (symmetry; apply negb_true_iff, Z.eqb_neq, Hv).
    replace ((v <? 1) || (5 <? v)) with true; [reflexivity |].
    symmetry. apply orb_true_iff. rewrite !Z.ltb_lt. exact Hrange. }
  unfold Review.put_review, Review.put_review_body. simpl JS.truthy. run_M. simpl.
  destruct (fails e restoReview_findFirst) eqn:Hfind; simpl.
  { split; [discriminate |]. split; [reflexivity |]. split; [reflexivity |].
    split; [not_called |]. split; [not_called |].
    intros Hrel. rewrite Hrel in Hfind. discriminate. }
  destruct (Db.review_of_user id u s) as [review |] eqn:Hreview; simpl.
  2: { split; [discriminate |]. split; [reflexivity |]. split; [reflexivity |].
       split; [not_called |]. split; [not_called |].
       intros _ H. now elim H. }
  destruct (fails e restoReview_update) eqn:Hupdate; simpl.
  { split; [discriminate |]. split; [reflexivity |]. split; [reflexivity |].
    split; [not_called |]. split; [not_called |].
    intros Hrel. rewrite Hrel in Hupdate. discriminate. }
  unfold Db.review_update.
  destruct (find (fun r => RestoReview.id r =? id) (restoReviews s)) as [r |] eqn:Hrow; simpl.
  - split; [discriminate |]. split; [apply map_star_patch |]. split; [reflexivity |].
    split; [not_called |]. split; [not_called |].
    intros _ _. split; reflexivity.
  - exfalso. unfold Db.review_of_user in Hreview. apply find_some in Hreview.
    destruct Hreview as [Hin Hmatch]. apply andb_prop in Hmatch.
    apply (find_none _ _ Hrow) in Hin. destruct Hmatch as [Hid _].
    rewrite Hid in Hin. discriminate.
Qed.

Lemma put_review_star_zero_witness :
  Db.review_of_user 1 7 Scenario.reviewed <> None
  /\ Response.statusCode
       (fst (Review.put_review (Scenario.ok (Scenario.t0 + 3)) 7 1 (Some 0) None
               Scenario.reviewed)) = 200
  /\ rating 1 (db (snd (Review.put_review (Scenario.ok (Scenario.t0 + 3)) 7 1 (Some 0) None
                          Scenario.reviewed))) = Some (9 # 2)
  /\ rating 1 (db (snd (Review.put_review (Scenario.ok (Scenario.t0 + 3)) 7 1 (Some 2) None
                          Scenario.reviewed))) = Some (3 # 1).
Proof.
  split; [discriminate |]. split; [| split; [| reflexivity]].
  - apply (proj2 (proj2 (proj2 (proj2 (proj2 (proj2
             (put_review_star_zero (Scenario.ok (Scenario.t0 + 3)) 7 1 None
                Scenario.reviewed))))))).
    + intros o. reflexivity.
    + discriminate.
  - unfold rating, Db.restaurant_by_id.
    rewrite (proj1 (proj2 (proj2 (proj2
               (put_review_star_zero (Scenario.ok (Scenario.t0 + 3)) 7 1 None
                  Scenario.reviewed))))).
    reflexivity.
Defined.

Lemma order_by_transactionId_Some (transactionId : string) (u : Z) (s : store)
  (t : Transaction.t) :
  Db.order_by_transactionId transactionId u s = Some t ->
  In t (transactions s)
  /\ Transaction.transactionId t = transactionId
  /\ Transaction.userId t = u.
Proof.
  unfold Db.order_by_transactionId. intros H. apply find_some in H.
  destruct H as [Hin Hmatch]. apply andb_prop in Hmatch. destruct Hmatch as [H1 H2].
  apply String.eqb_eq in H1. apply Z.eqb_eq in H2. auto.
Qed.

Lemma order_by_transactionId_None (transactionId : string) (u : Z) (s : store) :
  (forall t, In t (transactions s) ->
             Transaction.transactionId t = transactionId -> Transaction.userId t <> u) ->
  Db.order_by_transactionId transactionId u s = None.
Proof.
  intros Hnone. unfold Db.order_by_transactionId.
  destruct (find _ (transactions s)) as [t |] eqn:Hfind; [| reflexivity].
  destruct (order_by_transactionId_Some transactionId u s t Hfind) as [Hin [Hid Hu]].
  now elim (Hnone t Hin Hid).
Qed.

Lemma ordered_from_iff (restaurantId : Z) (items : list OrderItem.t) :
  existsb (fun item => OrderItem.restaurantId item =? restaurantId) items = true
  <-> exists item, In item items /\ OrderItem.restaurantId item = restaurantId.
Proof.
  rewrite existsb_exists. split; intros [item [Hin H]]; exists item; split; auto.
  - now apply Z.eqb_eq.
  - now apply Z.eqb_eq.
Qed.

(** C7, as the code has it.  POST /review.
    (1) A 201 answer implies: the referenced order is one of the caller's,
    it has a line item of the target restaurant, the restaurant exists, the
    caller had no review of that restaurant, and exactly one review row was
    appended, for this caller, restaurant and star.  Nothing is required of
    the order's status.
    (2) Any other answer leaves the store as it was.
    (3) When no store call fails, the guards answer in this order: an
    identifier that is not one of the caller's orders is answered 404
    "Transaction not found or does not belong to you"; else a restaurant
    that does not exist is answered 404 "Restaurant not found"; else an
    order without a line item of that restaurant is answered 400 "You can
    only review restaurants you have ordered from"; else an existing review
    of the restaurant by the caller is answered 409 "You have already
    reviewed this restaurant". *)
Theorem post_review_guards (e : env) (u : Z) (transactionId : string)
  (restaurantId star : Z) (comment : option string) (s : store) :
  (Response.statusCode
     (fst (Review.post_review e u transactionId restaurantId star comment s)) = 201 ->
   (exists t,
      In t (transactions s)
      /\ Transaction.transactionId t = transactionId
      /\ Transaction.userId t = u
      /\ exists item, In item (Transaction.items t)
                      /\ OrderItem.restaurantId item = restaurantId)
   /\ Db.restaurant_by_id restaurantId s <> None
   /\ Db.review_of_pair u restaurantId s = None
   /\ exists row,
        restoReviews
          (db (snd (Review.post_review e u transactionId restaurantId star comment s)))
        = restoReviews s ++ [row]
        /\ RestoReview.userId row = u
        /\ RestoReview.restaurantId row = restaurantId
        /\ RestoReview.star row = star)
  /\ (Response.statusCode
        (fst (Review.post_review e u transactionId restaurantId star comment s)) <> 201 ->
      db (snd (Review.post_review e u transactionId restaurantId star comment s)) = s)
  /\ (reliable e ->
      ((forall t, In t (transactions s) ->
                  Transaction.transactionId t = transactionId ->
                  Transaction.userId t <> u) ->
       fst (Review.post_review e u transactionId restaurantId star comment s)
       = errorResponse "Transaction not found or does not belong to you" 404)
      /\ (forall t,
            Db.order_by_transactionId transactionId u s = Some t ->
            (Db.restaurant_by_id restaurantId s = None ->
             fst (Review.post_review e u transactionId restaurantId star comment s)
             = errorResponse "Restaurant not found" 404)
            /\ (Db.restaurant_by_id restaurantId s <> None ->
                ((forall item, In item (Transaction.items t) ->
                               OrderItem.restaurantId item <> restaurantId) ->
                 fst (Review.post_review e u transactionId restaurantId star comment s)
                 = errorResponse
                     "You can only review restaurants you have ordered from" 400)
                /\ ((exists item, In item (Transaction.items t)
                                  /\ OrderItem.restaurantId item = restaurantId) ->
                    Db.review_of_pair u restaurantId s <> None ->
                    fst (Review.post_review e u transactionId restaurantId star comment s)
                    = errorResponse "You have already reviewed this restaurant" 409)))).
Proof.
  unfold Review.post_review, Review.post_review_body.
  cbv beta iota zeta delta [route bind ret throw deref prisma reading db calls].
  destruct (fails e transaction_findFirst) eqn:F1; simpl.
  { split; [discriminate |]. split; [reflexivity |].
    intros Hrel. rewrite Hrel in F1. discriminate. }
  destruct (Db.order_by_transactionId transactionId u s) as [t |] eqn:Horder; simpl.
  2: { split; [discriminate |]. split; [reflexivity |].
       intros _. split; [reflexivity | discriminate]. }
  destruct (order_by_transactionId_Some _ _ _ _ Horder) as [Hin [Hid Hu]].
  assert (Hmine : ~ (forall t', In t' (transactions s) ->
                       Transaction.transactionId t' = transactionId ->
                       Transaction.userId t' <> u)).
  { intros H. exact (H t Hin Hid Hu). }
  destruct (fails e restaurant_findUnique) eqn:F2; simpl.
  { split; [discriminate |]. split; [reflexivity |].
    intros Hrel. rewrite Hrel in F2. discriminate. }
  destruct (Db.restaurant_by_id restaurantId s) as [r0 |] eqn:Hresto; simpl.
  2: { split; [discriminate |]. split; [reflexivity |].
       intros _. split; [intros H; now elim Hmine |].
       intros t' [= <-]. split; [reflexivity | intros H; now elim H]. }
  destruct (existsb (fun item => OrderItem.restaurantId item =? restaurantId)
              (Transaction.items t)) eqn:Hordered; simpl.
  2: { split; [discriminate |]. split; [reflexivity |].
       intros _. split; [intros H; now elim Hmine |].
       intros t' [= <-]. split; [discriminate |].
       intros _. split; [reflexivity |].
       intros Hitem _. apply ordered_from_iff in Hitem. congruence. }
  apply ordered_from_iff in Hordered.
  assert (Hnot : ~ (forall item, In item (Transaction.items t) ->
                                 OrderItem.restaurantId item <> restaurantId)).
  { intros H. destruct Hordered as [item [Hitem Hr]]. exact (H item Hitem Hr). }
  destruct (fails e restoReview_findFirst) eqn:F3; simpl.
  { split; [discriminate |]. split; [reflexivity |].
    intros Hrel. rewrite Hrel in F3. discriminate. }
  destruct (Db.review_of_pair u restaurantId s) as [existing |] eqn:Hpair; simpl.
  { split; [discriminate |]. split; [reflexivity |].
    intros _. split; [intros H; now elim Hmine |].
    intros t' [= <-]. split; [discriminate |].
    intros _. split; [intros H; now elim Hnot | reflexivity]. }
  destruct (fails e restoReview_create) eqn:F4; simpl.
  { split; [discriminate |]. split; [reflexivity |].
    intros Hrel. rewrite Hrel in F4. discriminate. }
  match goal with
  | |- context [Review.updateRestaurantRating e restaurantId ?w] =>
      destruct (updateRestaurantRating_returns e restaurantId w) as [w' [-> [Hrows _]]]
  end.
  simpl in *. split; [| split].
  - intros _. split; [| split; [| split]].
    + exists t. auto.
    + discriminate.
    + reflexivity.
    + eexists. split; [exact Hrows |]. repeat split.
  - intros H. now elim H.
  - intros _. split; [intros H; now elim Hmine |].
    intros t' [= <-]. split; [discriminate |].
    intros _. split; [intros H; now elim Hnot |].
    intros _ H. now elim H.
Qed.

Lemma post_review_guards_witness :
  Response.statusCode
    (fst (Review.post_review (Scenario.ok (Scenario.t0 + 3)) 7 "TXN17566500000027" 1 5
            (Some "Great") Scenario.ordered)) = 201
  /\ Db.review_of_pair 7 1 Scenario.ordered = None
  /\ fst (Review.post_review (Scenario.ok (Scenario.t0 + 3)) 8 "TXN17566500000027" 1 5
            None Scenario.ordered)
     = errorResponse "Transaction not found or does not belong to you" 404
  /\ Db.restaurant_by_id 99 Scenario.ordered = None
  /\ fst (Review.post_review (Scenario.ok (Scenario.t0 + 3)) 7 "TXN17566500000027" 99 5
            None Scenario.ordered)
     = errorResponse "Restaurant not found" 404.
Proof.
  split; [reflexivity |]. split; [| split; [| split; [reflexivity |]]].
  - apply (proj1 (post_review_guards (Scenario.ok (Scenario.t0 + 3)) 7
                    "TXN17566500000027" 1 5 (Some "Great") Scenario.ordered)).
    reflexivity.
  - apply (proj2 (proj2 (post_review_guards (Scenario.ok (Scenario.t0 + 3)) 8
                           "TXN17566500000027" 1 5 None Scenario.ordered))).
    + intros o. reflexivity.
    + intros t [<- | []] _. discriminate.
  - destruct (Db.order_by_transactionId "TXN17566500000027" 7 Scenario.ordered)
      as [t |] eqn:Horder; [| vm_compute in Horder; discriminate].
    apply (proj1 (proj2 (proj2 (proj2 (post_review_guards
                                         (Scenario.ok (Scenario.t0 + 3)) 7
                                         "TXN17566500000027" 99 5 None Scenario.ordered))
                           (fun o => eq_refl)) t Horder)).
    reflexivity.
Defined.

(** C7 as stated fails on the code: an order that is still [preparing]
    lets its owner create a review (201, one row written), and an order of
    another user is answered 404 "Transaction not found ...", not the 400
    "You can only review restaurants you have ordered from". *)
Lemma post_review_ignores_status :
  (exists t,
     Db.order_by_transactionId "TXN17566500000027" 7 Scenario.ordered = Some t
     /\ Transaction.status t = "preparing")
  /\ Response.statusCode
       (fst (Review.post_review (Scenario.ok (Scenario.t0 + 3)) 7 "TXN17566500000027" 1 5
               (Some "Great") Scenario.ordered)) = 201
  /\ List.length
       (restoReviews
          (db (snd (Review.post_review (Scenario.ok (Scenario.t0 + 3)) 7
                      "TXN17566500000027" 1 5 (Some "Great") Scenario.ordered)))) = 1%nat
  /\ Response.statusCode
       (fst (Review.post_review (Scenario.ok (Scenario.t0 + 3)) 8 "TXN17566500000027" 1 5
               None Scenario.ordered)) = 404.
Proof.
  split; [eexists; split; reflexivity |]. repeat split.
Qed.

(** ** Order identifiers *)

Lemma toString_inj (a b : Z) : JS.toString a = JS.toString b -> a = b.
Proof.
  unfold JS.toString. intros H.
  apply DecimalZ.to_int_inj.
  assert (Hnz : forall z, Z.to_int z <> Decimal.Pos Decimal.Nil
                          /\ Z.to_int z <> Decimal.Neg Decimal.Nil).
  { intros [| p | p]; simpl; split; try discriminate;
      intros [= Hp]; now apply DecimalPos.Unsigned.to_uint_nonnil in Hp. }
  apply (f_equal NilZero.int_of_string) in H.
  rewrite !NilZero.isi in H by apply Hnz.
  now injection H.
Qed.

Lemma append_inj_same_length (a a' b b' : string) :
  String.length a = String.length a' ->
  (a ++ b)%string = (a' ++ b')%string -> a = a' /\ b = b'.
Proof.
  revert a'. induction a as [| c a IH]; intros [| c' a'] Hlen Heq; simpl in *;
    try discriminate.
  - auto.
  - injection Heq as -> Heq. injection Hlen as Hlen.
    destruct (IH a' Hlen Heq) as [-> ->]. auto.
Qed.

(** X24: Identifiers built from timestamps with the same number of digits are
    equal only for the same instant and the same user. *)
Lemma transactionId_inj_same_width (t1 u1 t2 u2 : Z) :
  String.length (JS.toString t1) = String.length (JS.toString t2) ->
  Order.transactionId t1 u1 = Order.transactionId t2 u2 ->
  t1 = t2 /\ u1 = u2.
Proof.
  unfold Order.transactionId. intros Hlen Heq. simpl in Heq.
  injection Heq as Heq.
  apply append_inj_same_length in Heq; [| assumption].
  destruct Heq as [Ht Hu]. split; now apply toString_inj.
Qed.

(** C9: the identifiers the code generates are not unique.  Two checkouts
    of the same user within one millisecond generate the same identifier: here user 7 checks out at
    [t0 + 2], puts menu #5 in the cart again and checks out again in the
    same millisecond; the unique index rejects the second order and the
    answer is 500.  Identifiers also collide across users when the
    timestamps differ in length, as nothing separates the two numbers. *)
Lemma transactionId_collision :
  Order.transactionId (Scenario.t0 + 2) 7 = "TXN17566500000027"
  /\ map Transaction.transactionId (transactions Scenario.ordered) = ["TXN17566500000027"]
  /\ Db.cart_of_user 7 Scenario.again <> []
  /\ fst (Order.post_checkout (Scenario.ok (Scenario.t0 + 2)) 7 "BRI" Scenario.again)
     = errorResponse "Failed to process checkout" 500
  /\ transactions
       (db (snd (Order.post_checkout (Scenario.ok (Scenario.t0 + 2)) 7 "BRI" Scenario.again)))
     = transactions Scenario.ordered
  /\ Order.transactionId 1756650000000 12 = Order.transactionId 17566500000001 2.
Proof.
  split; [reflexivity |]. split; [reflexivity |]. split; [discriminate |].
  repeat split.
Qed.

(** * Further properties of the handlers *)

(** ** Objects keyed by restaurant id *)

Ltac key_order :=
  unfold JS.precedes, JS.is_index in *;
  repeat match goal with
         | H : _ = true |- _ =>
             first [ apply andb_prop in H; destruct H
                   | apply orb_prop in H
                   | apply negb_true_iff in H
                   | apply Z.leb_le in H
                   | apply Z.ltb_lt in H ]
         | H : _ = false |- _ =>
             first [ apply andb_false_iff in H
                   | apply orb_false_iff in H; destruct H
                   | apply negb_false_iff in H
                   | apply Z.leb_gt in H
                   | apply Z.ltb_ge in H ]
         | H : _ \/ _ |- _ => destruct H
         end;
  repeat first [ apply andb_false_iff | apply orb_false_iff; split
               | apply negb_false_iff | apply andb_true_intro; split
               | apply Z.leb_le | apply Z.ltb_ge ];
  try lia.

Lemma number_safe (z : Z) : safe z -> JS.number z = z.
Proof.
  unfold safe, JS.number, JS.MAX_SAFE_INTEGER. intros Hz. cbv zeta.
  destruct (Z.log2 (Z.abs z) - 52 <=? 0) eqn:E; [reflexivity |].
  apply Z.leb_gt in E.
  assert (Hpos : 0 < Z.abs z).
  { destruct (Z.eq_dec (Z.abs z) 0) as [H0 | H0].
    - rewrite H0 in E. simpl in E. lia.
    - pose proof (Z.abs_nonneg z). lia. }
  destruct (Z.log2_spec _ Hpos) as [Hlow _].
  assert (Hpow : 2 ^ 53 <= 2 ^ Z.log2 (Z.abs z)) by (apply Z.pow_le_mono_r; lia).
  change (2 ^ 53) with 9007199254740992 in Hpow. lia.
Qed.

(** [JS.number] against the primitive binary64 operations: the products
    and sums of the operands of [operands], 361 of each, coincide; among
    them are the ties [4194305 * 2147483647] and [2^53 + 1]. *)
Lemma numbers_agree_on_operands : numbers_agree operands = true.
Proof. vm_compute. reflexivity. Qed.

Lemma add_safe (a b : Z) : safe (a + b) -> JS.add a b = a + b.
Proof. apply number_safe. Qed.

Lemma mul_safe (a b : Z) : safe (a * b) -> JS.mul a b = a * b.
Proof. apply number_safe. Qed.

Lemma keys_set {V} (o : JS.object V) (k : Z) (v : V) (x : Z) :
  In x (keys (JS.set o k v)) <-> x = k \/ In x (keys o).
Proof.
  induction o as [| [k' v'] o IH]; simpl.
  - intuition.
  - destruct (k' =? k) eqn:E; simpl.
    + apply Z.eqb_eq in E. subst. intuition.
    + destruct (JS.precedes k k'); simpl; [intuition |].
      unfold keys in IH. rewrite IH. intuition.
Qed.

Lemma precedes_swap (k k' : Z) : JS.precedes k k' = true -> JS.precedes k' k = false.
Proof.
  intros H. destruct (JS.precedes k' k) eqn:H'; [| reflexivity].
  exfalso. key_order.
Qed.

Lemma precedes_trans (k k' y : Z) :
  JS.precedes k k' = true -> JS.precedes y k' = false -> k' <> y ->
  k <> y /\ JS.precedes y k = false.
Proof.
  intros H H' Hne. split.
  - intros <-. congruence.
  - destruct (JS.precedes y k) eqn:Hy; [| reflexivity].
    exfalso. key_order.
Qed.

Lemma enumerated_set {V} (o : JS.object V) (k : Z) (v : V) :
  enumerated (keys o) -> enumerated (keys (JS.set o k v)).
Proof.
  induction o as [| [k' v'] o IH]; simpl; intros Henum.
  - split; [intros y [] | exact I].
  - destruct Henum as [Hhead Htail].
    destruct (k' =? k) eqn:E; simpl.
    + apply Z.eqb_eq in E. subst. auto.
    + apply Z.eqb_neq in E. destruct (JS.precedes k k') eqn:L; simpl.
      * split; [| split; assumption].
        intros y [<- | Hy].
        -- split; [congruence | now apply precedes_swap].
        -- destruct (Hhead y Hy) as [Hne Hp]. now apply (precedes_trans k k' y).
      * split; [| auto].
        intros y Hy. apply (keys_set o k v y) in Hy.
        destruct Hy as [-> | Hy]; [split; assumption | auto].
Qed.

Lemma enumerated_fresh {V} (o : JS.object V) (k k' : Z) :
  (forall y, In y (keys o) -> k' <> y /\ JS.precedes y k' = false) ->
  JS.precedes k k' = true -> ~ In k (keys o).
Proof.
  intros Hhead L Hk. destruct (Hhead k Hk) as [_ Hp]. congruence.
Qed.

Lemma get_absent {V} (o : JS.object V) (k : Z) :
  ~ In k (keys o) -> JS.get o k = None.
Proof.
  induction o as [| [k' v'] o IH]; simpl; intros Hk; [reflexivity |].
  destruct (k' =? k) eqn:E.
  - apply Z.eqb_eq in E. now elim Hk; left.
  - apply IH. intros H. apply Hk. now right.
Qed.

Lemma get_present {V} (o : JS.object V) (k : Z) :
  In k (keys o) -> JS.get o k <> None.
Proof.
  induction o as [| [k' v'] o IH]; simpl; intros Hk; [contradiction |].
  destruct (k' =? k) eqn:E; [discriminate |].
  destruct Hk as [-> | Hk]; [rewrite Z.eqb_refl in E; discriminate | auto].
Qed.

(** The sum of a measure over the values of an object. *)
Lemma measure_set {V} (w : V -> Z) (o : JS.object V) (k : Z) (v : V) :
  enumerated (keys o) ->
  sumZ (map w (JS.values (JS.set o k v)))
  = sumZ (map w (JS.values o))
    - match JS.get o k with Some v0 => w v0 | None => 0 end
    + w v.
Proof.
  unfold JS.values.
  induction o as [| [k' v'] o IH]; simpl; intros Henum; [ring |].
  destruct Henum as [Hhead Henum].
  destruct (k' =? k) eqn:E; simpl; [ring |].
  destruct (JS.precedes k k') eqn:L; simpl.
  - rewrite get_absent; [ring | now apply (enumerated_fresh o k k')].
  - rewrite IH by assumption. ring.
Qed.

Lemma Forall_values_set {V} (P : V -> Prop) (o : JS.object V) (k : Z) (v : V) :
  Forall P (JS.values o) -> P v -> Forall P (JS.values (JS.set o k v)).
Proof.
  unfold JS.values.
  induction o as [| [k' v'] o IH]; simpl; intros Ho Hv.
  - constructor; [assumption | constructor].
  - inversion Ho as [| ? ? Hv' Ho']; subst.
    destruct (k' =? k); simpl; [constructor; assumption |].
    destruct (JS.precedes k k'); simpl.
    + constructor; [assumption |]. constructor; assumption.
    + constructor; [assumption | auto].
Qed.

Lemma get_In_values {V} (o : JS.object V) (k : Z) (v : V) :
  JS.get o k = Some v -> In v (JS.values o).
Proof.
  unfold JS.values.
  induction o as [| [k' v'] o IH]; simpl; [discriminate |].
  destruct (k' =? k); [intros [= ->]; now left | intros H; right; auto].
Qed.

Lemma enumerated_NoDup (l : list Z) : enumerated l -> NoDup l.
Proof.
  induction l as [| x l IH]; simpl; intros H; constructor.
  - intros Hin. destruct H as [Hhead _]. now destruct (Hhead x Hin).
  - apply IH, H.
Qed.

(** Keys that are all array indices are enumerated in ascending order. *)
Lemma enumerated_indices (l : list Z) :
  enumerated l -> Forall (fun k => JS.is_index k = true) l -> ascending l.
Proof.
  induction l as [| x l IH]; simpl; intros Henum Hidx; [exact I |].
  destruct Henum as [Hhead Henum].
  inversion Hidx as [| ? ? Hx Hl]; subst.
  split; [| auto].
  intros y Hy. destruct (Hhead y Hy) as [Hne Hp].
  rewrite Forall_forall in Hl. specialize (Hl y Hy).
  unfold JS.precedes in Hp. rewrite Hl, Hx in Hp. simpl in Hp.
  apply Z.ltb_ge in Hp. lia.
Qed.

(** An object enumerates as many values as the list of keys put into it
    has distinct elements. *)
Lemma distinct_keys {V} (o : JS.object V) (l : list Z) :
  enumerated (keys o) ->
  (forall x, In x (keys o) <-> In x l) ->
  Z.of_nat (List.length (JS.values o)) = distinct l.
Proof.
  intros Hasc Hsame. unfold distinct, JS.values. rewrite length_map.
  rewrite <- (length_map fst o). fold (keys o). f_equal.
  apply Permutation_length.
  apply NoDup_Permutation.
  - now apply enumerated_NoDup.
  - apply NoDup_nodup.
  - intros x. rewrite nodup_In. apply Hsame.
Qed.

Lemma get_In {V} (o : JS.object V) (k : Z) (v : V) :
  JS.get o k = Some v -> In (k, v) o.
Proof.
  induction o as [| [k' v'] o IH]; simpl; [discriminate |].
  destruct (k' =? k) eqn:E.
  - apply Z.eqb_eq in E. intros [= ->]. left. now subst.
  - intros H. right. auto.
Qed.

Lemma Forall_set {V} (P : Z * V -> Prop) (o : JS.object V) (k : Z) (v : V) :
  Forall P o -> P (k, v) -> Forall P (JS.set o k v).
Proof.
  induction o as [| [k' v'] o IH]; simpl; intros Ho Hv.
  - constructor; [assumption | constructor].
  - inversion Ho as [| ? ? Hv' Ho']; subst.
    destruct (k' =? k); simpl; [constructor; assumption |].
    destruct (JS.precedes k k'); simpl.
    + constructor; [assumption |]. constructor; assumption.
    + constructor; [assumption | auto].
Qed.

(** ** GET /cart *)

Lemma insert_cart_desc_perm (c : UserCartItem.t) (l : list UserCartItem.t) :
  Permutation (Db.insert_cart_desc c l) (c :: l).
Proof.
  induction l as [| c' l IH]; simpl; [reflexivity |].
  destruct (UserCartItem.createdAt c' <=? UserCartItem.createdAt c); [reflexivity |].
  rewrite IH. apply perm_swap.
Qed.

Lemma cart_by_createdAt_desc_perm (l : list UserCartItem.t) :
  Permutation (Db.cart_by_createdAt_desc l) l.
Proof.
  induction l as [| c l IH]; simpl; [reflexivity |].
  rewrite insert_cart_desc_perm. now constructor.
Qed.

Lemma sumZ_perm (l l' : list Z) : Permutation l l' -> sumZ l = sumZ l'.
Proof. induction 1; simpl; lia. Qed.

Lemma sumZ_nonneg (l : list Z) : Forall (fun x => 0 <= x) l -> 0 <= sumZ l.
Proof. induction 1; simpl; lia. Qed.

Lemma sumZ_member_le {A} (w : A -> Z) (l : list A) (a : A) :
  Forall (fun x => 0 <= w x) l -> In a l -> w a <= sumZ (map w l).
Proof.
  induction 1 as [| x l Hx Hl IH]; simpl; [contradiction |].
  assert (0 <= sumZ (map w l)).
  { apply sumZ_nonneg. rewrite Forall_map. exact Hl. }
  intros [<- | Ha]; [lia | specialize (IH Ha); lia].
Qed.

(** The keys of [groupedCart] after the loop: the restaurants of the rows,
    in the order of enumeration. *)
Lemma forEach_group_cart_keys (s : store) (rows : list UserCartItem.t) :
  forall acc acc',
    enumerated (keys (Cart.groupedCart acc)) ->
    JS.forEach Cart.group_cart_item (map (Db.include s) rows) acc = Some acc' ->
    enumerated (keys (Cart.groupedCart acc'))
    /\ (forall x, In x (keys (Cart.groupedCart acc'))
                  <-> In x (keys (Cart.groupedCart acc))
                      \/ In x (map UserCartItem.restaurantId rows)).
Proof.
  induction rows as [| c rows IH]; intros acc acc' Henum Hrun; simpl in Hrun.
  - injection Hrun as <-. simpl. split; [assumption | tauto].
  - unfold Cart.group_cart_item at 1 in Hrun. simpl in Hrun.
    destruct (Db.menu_by_id (UserCartItem.menuId c) s) as [m |] eqn:Hm; simpl in Hrun;
      [| discriminate].
    apply IH in Hrun; simpl; [| now apply enumerated_set].
    destruct Hrun as [Henum' Hkeys]. simpl in Hkeys.
    split; [assumption |].
    intros x. rewrite Hkeys, keys_set. simpl. intuition.
Qed.

(** The sums of the loop are exact as long as no term is negative and the
    totals stay within the integers a double holds. *)
Lemma forEach_group_cart_item (s : store) (rows : list UserCartItem.t) :
  forall acc acc',
    enumerated (keys (Cart.groupedCart acc)) ->
    Forall (fun g => 0 <= Cart.gr_subtotal g
                     /\ Cart.gr_subtotal g = sumZ (map Cart.cl_itemTotal (Cart.gr_items g)))
      (JS.values (Cart.groupedCart acc)) ->
    Forall (fun c => 0 <= UserCartItem.quantity c /\ 0 <= line_price s c) rows ->
    0 <= Cart.totalItems acc ->
    0 <= Cart.totalPrice acc ->
    Cart.totalItems acc + sumZ (map UserCartItem.quantity rows) <= JS.MAX_SAFE_INTEGER ->
    Cart.totalPrice acc + sumZ (map (line_price s) rows) <= JS.MAX_SAFE_INTEGER ->
    sumZ (map Cart.gr_subtotal (JS.values (Cart.groupedCart acc)))
    + sumZ (map (line_price s) rows) <= JS.MAX_SAFE_INTEGER ->
    JS.forEach Cart.group_cart_item (map (Db.include s) rows) acc = Some acc' ->
    Forall (fun g => 0 <= Cart.gr_subtotal g
                     /\ Cart.gr_subtotal g = sumZ (map Cart.cl_itemTotal (Cart.gr_items g)))
      (JS.values (Cart.groupedCart acc'))
    /\ Cart.totalItems acc'
       = Cart.totalItems acc + sumZ (map UserCartItem.quantity rows)
    /\ Cart.totalPrice acc' = Cart.totalPrice acc + sumZ (map (line_price s) rows)
    /\ sumZ (map Cart.gr_subtotal (JS.values (Cart.groupedCart acc')))
       = sumZ (map Cart.gr_subtotal (JS.values (Cart.groupedCart acc)))
         + sumZ (map (line_price s) rows).
Proof.
  induction rows as [| c rows IH];
    intros acc acc' Henum Hgroups Hrows Hitems0 Hprice0 Hitems Hprice Hsub Hrun;
    simpl in Hrun.
  - injection Hrun as <-. simpl. repeat split; try assumption; ring.
  - unfold Cart.group_cart_item at 1 in Hrun. simpl in Hrun.
    destruct (Db.menu_by_id (UserCartItem.menuId c) s) as [m |] eqn:Hm; simpl in Hrun;
      [| discriminate].
    assert (Hline : line_price s c = RestoMenu.price m * UserCartItem.quantity c)
      by (unfold line_price; now rewrite Hm).
    inversion Hrows as [| ? ? [Hq Hlp] Hrest]; subst.
    simpl map in *. simpl sumZ in *.
    assert (Hrest_q : 0 <= sumZ (map UserCartItem.quantity rows)).
    { apply sumZ_nonneg. rewrite Forall_map.
      eapply Forall_impl; [| exact Hrest]. simpl. tauto. }
    assert (Hrest_p : 0 <= sumZ (map (line_price s) rows)).
    { apply sumZ_nonneg. rewrite Forall_map.
      eapply Forall_impl; [| exact Hrest]. simpl. tauto. }
    assert (Hsubs : Forall (fun g => 0 <= Cart.gr_subtotal g)
                      (JS.values (Cart.groupedCart acc))).
    { eapply Forall_impl; [| exact Hgroups]. simpl. tauto. }
    assert (Hsubs0 : 0 <= sumZ (map Cart.gr_subtotal (JS.values (Cart.groupedCart acc)))).
    { apply sumZ_nonneg. rewrite Forall_map. exact Hsubs. }
    set (group := match JS.get (Cart.groupedCart acc) (UserCartItem.restaurantId c) with
                  | Some g => g
                  | None => Cart.mkCartGroup
                              (option_map Db.select_restaurant
                                 (Db.restaurant_by_id (UserCartItem.restaurantId c) s))
                              [] 0
                  end) in *.
    assert (Hgroup : 0 <= Cart.gr_subtotal group
                     /\ Cart.gr_subtotal group
                        = sumZ (map Cart.cl_itemTotal (Cart.gr_items group))
                     /\ Cart.gr_subtotal group
                        = match JS.get (Cart.groupedCart acc) (UserCartItem.restaurantId c)
                          with Some g => Cart.gr_subtotal g | None => 0 end
                     /\ Cart.gr_subtotal group
                        <= sumZ (map Cart.gr_subtotal (JS.values (Cart.groupedCart acc)))).
    { unfold group.
      destruct (JS.get (Cart.groupedCart acc) (UserCartItem.restaurantId c))
        as [g |] eqn:Hg; simpl.
      - apply get_In_values in Hg.
        rewrite Forall_forall in Hgroups. destruct (Hgroups g Hg) as [H0 Hsum].
        repeat split; try assumption.
        now apply (sumZ_member_le Cart.gr_subtotal).
      - repeat split; lia. }
    destruct Hgroup as [Hg0 [Hgsum [Hgget Hgle]]].
    assert (Hmul : JS.mul (RestoMenu.price m) (UserCartItem.quantity c)
                   = line_price s c).
    { rewrite Hline. apply mul_safe. unfold safe. rewrite <- Hline. lia. }
    rewrite Hmul in Hrun.
    rewrite (add_safe (Cart.gr_subtotal group)) in Hrun by (unfold safe; lia).
    rewrite (add_safe (Cart.totalItems acc)) in Hrun by (unfold safe; lia).
    rewrite (add_safe (Cart.totalPrice acc)) in Hrun by (unfold safe; lia).
    assert (Hmeasure :
              sumZ (map Cart.gr_subtotal
                      (JS.values
                         (JS.set (Cart.groupedCart acc) (UserCartItem.restaurantId c)
                            (Cart.mkCartGroup (Cart.gr_restaurant group)
                               (Cart.gr_items group
                                ++ [Cart.mkCartLine (UserCartItem.id c) (Db.select_menu m)
                                      (UserCartItem.quantity c) (line_price s c)])
                               (Cart.gr_subtotal group + line_price s c)))))
              = sumZ (map Cart.gr_subtotal (JS.values (Cart.groupedCart acc)))
                + line_price s c).
    { rewrite measure_set by assumption. simpl. rewrite <- Hgget. ring. }
    apply IH in Hrun; simpl; try assumption; try lia.
    + destruct Hrun as [Hgroups' [Hitems' [Hprice' Hsub']]].
      simpl in Hitems', Hprice', Hsub'.
      split; [assumption |].
      split; [rewrite Hitems'; ring |]. split; [rewrite Hprice'; ring |].
      rewrite Hsub', Hmeasure. ring.
    + now apply enumerated_set.
    + apply Forall_values_set; [assumption |]. simpl.
      split; [lia |]. rewrite map_app, sumZ_app. simpl. lia.
Qed.

(** X1: GET /cart never writes, and its restaurant count is the number of
    distinct restaurants in the caller's cart.  The sums of the answer are
    sums of doubles; when no quantity and no line price (current menu price
    times quantity) is negative and the totals do not exceed
    [Number.MAX_SAFE_INTEGER], the item count is the sum of the caller's
    quantities, the total price is the sum of the line prices and equals
    the sum of the restaurant subtotals, and every subtotal is the sum of
    its lines. *)
Theorem get_cart_summary (e : env) (u : Z) (s : store) (d : Cart.cartData) :
  Response.data (fst (Cart.get_cart e u s)) = Some d ->
  db (snd (Cart.get_cart e u s)) = s
  /\ Cart.sm_restaurantCount (Cart.summary d)
     = distinct (map UserCartItem.restaurantId (Db.cart_of_user u s))
  /\ (Forall (fun c => 0 <= UserCartItem.quantity c /\ 0 <= line_price s c)
        (Db.cart_of_user u s) ->
      sumZ (map UserCartItem.quantity (Db.cart_of_user u s)) <= JS.MAX_SAFE_INTEGER ->
      sumZ (map (line_price s) (Db.cart_of_user u s)) <= JS.MAX_SAFE_INTEGER ->
      Cart.sm_totalItems (Cart.summary d)
      = sumZ (map UserCartItem.quantity (Db.cart_of_user u s))
      /\ Cart.sm_totalPrice (Cart.summary d)
         = sumZ (map (line_price s) (Db.cart_of_user u s))
      /\ Cart.sm_totalPrice (Cart.summary d) = sumZ (map Cart.gr_subtotal (Cart.cart d))
      /\ Forall (fun g => Cart.gr_subtotal g
                          = sumZ (map Cart.cl_itemTotal (Cart.gr_items g)))
           (Cart.cart d)).
Proof.
  unfold Cart.get_cart, Cart.get_cart_body. run_M.
  destruct (fails e userCartItem_findMany); [discriminate |].
  unfold Db.cart_newest_first.
  destruct (JS.forEach Cart.group_cart_item _ _) as [acc |] eqn:Hrun; [| discriminate].
  simpl. intros [= <-]. simpl.
  pose proof (cart_by_createdAt_desc_perm (Db.cart_of_user u s)) as Hperm.
  split; [reflexivity |]. split.
  - apply forEach_group_cart_keys in Hrun; [| exact I].
    destruct Hrun as [Henum Hkeys]. simpl in Hkeys.
    apply distinct_keys; [assumption |].
    intros x. rewrite Hkeys. split.
    + intros [[] | Hx].
      eapply Permutation_in; [apply Permutation_map, Hperm | exact Hx].
    + intros Hx. right.
      eapply Permutation_in; [apply Permutation_map, Permutation_sym, Hperm | exact Hx].
  - intros Hrows Hitems Hprice.
    assert (Hq : sumZ (map UserCartItem.quantity
                         (Db.cart_by_createdAt_desc (Db.cart_of_user u s)))
                 = sumZ (map UserCartItem.quantity (Db.cart_of_user u s)))
      by (apply sumZ_perm, Permutation_map, Hperm).
    assert (Hp : sumZ (map (line_price s)
                         (Db.cart_by_createdAt_desc (Db.cart_of_user u s)))
                 = sumZ (map (line_price s) (Db.cart_of_user u s)))
      by (apply sumZ_perm, Permutation_map, Hperm).
    apply forEach_group_cart_item in Hrun; simpl; try lia; try exact I;
      try apply Forall_nil;
      [| eapply Permutation_Forall; [apply Permutation_sym, Hperm | exact Hrows]].
    destruct Hrun as [Hgroups [Hitems' [Hprice' Hsub]]].
    simpl in Hitems', Hprice', Hsub.
    split; [lia |]. split; [lia |]. split; [lia |].
    eapply Forall_impl; [| exact Hgroups]. simpl. tauto.
Qed.

Lemma get_cart_summary_witness :
  Response.data (fst (Cart.get_cart (Scenario.ok Scenario.t0) 7 Scenario.cart2))
  = Some Scenario.cart2_view
  /\ Cart.summary Scenario.cart2_view = Cart.mkCartSummary 3 115000 2.
Proof.
  split; [reflexivity |].
  destruct (get_cart_summary (Scenario.ok Scenario.t0) 7 Scenario.cart2
              Scenario.cart2_view eq_refl) as [_ [Hcount Hsums]].
  destruct Hsums as [Hitems [Hprice _]].
  - repeat constructor; vm_compute; discriminate.
  - vm_compute. discriminate.
  - vm_compute. discriminate.
  - destruct (Cart.summary Scenario.cart2_view) as [items price count].
    simpl in Hitems, Hprice, Hcount. rewrite Hitems, Hprice, Hcount. reflexivity.
Defined.

(** ** PUT /cart/:id, DELETE /cart/:id, DELETE /cart *)

Lemma cart_item_of_user_spec (id u : Z) (s : store) (c : UserCartItem.t) :
  Db.cart_item_of_user id u s = Some c ->
  In c (userCartItems s) /\ UserCartItem.id c = id /\ UserCartItem.userId c = u.
Proof.
  unfold Db.cart_item_of_user. intros H. apply find_some in H.
  destruct H as [Hin H]. apply andb_prop in H. destruct H as [H1 H2].
  apply Z.eqb_eq in H1. apply Z.eqb_eq in H2. auto.
Qed.

Lemma find_by_id_present (id : Z) (l : list UserCartItem.t) (c : UserCartItem.t) :
  In c l -> UserCartItem.id c = id ->
  find (fun c' => UserCartItem.id c' =? id) l <> None.
Proof.
  intros Hin Hid Hnone. apply (find_none _ _ Hnone) in Hin.
  rewrite Hid, Z.eqb_refl in Hin. discriminate.
Qed.

Lemma put_cart_store (e : env) (u id quantity : Z) (s : store) (c : UserCartItem.t) :
  reliable e ->
  Db.cart_item_of_user id u s = Some c ->
  db (snd (Cart.put_cart e u id quantity s))
  = with_userCartItems s
      (map (fun c' => if UserCartItem.id c' =? id
                      then Db.set_quantity quantity (now e) c' else c')
         (userCartItems s))
      (userCartItems_id_seq s).
Proof.
  intros Hrel Hc.
  unfold Cart.put_cart, Cart.put_cart_body, Cart.cartItem_json. run_M.
  rewrite !Hrel, Hc.
  destruct (cart_item_of_user_spec _ _ _ _ Hc) as [Hin [Hid Hu]].
  unfold Db.cart_update.
  destruct (find (fun c' => UserCartItem.id c' =? id) (userCartItems s)) as [c0 |] eqn:H0;
    [| now elim (find_by_id_present id _ c Hin Hid)].
  simpl. destruct (option_map Db.select_menu _); reflexivity.
Qed.

(** X2: PUT /cart/:id replaces the quantity.  (1) When the id is not an entry
    of the caller, even if it is an entry of someone else, the answer is 404
    and nothing is written.  (2) When it is the caller's and no store call
    fails, the entry now holds exactly the quantity sent and the current
    time as update timestamp, the table has as many rows as before, and
    rows with another id are untouched.  (3) A successful answer reports the
    quantity sent and, as item total, the menu price times that quantity as
    doubles multiply: the exact product whenever that is within
    [Number.MAX_SAFE_INTEGER] in magnitude. *)
Theorem put_cart_replaces (e : env) (u id quantity : Z) (s : store) :
  (fails e userCartItem_findFirst = false ->
   Db.cart_item_of_user id u s = None ->
   Cart.put_cart e u id quantity s
   = (errorResponse "Cart item not found" 404, mkWorld s [userCartItem_findFirst]))
  /\ (reliable e ->
      forall c,
        Db.cart_item_of_user id u s = Some c ->
        Db.cart_item_of_user id u (db (snd (Cart.put_cart e u id quantity s)))
        = Some (Db.set_quantity quantity (now e) c)
        /\ List.length (userCartItems (db (snd (Cart.put_cart e u id quantity s))))
           = List.length (userCartItems s)
        /\ forall c', UserCartItem.id c' <> id ->
                      (In c' (userCartItems (db (snd (Cart.put_cart e u id quantity s))))
                       <-> In c' (userCartItems s)))
  /\ (forall d,
        Response.data (fst (Cart.put_cart e u id quantity s)) = Some d ->
        Cart.quantity d = quantity
        /\ Cart.itemTotal d = JS.mul (Db.ms_price (Cart.menu d)) quantity
        /\ (safe (Db.ms_price (Cart.menu d) * quantity) ->
            Cart.itemTotal d = Db.ms_price (Cart.menu d) * quantity)).
Proof.
  split; [| split].
  - intros Hf Hnone.
    unfold Cart.put_cart, Cart.put_cart_body, Cart.cartItem_json. run_M.
    rewrite Hf, Hnone. reflexivity.
  - intros Hrel c Hc.
    rewrite (put_cart_store e u id quantity s c Hrel Hc).
    destruct (cart_item_of_user_spec _ _ _ _ Hc) as [Hin [Hid Hu]].
    split; [| split].
    + unfold Db.cart_item_of_user. simpl.
      rewrite (find_map_by_id UserCartItem.id (Db.set_quantity quantity (now e)))
        by reflexivity.
      fold (Db.cart_item_of_user id u s). rewrite Hc. simpl.
      now rewrite Hid, Z.eqb_refl.
    + simpl. apply length_map.
    + intros c' Hc'. simpl. rewrite in_map_iff. split.
      * intros [x [Hx Hinx]]. destruct (UserCartItem.id x =? id) eqn:E.
        -- subst c'. apply Z.eqb_eq in E. now elim Hc'.
        -- now subst.
      * intros Hin'. exists c'. split; [| assumption].
        apply Z.eqb_neq in Hc'. now rewrite Hc'.
  - intros d.
    unfold Cart.put_cart, Cart.put_cart_body, Cart.cartItem_json. run_M.
    destruct (fails e userCartItem_findFirst); [discriminate |].
    destruct (Db.cart_item_of_user id u s); [| discriminate].
    destruct (fails e userCartItem_update); [discriminate |].
    unfold Db.cart_update.
    destruct (find _ (userCartItems s)); [| discriminate].
    simpl. destruct (option_map Db.select_menu _); [| discriminate].
    simpl. intros [= <-]. simpl.
    split; [reflexivity |]. split; [reflexivity |]. apply mul_safe.
Qed.

Lemma put_cart_replaces_witness :
  Db.cart_item_of_user 1 8 Scenario.cart2 = None
  /\ Cart.put_cart (Scenario.ok (Scenario.t0 + 2)) 8 1 5 Scenario.cart2
     = (errorResponse "Cart item not found" 404,
        mkWorld Scenario.cart2 [userCartItem_findFirst])
  /\ option_map UserCartItem.quantity (Db.cart_item_of_user 1 7 Scenario.cart2) = Some 2
  /\ option_map UserCartItem.quantity
       (Db.cart_item_of_user 1 7
          (db (snd (Cart.put_cart (Scenario.ok (Scenario.t0 + 2)) 7 1 5 Scenario.cart2))))
     = Some 5
  /\ (exists d,
        Response.data
          (fst (Cart.put_cart (Scenario.ok (Scenario.t0 + 2)) 7 1 5 Scenario.cart2))
        = Some d
        /\ Db.ms_price (Cart.menu d) = 50000
        /\ Cart.itemTotal d = Db.ms_price (Cart.menu d) * 5).
Proof.
  split; [reflexivity |]. split; [| split; [reflexivity | split]].
  - apply (proj1 (put_cart_replaces (Scenario.ok (Scenario.t0 + 2)) 8 1 5 Scenario.cart2));
      reflexivity.
  - destruct (Db.cart_item_of_user 1 7 Scenario.cart2) as [c |] eqn:Hc;
      [| vm_compute in Hc; discriminate].
    destruct (proj1 (proj2 (put_cart_replaces (Scenario.ok (Scenario.t0 + 2)) 7 1 5
                              Scenario.cart2)) (fun o => eq_refl) c Hc) as [Hnew _].
    rewrite Hnew. reflexivity.
  - destruct (Response.data
                (fst (Cart.put_cart (Scenario.ok (Scenario.t0 + 2)) 7 1 5 Scenario.cart2)))
      as [d |] eqn:Hd; [| vm_compute in Hd; discriminate].
    exists d. split; [reflexivity |].
    assert (Hprice : Db.ms_price (Cart.menu d) = 50000)
      by (vm_compute in Hd; injection Hd as <-; reflexivity).
    split; [exact Hprice |].
    apply (proj2 (proj2 (put_cart_replaces (Scenario.ok (Scenario.t0 + 2)) 7 1 5
                           Scenario.cart2)) d Hd).
    rewrite Hprice. vm_compute. discriminate.
Defined.

(** Past [Number.MAX_SAFE_INTEGER] the cart routes answer with the nearest
    double: GET /cart totals [2147483647 * 2147483647] as ...608, and
    PUT /cart/:id reports [4194305 * 2147483647], a tie, as ...336. *)
Example cart_totals_round :
  2147483647 * 2147483647 = 4611686014132420609
  /\ option_map (fun d => Cart.sm_totalPrice (Cart.summary d))
       (Response.data (fst (Cart.get_cart (Scenario.ok Scenario.t0) 7 Scenario.large)))
     = Some 4611686014132420608
  /\ 4194305 * 2147483647 = 9007201398030335
  /\ option_map Cart.itemTotal
       (Response.data
          (fst (Cart.put_cart (Scenario.ok Scenario.t0) 7 1 2147483647
                  (set_menu_price 5 4194305 Scenario.cart1))))
     = Some 9007201398030336.
Proof. vm_compute. repeat split. Qed.

(** X3: DELETE /cart/:id.  (1) When the id is not an entry of the caller the
    answer is 404 and nothing is written.  (2) When it is and no store call
    fails, the rows left are exactly the rows with another id, and the
    answer is the success "Item removed from cart successfully". *)
Theorem delete_cart_item_removes (e : env) (u id : Z) (s : store) :
  (fails e userCartItem_findFirst = false ->
   Db.cart_item_of_user id u s = None ->
   Cart.delete_cart_item e u id s
   = (errorResponse "Cart item not found" 404, mkWorld s [userCartItem_findFirst]))
  /\ (reliable e ->
      Db.cart_item_of_user id u s <> None ->
      fst (Cart.delete_cart_item e u id s)
      = successResponse None "Item removed from cart successfully" 200
      /\ Db.cart_item_of_user id u (db (snd (Cart.delete_cart_item e u id s))) = None
      /\ forall c, In c (userCartItems (db (snd (Cart.delete_cart_item e u id s))))
                   <-> In c (userCartItems s) /\ UserCartItem.id c <> id).
Proof.
  unfold Cart.delete_cart_item, Cart.delete_cart_item_body. run_M. split.
  - intros -> ->. reflexivity.
  - intros Hrel Hown. rewrite !Hrel.
    destruct (Db.cart_item_of_user id u s) as [c |] eqn:Hc; [| congruence].
    destruct (cart_item_of_user_spec _ _ _ _ Hc) as [Hin [Hid Hu]].
    unfold Db.cart_delete.
    destruct (find (fun c' => UserCartItem.id c' =? id) (userCartItems s)) eqn:H0;
      [| now elim (find_by_id_present id _ c Hin Hid)].
    simpl. split; [reflexivity |].
    assert (Hrows : forall c', In c' (filter (fun c0 => negb (UserCartItem.id c0 =? id))
                                        (userCartItems s))
                               <-> In c' (userCartItems s) /\ UserCartItem.id c' <> id).
    { intros c'. rewrite filter_In, negb_true_iff, Z.eqb_neq. reflexivity. }
    split; [| exact Hrows].
    unfold Db.cart_item_of_user. simpl.
    destruct (find _ (filter _ (userCartItems s))) as [c' |] eqn:Hfound; [| reflexivity].
    apply find_some in Hfound. destruct Hfound as [Hin' Hmatch].
    apply Hrows in Hin'. apply andb_prop in Hmatch.
    destruct Hmatch as [Hmatch _]. apply Z.eqb_eq in Hmatch. tauto.
Qed.

Lemma delete_cart_item_removes_witness :
  Db.cart_item_of_user 2 7 Scenario.cart2 <> None
  /\ map UserCartItem.id
       (userCartItems
          (db (snd (Cart.delete_cart_item (Scenario.ok (Scenario.t0 + 2)) 7 2
                      Scenario.cart2)))) = [1]
  /\ Db.cart_item_of_user 2 7
       (db (snd (Cart.delete_cart_item (Scenario.ok (Scenario.t0 + 2)) 7 2 Scenario.cart2)))
     = None
  /\ Cart.delete_cart_item (Scenario.ok (Scenario.t0 + 2)) 8 2 Scenario.cart2
     = (errorResponse "Cart item not found" 404,
        mkWorld Scenario.cart2 [userCartItem_findFirst]).
Proof.
  split; [discriminate |]. split; [reflexivity |]. split.
  - apply (proj2 (delete_cart_item_removes (Scenario.ok (Scenario.t0 + 2)) 7 2
                    Scenario.cart2)).
    + intros o. reflexivity.
    + discriminate.
  - apply (proj1 (delete_cart_item_removes (Scenario.ok (Scenario.t0 + 2)) 8 2
                    Scenario.cart2)); reflexivity.
Defined.

Lemma filter_filter_neg {A} (p q : A -> bool) (l : list A) :
  (forall a, p a = true -> q a = true) ->
  filter p (filter (fun a => negb (q a)) l) = [].
Proof.
  intros Hpq. induction l as [| a l IH]; simpl; [reflexivity |].
  destruct (q a) eqn:Hq; simpl; [exact IH |].
  destruct (p a) eqn:Hp; [| exact IH].
  rewrite (Hpq a Hp) in Hq. discriminate.
Qed.

Lemma filter_filter_other {A} (p q : A -> bool) (l : list A) :
  (forall a, p a = true -> q a = false) ->
  filter p (filter (fun a => negb (q a)) l) = filter p l.
Proof.
  intros Hpq. induction l as [| a l IH]; simpl; [reflexivity |].
  destruct (p a) eqn:Hp.
  - rewrite (Hpq a Hp). simpl. rewrite Hp. now f_equal.
  - destruct (q a); simpl; rewrite ?Hp; exact IH.
Qed.

(** X4: DELETE /cart.  (1) The entries of every other user are left as they
    are, whatever happens.  (2) When the store call does not fail the
    caller's cart is empty afterwards and the answer is the success "Cart
    cleared successfully", also when the cart was already empty; clearing
    again changes nothing more. *)
Theorem delete_cart_clears (e : env) (u : Z) (s : store) :
  (forall v, v <> u ->
             Db.cart_of_user v (db (snd (Cart.delete_cart e u s))) = Db.cart_of_user v s)
  /\ (fails e userCartItem_deleteMany = false ->
      fst (Cart.delete_cart e u s) = successResponse None "Cart cleared successfully" 200
      /\ Db.cart_of_user u (db (snd (Cart.delete_cart e u s))) = []
      /\ db (snd (Cart.delete_cart e u (db (snd (Cart.delete_cart e u s)))))
         = db (snd (Cart.delete_cart e u s))).
Proof.
  unfold Cart.delete_cart, Cart.delete_cart_body. run_M.
  destruct (fails e userCartItem_deleteMany); simpl.
  - split; [reflexivity | discriminate].
  - split.
    + intros v Hv. unfold Db.cart_of_user. simpl.
      apply filter_filter_other. intros c Hc. apply Z.eqb_eq in Hc.
      apply Z.eqb_neq. congruence.
    + intros _. split; [reflexivity |]. split.
      * apply cart_cleared.
      * unfold with_userCartItems. simpl. f_equal.
        induction (userCartItems s) as [| c l IH]; simpl; [reflexivity |].
        destruct (UserCartItem.userId c =? u) eqn:E; simpl; rewrite ?E; simpl;
          [exact IH | now f_equal].
Qed.

Lemma delete_cart_clears_witness :
  fails (Scenario.ok Scenario.t0) userCartItem_deleteMany = false
  /\ Db.cart_of_user 7 (db (snd (Cart.delete_cart (Scenario.ok Scenario.t0) 7 Scenario.cart2)))
     = []
  /\ fst (Cart.delete_cart (Scenario.ok Scenario.t0) 7 Scenario.seeded)
     = successResponse None "Cart cleared successfully" 200
  /\ Db.cart_of_user 7 (db (snd (Cart.delete_cart (Scenario.ok Scenario.t0) 8 Scenario.cart2)))
     = Db.cart_of_user 7 Scenario.cart2.
Proof.
  split; [reflexivity |]. split; [| split].
  - apply (proj2 (delete_cart_clears (Scenario.ok Scenario.t0) 7 Scenario.cart2)).
    reflexivity.
  - apply (proj2 (delete_cart_clears (Scenario.ok Scenario.t0) 7 Scenario.seeded)).
    reflexivity.
  - apply (proj1 (delete_cart_clears (Scenario.ok Scenario.t0) 8 Scenario.cart2)).
    discriminate.
Defined.

(** ** POST /cart: refusals, and the one-entry-per-triple invariant *)

Lemma menu_of_restaurant_by_id (menuId restaurantId : Z) (s : store) :
  Db.menu_of_restaurant menuId restaurantId s <> None ->
  Db.menu_by_id menuId s <> None.
Proof.
  unfold Db.menu_of_restaurant, Db.menu_by_id. intros Hsome Hnone.
  destruct (find _ (restoMenus s)) as [m |] eqn:Hm; [| congruence].
  apply find_some in Hm. destruct Hm as [Hin Hmatch].
  apply andb_prop in Hmatch. destruct Hmatch as [Hid _].
  apply (find_none _ _ Hnone) in Hin. congruence.
Qed.

(** What POST /cart leaves in the store: nothing new, a first entry for the
    triple, or the rows with the id of the existing entry at a new
    quantity. *)
Lemma post_cart_store (e : env) (u r m : Z) (quantity : option Z) (s : store) :
  db (snd (Cart.post_cart e u r m quantity s)) = s
  \/ (entries u r m s = []
      /\ Db.menu_of_restaurant m r s <> None
      /\ exists c,
           UserCartItem.userId c = u /\ UserCartItem.restaurantId c = r
           /\ UserCartItem.menuId c = m
           /\ UserCartItem.quantity c = quantity_passed quantity
           /\ db (snd (Cart.post_cart e u r m quantity s))
              = with_userCartItems s (userCartItems s ++ [c]) (userCartItems_id_seq s + 1))
  \/ (exists c0 rest,
        entries u r m s = c0 :: rest
        /\ db (snd (Cart.post_cart e u r m quantity s))
           = with_userCartItems s
               (map (fun c' => if UserCartItem.id c' =? UserCartItem.id c0
                               then Db.set_quantity
                                      (UserCartItem.quantity c0 + quantity_passed quantity)
                                      (now e) c'
                               else c')
                  (userCartItems s))
               (userCartItems_id_seq s)).
Proof.
  unfold Cart.post_cart, Cart.post_cart_body, Cart.cartItem_json. run_M.
  fold (quantity_passed quantity).
  destruct (fails e restaurant_findUnique); [now left |].
  destruct (Db.restaurant_by_id r s); [| now left].
  destruct (fails e restoMenu_findFirst); [now left |].
  destruct (Db.menu_of_restaurant m r s) eqn:Hmenu; [| now left].
  destruct (fails e userCartItem_findFirst); [now left |].
  unfold Db.cart_entry. rewrite find_filter. fold (entries u r m s).
  destruct (entries u r m s) as [| c0 rest] eqn:Hentries; simpl.
  - destruct (fails e userCartItem_create); [now left |].
    right. left. split; [reflexivity |]. split; [discriminate |].
    unfold Db.cart_create. simpl.
    exists (UserCartItem.mk (userCartItems_id_seq s)
              ("cart_" ++ JS.toString u ++ "_" ++ JS.toString (now e))%string
              u r m (quantity_passed quantity) (now e) (now e)).
    destruct (option_map Db.select_menu _); simpl; repeat split.
  - destruct (fails e userCartItem_update); [now left |].
    unfold Db.cart_update.
    destruct (find _ (userCartItems s)); [| now left].
    right. right. exists c0, rest. split; [reflexivity |].
    simpl. destruct (option_map Db.select_menu _); reflexivity.
Qed.

Lemma entries_head (u r m : Z) (s : store) (c0 : UserCartItem.t) (rest : list UserCartItem.t) :
  entries u r m s = c0 :: rest -> In c0 (userCartItems s).
Proof.
  intros H. assert (Hin : In c0 (entries u r m s)) by (rewrite H; now left).
  unfold entries in Hin. apply filter_In in Hin. tauto.
Qed.

(** X5: POST /cart refuses without writing.  (1) An unknown restaurant is
    answered 404 "Restaurant not found".  (2) A menu id that is not a menu
    of that restaurant, be it a menu of another one, is answered 404 "Menu
    item not found".  (3) In a store whose cart rows all refer to existing
    menus, every answer other than 201 leaves the store as it was.  (4) A
    201 answer reports, as item total, the menu price times the quantity it
    reports as doubles multiply: the exact product whenever that is within
    [Number.MAX_SAFE_INTEGER] in magnitude. *)
Theorem post_cart_refusals (e : env) (u r m : Z) (quantity : option Z) (s : store) :
  (fails e restaurant_findUnique = false ->
   Db.restaurant_by_id r s = None ->
   Cart.post_cart e u r m quantity s
   = (errorResponse "Restaurant not found" 404, mkWorld s [restaurant_findUnique]))
  /\ (reliable e ->
      Db.restaurant_by_id r s <> None ->
      (forall menu, In menu (restoMenus s) -> RestoMenu.id menu = m ->
                    RestoMenu.restaurantId menu <> r) ->
      Cart.post_cart e u r m quantity s
      = (errorResponse "Menu item not found" 404,
         mkWorld s [restaurant_findUnique; restoMenu_findFirst]))
  /\ (cart_menus_exist s ->
      Response.statusCode (fst (Cart.post_cart e u r m quantity s)) <> 201 ->
      db (snd (Cart.post_cart e u r m quantity s)) = s)
  /\ (forall d,
        Response.data (fst (Cart.post_cart e u r m quantity s)) = Some d ->
        Cart.itemTotal d = JS.mul (Db.ms_price (Cart.menu d)) (Cart.quantity d)
        /\ (safe (Db.ms_price (Cart.menu d) * Cart.quantity d) ->
            Cart.itemTotal d = Db.ms_price (Cart.menu d) * Cart.quantity d)).
Proof.
  unfold Cart.post_cart, Cart.post_cart_body, Cart.cartItem_json. run_M.
  fold (quantity_passed quantity).
  split; [| split; [| split]].
  - intros -> ->. reflexivity.
  - intros Hrel Hresto Hforeign. rewrite !Hrel.
    destruct (Db.restaurant_by_id r s); [| congruence].
    destruct (Db.menu_of_restaurant m r s) as [menu |] eqn:Hmenu; [| reflexivity].
    unfold Db.menu_of_restaurant in Hmenu. apply find_some in Hmenu.
    destruct Hmenu as [Hin Hmatch]. apply andb_prop in Hmatch.
    destruct Hmatch as [Hid Hr]. apply Z.eqb_eq in Hid. apply Z.eqb_eq in Hr.
    now elim (Hforeign menu Hin Hid).
  - intros Hfk.
    destruct (fails e restaurant_findUnique); [reflexivity |].
    destruct (Db.restaurant_by_id r s); [| reflexivity].
    destruct (fails e restoMenu_findFirst); [reflexivity |].
    destruct (Db.menu_of_restaurant m r s) eqn:Hmenu; [| reflexivity].
    destruct (fails e userCartItem_findFirst); [reflexivity |].
    unfold Db.cart_entry. rewrite find_filter. fold (entries u r m s).
    destruct (entries u r m s) as [| c0 rest] eqn:Hentries; simpl.
    + destruct (fails e userCartItem_create); [reflexivity |].
      unfold Db.cart_create. simpl.
      assert (Hm : Db.menu_by_id m s <> None).
      { apply (menu_of_restaurant_by_id m r). congruence. }
      unfold Db.menu_by_id in *. simpl.
      destruct (find _ (restoMenus s)); [| congruence].
      simpl. intros H. now elim H.
    + destruct (fails e userCartItem_update); [reflexivity |].
      unfold Db.cart_update.
      destruct (find _ (userCartItems s)) as [c1 |] eqn:H1; [| reflexivity].
      apply find_some in H1. destruct H1 as [Hin1 _].
      specialize (Hfk c1 Hin1). simpl.
      unfold Db.menu_by_id in *. simpl.
      destruct (find _ (restoMenus s)); [| congruence].
      simpl. intros H. now elim H.
  - intros d.
    destruct (fails e restaurant_findUnique); [discriminate |].
    destruct (Db.restaurant_by_id r s); [| discriminate].
    destruct (fails e restoMenu_findFirst); [discriminate |].
    destruct (Db.menu_of_restaurant m r s); [| discriminate].
    destruct (fails e userCartItem_findFirst); [discriminate |].
    destruct (Db.cart_entry u r m s).
    + destruct (fails e userCartItem_update); [discriminate |].
      destruct (Db.cart_update _ _ _ _) as [[row s'] |]; [| discriminate].
      simpl. destruct (Db.menu row); [| discriminate].
      simpl. intros [= <-]. simpl. split; [reflexivity | apply mul_safe].
    + destruct (fails e userCartItem_create); [discriminate |].
      destruct (Db.cart_create _ _ _ _ _ _ _) as [[row s'] |]; [| discriminate].
      simpl. destruct (Db.menu row); [| discriminate].
      simpl. intros [= <-]. simpl. split; [reflexivity | apply mul_safe].
Qed.

Lemma post_cart_refusals_witness :
  Db.restaurant_by_id 3 Scenario.seeded = None
  /\ Cart.post_cart (Scenario.ok Scenario.t0) 7 3 5 None Scenario.seeded
     = (errorResponse "Restaurant not found" 404,
        mkWorld Scenario.seeded [restaurant_findUnique])
  /\ Db.menu_by_id 9 Scenario.seeded <> None
  /\ Cart.post_cart (Scenario.ok Scenario.t0) 7 1 9 None Scenario.seeded
     = (errorResponse "Menu item not found" 404,
        mkWorld Scenario.seeded [restaurant_findUnique; restoMenu_findFirst])
  /\ cart_menus_exist Scenario.cart2
  /\ db (snd (Cart.post_cart (Scenario.failing Scenario.t0 userCartItem_update) 7 1 5 None
                Scenario.cart2)) = Scenario.cart2
  /\ (exists d,
        Response.data
          (fst (Cart.post_cart (Scenario.ok (Scenario.t0 + 2)) 7 1 5 (Some 4)
                  Scenario.cart2)) = Some d
        /\ Db.ms_price (Cart.menu d) = 50000
        /\ Cart.quantity d = 6
        /\ Cart.itemTotal d = Db.ms_price (Cart.menu d) * Cart.quantity d).
Proof.
  assert (Hfk : cart_menus_exist Scenario.cart2).
  { intros c [<- | [<- | []]]; discriminate. }
  split; [reflexivity |]. split; [| split; [discriminate | split; [| split; [| split]]]].
  - apply (proj1 (post_cart_refusals (Scenario.ok Scenario.t0) 7 3 5 None Scenario.seeded));
      reflexivity.
  - apply (proj1 (proj2 (post_cart_refusals (Scenario.ok Scenario.t0) 7 1 9 None
                           Scenario.seeded))).
    + intros o. reflexivity.
    + discriminate.
    + intros menu [<- | [<- | []]]; simpl; discriminate.
  - exact Hfk.
  - apply (proj1 (proj2 (proj2 (post_cart_refusals
                                  (Scenario.failing Scenario.t0 userCartItem_update)
                                  7 1 5 None Scenario.cart2)))).
    + exact Hfk.
    + discriminate.
  - destruct (Response.data
                (fst (Cart.post_cart (Scenario.ok (Scenario.t0 + 2)) 7 1 5 (Some 4)
                        Scenario.cart2))) as [d |] eqn:Hd;
      [| vm_compute in Hd; discriminate].
    exists d. split; [reflexivity |].
    assert (Hprice : Db.ms_price (Cart.menu d) = 50000)
      by (vm_compute in Hd; injection Hd as <-; reflexivity).
    assert (Hquantity : Cart.quantity d = 6)
      by (vm_compute in Hd; injection Hd as <-; reflexivity).
    split; [exact Hprice |]. split; [exact Hquantity |].
    apply (proj2 (proj2 (proj2 (post_cart_refusals (Scenario.ok (Scenario.t0 + 2)) 7 1 5
                                  (Some 4) Scenario.cart2))) d Hd).
    rewrite Hprice, Hquantity. vm_compute. discriminate.
Defined.

Lemma merged_rows (s s' : store) :
  userCartItems s' = userCartItems s -> merged s -> merged s'.
Proof. intros Hrows H u r m. unfold entries. rewrite Hrows. apply H. Qed.

Lemma merged_map (f : UserCartItem.t -> UserCartItem.t) (s s' : store) :
  (forall u r m c, Db.same_entry u r m (f c) = Db.same_entry u r m c) ->
  userCartItems s' = map f (userCartItems s) ->
  merged s -> merged s'.
Proof.
  intros Hf Hrows H u r m. unfold entries. rewrite Hrows.
  rewrite filter_map_stable by (intros c; apply Hf).
  rewrite length_map. apply H.
Qed.

Lemma length_filter_filter {A} (p q : A -> bool) (l : list A) :
  (List.length (filter p (filter q l)) <= List.length (filter p l))%nat.
Proof.
  induction l as [| a l IH]; simpl; [lia |].
  destruct (q a); simpl; destruct (p a); simpl; lia.
Qed.

Lemma merged_filter (q : UserCartItem.t -> bool) (s s' : store) :
  userCartItems s' = filter q (userCartItems s) ->
  merged s -> merged s'.
Proof.
  intros Hrows H u r m. unfold entries. rewrite Hrows.
  pose proof (length_filter_filter (Db.same_entry u r m) q (userCartItems s)).
  specialize (H u r m). unfold entries in H. lia.
Qed.

Lemma same_entry_true (u r m : Z) (c : UserCartItem.t) :
  Db.same_entry u r m c = true ->
  UserCartItem.userId c = u /\ UserCartItem.restaurantId c = r /\ UserCartItem.menuId c = m.
Proof.
  unfold Db.same_entry. intros H.
  apply andb_prop in H. destruct H as [H Hm]. apply andb_prop in H. destruct H as [Hu Hr].
  apply Z.eqb_eq in Hu. apply Z.eqb_eq in Hr. apply Z.eqb_eq in Hm. auto.
Qed.

Lemma merged_new (u r m : Z) (c : UserCartItem.t) (s s' : store) :
  entries u r m s = [] ->
  UserCartItem.userId c = u -> UserCartItem.restaurantId c = r ->
  UserCartItem.menuId c = m ->
  userCartItems s' = userCartItems s ++ [c] ->
  merged s -> merged s'.
Proof.
  intros Hnone Hu Hr Hm Hrows H u' r' m'. unfold entries. rewrite Hrows, filter_app.
  rewrite length_app. simpl.
  destruct (Db.same_entry u' r' m' c) eqn:Hsame; simpl.
  - apply same_entry_true in Hsame. destruct Hsame as [Hu' [Hr' Hm']].
    assert (Heq : u' = u /\ r' = r /\ m' = m) by (split; [| split]; congruence).
    destruct Heq as [-> [-> ->]]. fold (entries u r m s). rewrite Hnone. simpl. lia.
  - specialize (H u' r' m'). unfold entries in H. lia.
Qed.

Lemma same_entry_set_quantity (u r m quantity updatedAt id : Z) (c : UserCartItem.t) :
  Db.same_entry u r m
    (if UserCartItem.id c =? id then Db.set_quantity quantity updatedAt c else c)
  = Db.same_entry u r m c.
Proof. destruct (UserCartItem.id c =? id); reflexivity. Qed.

(** X6: Every handler that writes the cart table keeps at most one entry per
    (user, restaurant, menu), in every environment: adding, setting a
    quantity, removing an entry, clearing the cart, and checking out. *)
Theorem cart_stays_merged (e : env) (u : Z) (s : store) :
  merged s ->
  (forall r m quantity, merged (db (snd (Cart.post_cart e u r m quantity s))))
  /\ (forall id quantity, merged (db (snd (Cart.put_cart e u id quantity s))))
  /\ (forall id, merged (db (snd (Cart.delete_cart_item e u id s))))
  /\ merged (db (snd (Cart.delete_cart e u s)))
  /\ (forall paymentMethod, merged (db (snd (Order.post_checkout e u paymentMethod s)))).
Proof.
  intros Hmerged. split; [| split; [| split; [| split]]].
  - intros r m quantity.
    destruct (post_cart_store e u r m quantity s)
      as [-> | [[Hnone [_ [c [Hu [Hr [Hm [_ ->]]]]]]] | [c0 [rest [_ ->]]]]].
    + assumption.
    + now apply (merged_new u r m c s).
    + eapply merged_map; [| reflexivity | exact Hmerged].
      intros. apply same_entry_set_quantity.
  - intros id quantity.
    unfold Cart.put_cart, Cart.put_cart_body, Cart.cartItem_json. run_M.
    destruct (fails e userCartItem_findFirst); [assumption |].
    destruct (Db.cart_item_of_user id u s); [| assumption].
    destruct (fails e userCartItem_update); [assumption |].
    unfold Db.cart_update.
    destruct (find _ (userCartItems s)); [| assumption].
    simpl.
    assert (Hnew : merged
                     (with_userCartItems s
                        (map (fun c' => if UserCartItem.id c' =? id
                                        then Db.set_quantity quantity (now e) c' else c')
                           (userCartItems s))
                        (userCartItems_id_seq s))).
    { eapply merged_map; [| reflexivity | exact Hmerged].
      intros. apply same_entry_set_quantity. }
    destruct (option_map Db.select_menu _); exact Hnew.
  - intros id.
    unfold Cart.delete_cart_item, Cart.delete_cart_item_body. run_M.
    destruct (fails e userCartItem_findFirst); [assumption |].
    destruct (Db.cart_item_of_user id u s); [| assumption].
    destruct (fails e userCartItem_delete); [assumption |].
    unfold Db.cart_delete.
    destruct (find _ (userCartItems s)); [| assumption].
    simpl. eapply merged_filter; [reflexivity | exact Hmerged].
  - unfold Cart.delete_cart, Cart.delete_cart_body. run_M.
    destruct (fails e userCartItem_deleteMany); [assumption |].
    simpl. eapply merged_filter; [reflexivity | exact Hmerged].
  - intros paymentMethod.
    pose proof (checkout_cases e u paymentMethod s) as Hcases.
    destruct (Order.post_checkout e u paymentMethod s) as [r [s' called]]. simpl in *.
    inversion Hcases; subst.
    + assumption.
    + now apply (merged_rows s).
    + eapply merged_filter; [reflexivity | exact Hmerged].
Qed.

Lemma cart_stays_merged_witness :
  merged Scenario.seeded /\ merged Scenario.cart2 /\ merged Scenario.ordered.
Proof.
  assert (H0 : merged Scenario.seeded) by (intros u r m; simpl; lia).
  assert (H1 : merged Scenario.cart1).
  { apply (proj1 (cart_stays_merged (Scenario.ok Scenario.t0) 7 Scenario.seeded H0)). }
  assert (H2 : merged Scenario.cart2).
  { apply (proj1 (cart_stays_merged (Scenario.ok (Scenario.t0 + 1)) 7 Scenario.cart1 H1)). }
  split; [exact H0 |]. split; [exact H2 |].
  apply (proj2 (proj2 (proj2 (proj2
           (cart_stays_merged (Scenario.ok (Scenario.t0 + 2)) 7 Scenario.cart2 H2))))).
Defined.

(** ** The restaurant groups of the checkout answer *)




(** ** GET /my-order *)

Lemma fold_group_keys (items : list OrderItem.t) :
  forall groups,
    enumerated (keys groups) ->
    Forall (fun kg => Order.og_restaurantId (snd kg) = fst kg) groups ->
    let groups' := fold_left Order.group_item items groups in
    enumerated (keys groups')
    /\ Forall (fun kg => Order.og_restaurantId (snd kg) = fst kg) groups'
    /\ (forall x, In x (keys groups')
                  <-> In x (keys groups) \/ In x (map OrderItem.restaurantId items)).
Proof.
  induction items as [| item items IH]; intros groups Henum Hids; simpl.
  - repeat split; try assumption; tauto.
  - assert (Hids' : Forall (fun kg => Order.og_restaurantId (snd kg) = fst kg)
                      (Order.group_item groups item)).
    { unfold Order.group_item. apply Forall_set; [assumption |]. simpl.
      destruct (JS.get groups (OrderItem.restaurantId item)) as [g |] eqn:Hget;
        [| reflexivity].
      apply get_In in Hget. rewrite Forall_forall in Hids.
      exact (Hids _ Hget). }
    destruct (IH (Order.group_item groups item)) as [He [Hi Hk]].
    + now apply enumerated_set.
    + exact Hids'.
    + split; [assumption |]. split; [assumption |].
      intros x. rewrite Hk. unfold Order.group_item. rewrite keys_set. intuition.
Qed.

(** The subtotals of the groups are exact as long as no line total is
    negative and their sum stays within the integers a double holds. *)
Lemma fold_group_item (items : list OrderItem.t) :
  forall groups,
    enumerated (keys groups) ->
    Forall (fun g => 0 <= Order.og_subtotal g
                     /\ Order.og_subtotal g
                        = sumZ (map Order.lv_itemTotal (Order.og_items g)))
      (JS.values groups) ->
    Forall (fun item => 0 <= OrderItem.itemTotal item) items ->
    sumZ (map Order.og_subtotal (JS.values groups))
    + sumZ (map OrderItem.itemTotal items) <= JS.MAX_SAFE_INTEGER ->
    let groups' := fold_left Order.group_item items groups in
    Forall (fun g => 0 <= Order.og_subtotal g
                     /\ Order.og_subtotal g
                        = sumZ (map Order.lv_itemTotal (Order.og_items g)))
      (JS.values groups')
    /\ sumZ (map Order.og_subtotal (JS.values groups'))
       = sumZ (map Order.og_subtotal (JS.values groups))
         + sumZ (map OrderItem.itemTotal items).
Proof.
  induction items as [| item items IH]; intros groups Henum Hgroups Hitems Hsafe; simpl.
  - split; [assumption | ring].
  - inversion Hitems as [| ? ? Hitem Hrest]; subst.
    simpl map in Hsafe. simpl sumZ in Hsafe.
    assert (Hrest0 : 0 <= sumZ (map OrderItem.itemTotal items)).
    { apply sumZ_nonneg. rewrite Forall_map. exact Hrest. }
    assert (Hsubs : Forall (fun g => 0 <= Order.og_subtotal g) (JS.values groups)).
    { eapply Forall_impl; [| exact Hgroups]. simpl. tauto. }
    assert (Hsubs0 : 0 <= sumZ (map Order.og_subtotal (JS.values groups))).
    { apply sumZ_nonneg. rewrite Forall_map. exact Hsubs. }
    set (group := match JS.get groups (OrderItem.restaurantId item) with
                  | Some g => g
                  | None => Order.mkOrderGroup (OrderItem.restaurantId item)
                              (OrderItem.restaurantName item) [] 0
                  end).
    assert (Hgroup : 0 <= Order.og_subtotal group
                     /\ Order.og_subtotal group
                        = sumZ (map Order.lv_itemTotal (Order.og_items group))
                     /\ Order.og_subtotal group
                        = match JS.get groups (OrderItem.restaurantId item) with
                          | Some g => Order.og_subtotal g
                          | None => 0
                          end
                     /\ Order.og_subtotal group
                        <= sumZ (map Order.og_subtotal (JS.values groups))).
    { unfold group.
      destruct (JS.get groups (OrderItem.restaurantId item)) as [g |] eqn:Hg; simpl.
      - apply get_In_values in Hg.
        rewrite Forall_forall in Hgroups. destruct (Hgroups g Hg) as [H0 Hsum].
        repeat split; try assumption.
        now apply (sumZ_member_le Order.og_subtotal).
      - repeat split; lia. }
    destruct Hgroup as [Hg0 [Hgsum [Hgget Hgle]]].
    assert (Hstep : Order.group_item groups item
                    = JS.set groups (OrderItem.restaurantId item)
                        (Order.mkOrderGroup (Order.og_restaurantId group)
                           (Order.og_restaurantName group)
                           (Order.og_items group
                            ++ [Order.mkLineView (OrderItem.menuId item)
                                  (OrderItem.menuName item) (OrderItem.price item)
                                  (OrderItem.quantity item) (OrderItem.itemTotal item)])
                           (Order.og_subtotal group + OrderItem.itemTotal item))).
    { unfold Order.group_item. fold group.
      rewrite add_safe by (unfold safe; lia). reflexivity. }
    assert (Hmeasure : sumZ (map Order.og_subtotal
                               (JS.values (Order.group_item groups item)))
                       = sumZ (map Order.og_subtotal (JS.values groups))
                         + OrderItem.itemTotal item).
    { rewrite Hstep, measure_set by assumption. simpl. rewrite <- Hgget. ring. }
    destruct (IH (Order.group_item groups item)) as [Hg Hs].
    + rewrite Hstep. now apply enumerated_set.
    + rewrite Hstep. apply Forall_values_set; [assumption |]. simpl.
      split; [lia |]. rewrite map_app, sumZ_app. simpl. lia.
    + exact Hrest.
    + rewrite Hmeasure. lia.
    + split; [assumption |]. rewrite Hs, Hmeasure. ring.
Qed.

Lemma values_ids (groups : JS.object Order.orderGroup) :
  Forall (fun kg => Order.og_restaurantId (snd kg) = fst kg) groups ->
  map Order.og_restaurantId (JS.values groups) = keys groups.
Proof.
  unfold JS.values, keys.
  induction 1 as [| [k g] groups Hk _ IH]; simpl; [reflexivity |].
  simpl in Hk. now rewrite Hk, IH.
Qed.

Lemma is_index_spec (k : Z) : JS.is_index k = true <-> 0 <= k <= 4294967294.
Proof.
  unfold JS.is_index. rewrite andb_true_iff, !Z.leb_le. tauto.
Qed.

(** X8: The restaurant groups GET /my-order builds for an order.  There is
    one group per distinct restaurant of the order, and the groups come in
    the order in which [Object.values] enumerates the keys: no restaurant
    twice and none behind one that it precedes; by ascending restaurant id
    when the ids of the lines are array indices (0 to 2^32 - 2), as the ids
    of a SERIAL column are.  The subtotals are sums of doubles; when no
    line total is negative and their sum does not exceed
    [Number.MAX_SAFE_INTEGER], the subtotals add up to the sum of the
    order's line totals, each subtotal is the sum of its lines and, if the
    stored subtotal of the order is the sum of its line totals, as checkout
    writes it, the groups add up to the subtotal of the pricing shown. *)
Theorem format_order_groups (order : Transaction.t) :
  Z.of_nat (List.length (Order.fo_restaurants (Order.format_order order)))
  = distinct (map OrderItem.restaurantId (Transaction.items order))
  /\ enumerated (map Order.og_restaurantId (Order.fo_restaurants (Order.format_order order)))
  /\ (Forall (fun item => 0 <= OrderItem.restaurantId item <= 4294967294)
        (Transaction.items order) ->
      ascending
        (map Order.og_restaurantId (Order.fo_restaurants (Order.format_order order))))
  /\ (Forall (fun item => 0 <= OrderItem.itemTotal item) (Transaction.items order) ->
      sumZ (map OrderItem.itemTotal (Transaction.items order)) <= JS.MAX_SAFE_INTEGER ->
      sumZ (map Order.og_subtotal (Order.fo_restaurants (Order.format_order order)))
      = sumZ (map OrderItem.itemTotal (Transaction.items order))
      /\ Forall (fun g => Order.og_subtotal g
                          = sumZ (map Order.lv_itemTotal (Order.og_items g)))
           (Order.fo_restaurants (Order.format_order order))
      /\ (Transaction.price order
          = sumZ (map OrderItem.itemTotal (Transaction.items order)) ->
          sumZ (map Order.og_subtotal (Order.fo_restaurants (Order.format_order order)))
          = Order.p_subtotal (Order.fo_pricing (Order.format_order order)))).
Proof.
  unfold Order.format_order. simpl.
  destruct (fold_group_keys (Transaction.items order) [] I (Forall_nil _))
    as [Henum [Hids Hkeys]].
  simpl in Hkeys.
  split; [| split; [| split]].
  - apply distinct_keys; [assumption |]. intros x. rewrite Hkeys. tauto.
  - now rewrite values_ids.
  - intros Hindices. rewrite values_ids by assumption.
    apply enumerated_indices; [assumption |].
    apply Forall_forall. intros x Hx. apply is_index_spec.
    apply Hkeys in Hx. destruct Hx as [[] | Hx].
    apply in_map_iff in Hx. destruct Hx as [item [<- Hitem]].
    rewrite Forall_forall in Hindices. exact (Hindices item Hitem).
  - intros Hitems Hsafe.
    destruct (fold_group_item (Transaction.items order) [] I (Forall_nil _) Hitems Hsafe)
      as [Hgroups Hsum].
    simpl in Hsum.
    split; [exact Hsum |]. split.
    + eapply Forall_impl; [| exact Hgroups]. simpl. tauto.
    + intros Hprice. rewrite Hsum. symmetry. exact Hprice.
Qed.

Lemma format_order_groups_witness :
  map (fun t => Transaction.price t
                =? sumZ (map OrderItem.itemTotal (Transaction.items t)))
    (transactions Scenario.ordered) = [true]
  /\ map (fun t => map Order.og_subtotal (Order.fo_restaurants (Order.format_order t)))
       (transactions Scenario.ordered) = [[100000; 15000]]
  /\ Forall (fun t => sumZ (map Order.og_subtotal
                              (Order.fo_restaurants (Order.format_order t)))
                      = Order.p_subtotal (Order.fo_pricing (Order.format_order t)))
       (transactions Scenario.ordered)
  /\ Forall (fun t => ascending
                        (map Order.og_restaurantId
                           (Order.fo_restaurants (Order.format_order t))))
       (transactions Scenario.ordered)
  /\ map Order.og_restaurantId
       (Order.fo_restaurants (Order.format_order Scenario.negative_id_order)) = [2; -1].
Proof.
  split; [reflexivity |]. split; [reflexivity |]. split; [| split; [| reflexivity]].
  - apply Forall_forall. intros t Ht. destruct Ht as [<- | []].
    refine (proj2 (proj2 (proj2 (proj2 (proj2 (format_order_groups _))) _ _)) _).
    + repeat constructor; vm_compute; discriminate.
    + vm_compute. discriminate.
    + reflexivity.
  - apply Forall_forall. intros t Ht. destruct Ht as [<- | []].
    apply (proj1 (proj2 (proj2 (format_order_groups _)))).
    repeat constructor; vm_compute; discriminate.
Defined.

Lemma insert_desc_perm (t : Transaction.t) (l : list Transaction.t) :
  Permutation (Db.insert_desc t l) (t :: l).
Proof.
  induction l as [| t' l IH]; simpl; [reflexivity |].
  destruct (Transaction.createdAt t' <=? Transaction.createdAt t); [reflexivity |].
  rewrite IH. apply perm_swap.
Qed.

Lemma order_by_createdAt_desc_perm (l : list Transaction.t) :
  Permutation (Db.order_by_createdAt_desc l) l.
Proof.
  induction l as [| t l IH]; simpl; [reflexivity |].
  rewrite insert_desc_perm. now constructor.
Qed.

Lemma insert_desc_descending (t : Transaction.t) (l : list Transaction.t) :
  descending (map Transaction.createdAt l) ->
  descending (map Transaction.createdAt (Db.insert_desc t l)).
Proof.
  induction l as [| t' l IH]; simpl; intros Hdesc.
  - split; [intros y [] | exact I].
  - destruct Hdesc as [Hle Hdesc].
    destruct (Transaction.createdAt t' <=? Transaction.createdAt t) eqn:E; simpl.
    + apply Z.leb_le in E. split; [| split; assumption].
      intros y [<- | Hy]; [assumption |]. specialize (Hle y Hy). lia.
    + apply Z.leb_gt in E. split; [| auto].
      intros y Hy.
      assert (Hin : In y (map Transaction.createdAt (t :: l))).
      { eapply Permutation_in; [apply Permutation_map, insert_desc_perm | exact Hy]. }
      destruct Hin as [<- | Hin]; [lia | auto].
Qed.

Lemma order_by_createdAt_desc_descending (l : list Transaction.t) :
  descending (map Transaction.createdAt (Db.order_by_createdAt_desc l)).
Proof.
  induction l as [| t l IH]; simpl; [exact I |].
  now apply insert_desc_descending.
Qed.

Lemma descending_skipn (n : nat) (l : list Z) : descending l -> descending (skipn n l).
Proof.
  revert l. induction n as [| n IH]; intros [| x l]; simpl; auto.
  intros [_ H]. auto.
Qed.

Lemma descending_firstn (n : nat) (l : list Z) : descending l -> descending (firstn n l).
Proof.
  revert l. induction n as [| n IH]; intros [| x l]; simpl; auto.
  intros [Hle H]. split; [| auto].
  intros y Hy. apply Hle. revert Hy. clear. revert l.
  induction n as [| n IHn]; intros [| z l]; simpl; try tauto.
  intros [-> | Hy]; [now left | right; auto].
Qed.

Lemma In_firstn_skipn {A} (n m : nat) (l : list A) (a : A) :
  In a (firstn n (skipn m l)) -> In a l.
Proof.
  intros H. rewrite <- (firstn_skipn m l). apply in_or_app. right.
  rewrite <- (firstn_skipn n (skipn m l)). apply in_or_app. now left.
Qed.

Lemma firstn_then (a b : nat) {A} (l : list A) :
  firstn a l ++ firstn b (skipn a l) = firstn (a + b) l.
Proof.
  revert l. induction a as [| a IH]; intros [| x l]; simpl; try reflexivity.
  - now rewrite firstn_nil.
  - now rewrite IH.
Qed.

(** X9: GET /my-order never writes.  The orders it shows are orders of the
    caller, with the status asked for when one is given, at most [limit] of
    them, from the newest to the oldest; [total] counts all the caller's
    orders that match, whatever the page. *)
Theorem get_my_order_page (e : env) (u : Z) (status : option string)
  (page limit : option Z) (s : store) :
  db (snd (Order.get_my_order e u status page limit s)) = s
  /\ forall d,
       Response.data (fst (Order.get_my_order e u status page limit s)) = Some d ->
       exists rows,
         Order.mo_orders d = map Order.format_order rows
         /\ Forall (fun t => In t (transactions s)
                             /\ Transaction.userId t = u
                             /\ forall st, status = Some st -> st <> "" ->
                                           Transaction.status t = st) rows
         /\ (List.length rows
             <= Z.to_nat (match limit with Some l => l | None => 10 end))%nat
         /\ descending (map Transaction.createdAt rows)
         /\ Order.pg_total (Order.mo_pagination d)
            = Z.of_nat (List.length
                          (Db.orders_where u
                             (match status with Some "" => None | st => st end) s)).
Proof.
  unfold Order.get_my_order, Order.get_my_order_body. run_M.
  destruct (fails e transaction_count); [split; [reflexivity | discriminate] |].
  destruct (fails e transaction_findMany); [split; [reflexivity | discriminate] |].
  simpl. split; [reflexivity |].
  intros d [= <-]. eexists. split; [reflexivity |]. simpl.
  split; [| split; [| split; [| reflexivity]]].
  - apply Forall_forall. intros t Ht. unfold Db.orders_page in Ht.
    apply In_firstn_skipn in Ht.
    eapply Permutation_in in Ht; [| apply order_by_createdAt_desc_perm].
    unfold Db.orders_where in Ht. apply filter_In in Ht. destruct Ht as [Hin Hmatch].
    unfold Db.order_matches in Hmatch. apply andb_prop in Hmatch.
    destruct Hmatch as [Hu Hst]. apply Z.eqb_eq in Hu.
    split; [assumption |]. split; [assumption |].
    intros st -> Hne. destruct st as [| a st]; [congruence |].
    now apply String.eqb_eq in Hst.
  - unfold Db.orders_page. apply firstn_le_length.
  - unfold Db.orders_page. rewrite <- firstn_map, <- skipn_map.
    apply descending_firstn, descending_skipn, order_by_createdAt_desc_descending.
Qed.

Lemma get_my_order_page_witness :
  Response.data
    (fst (Order.get_my_order (Scenario.ok (Scenario.t0 + 3)) 7 (Some "preparing") None None
            Scenario.ordered)) <> None
  /\ map Order.fo_transactionId
       (my_orders_on (Scenario.ok (Scenario.t0 + 3)) 7 (Some "preparing") 1 10
          Scenario.ordered) = ["TXN17566500000027"]
  /\ db (snd (Order.get_my_order (Scenario.ok (Scenario.t0 + 3)) 7 (Some "done") None None
                Scenario.ordered)) = Scenario.ordered.
Proof.
  split; [discriminate |]. split; [reflexivity |].
  apply (proj1 (get_my_order_page (Scenario.ok (Scenario.t0 + 3)) 7 (Some "done") None None
                  Scenario.ordered)).
Defined.

(** X10: Reading the pages 1 to [n] of GET /my-order one after the other gives
    the first [n * limit] matching orders, newest first: no order is shown
    twice and none is skipped. *)
Theorem my_order_pages (e : env) (u : Z) (status : option string) (limit : Z)
  (n : nat) (s : store) :
  reliable e ->
  0 <= limit ->
  List.concat (map (fun page => my_orders_on e u status (Z.of_nat page) limit s) (seq 1 n))
  = map Order.format_order
      (firstn (n * Z.to_nat limit)
         (Db.order_by_createdAt_desc
            (Db.orders_where u (match status with Some "" => None | st => st end) s))).
Proof.
  intros Hrel Hlimit.
  assert (Hpage : forall page,
             (1 <= page)%nat ->
             my_orders_on e u status (Z.of_nat page) limit s
             = map Order.format_order
                 (firstn (Z.to_nat limit)
                    (skipn ((page - 1) * Z.to_nat limit)
                       (Db.order_by_createdAt_desc
                          (Db.orders_where u
                             (match status with Some "" => None | st => st end) s))))).
  { intros page Hpage.
    unfold my_orders_on, Order.get_my_order, Order.get_my_order_body. run_M.
    rewrite !Hrel. simpl. unfold Db.orders_page. do 3 f_equal. nia. }
  induction n as [| n IH]; [reflexivity |].
  rewrite seq_S, map_app, concat_app, IH. cbn [map List.concat]. rewrite app_nil_r.
  rewrite (Hpage (1 + n)%nat) by lia. rewrite <- map_app. f_equal.
  replace (1 + n - 1)%nat with n by lia.
  rewrite firstn_then. f_equal. lia.
Qed.

Lemma my_order_pages_witness :
  reliable (Scenario.ok (Scenario.t0 + 3))
  /\ 0 <= 1
  /\ map Order.fo_transactionId
       (List.concat (map (fun page => my_orders_on (Scenario.ok (Scenario.t0 + 3)) 7 None
                                   (Z.of_nat page) 1 Scenario.ordered)
                  (seq 1 3)))
     = ["TXN17566500000027"].
Proof.
  split; [intros o; reflexivity |]. split; [lia |].
  rewrite (my_order_pages (Scenario.ok (Scenario.t0 + 3)) 7 None 1 3 Scenario.ordered).
  - reflexivity.
  - intros o. reflexivity.
  - lia.
Defined.

(** ** What the order handlers leave alone *)

Lemma map_frozen_set_status (id updatedAt : Z) (status : string) (l : list Transaction.t) :
  map frozen_part
    (map (fun t => if Transaction.id t =? id then Db.set_status status updatedAt t else t) l)
  = map frozen_part l.
Proof.
  rewrite map_map. apply map_ext. intros t.
  destruct (Transaction.id t =? id); reflexivity.
Qed.

(** X11: PUT /:id/status changes nothing of an order but its status and update
    timestamp, in every environment and for every input: identifier, owner,
    payment method, prices, fees, line items and creation time of every
    order are as before, orders with another id are untouched, and so are
    the carts, the catalogue and the reviews. *)
Theorem put_status_frame (e : env) (u id : Z) (status : option string) (s : store) :
  map frozen_part (transactions (db (snd (Order.put_status e u id status s))))
  = map frozen_part (transactions s)
  /\ (forall t, Transaction.id t <> id ->
                (In t (transactions (db (snd (Order.put_status e u id status s))))
                 <-> In t (transactions s)))
  /\ userCartItems (db (snd (Order.put_status e u id status s))) = userCartItems s
  /\ restaurants (db (snd (Order.put_status e u id status s))) = restaurants s
  /\ restoMenus (db (snd (Order.put_status e u id status s))) = restoMenus s
  /\ restoReviews (db (snd (Order.put_status e u id status s))) = restoReviews s.
Proof.
  assert (Hsame : forall s' : store, s' = s ->
            map frozen_part (transactions s') = map frozen_part (transactions s)
            /\ (forall t, Transaction.id t <> id ->
                          (In t (transactions s') <-> In t (transactions s)))
            /\ userCartItems s' = userCartItems s
            /\ restaurants s' = restaurants s
            /\ restoMenus s' = restoMenus s
            /\ restoReviews s' = restoReviews s).
  { intros s' ->. repeat split; auto. }
  unfold Order.put_status, Order.put_status_body.
  destruct (Order.includes Order.validStatuses status); simpl; [| now apply Hsame].
  run_M.
  destruct (fails e transaction_findFirst); [now apply Hsame |].
  destruct (Db.order_of_user id u s) as [order |]; [| now apply Hsame].
  destruct (fails e transaction_update); [now apply Hsame |].
  unfold Db.transaction_set_status.
  destruct (find _ (transactions s)) as [found |]; [| now apply Hsame].
  simpl. split; [apply map_frozen_set_status |].
  split; [| repeat split].
  intros t Ht. rewrite in_map_iff. split.
  - intros [x [Hx Hin]]. destruct (Transaction.id x =? id) eqn:E.
    + subst t. apply Z.eqb_eq in E. now elim Ht.
    + now subst.
  - intros Hin. exists t. split; [| assumption].
    apply Z.eqb_neq in Ht. now rewrite Ht.
Qed.

(** X12: Checkout writes only the caller's cart and one new order: the
    catalogue and the reviews are as before, the carts of all other users
    are as before, and the orders already stored stay as they are, at the
    front of the table; a new order starts as "preparing". *)
Theorem checkout_frame (e : env) (u : Z) (paymentMethod : string) (s : store) :
  restaurants (db (snd (Order.post_checkout e u paymentMethod s))) = restaurants s
  /\ restoMenus (db (snd (Order.post_checkout e u paymentMethod s))) = restoMenus s
  /\ restoReviews (db (snd (Order.post_checkout e u paymentMethod s))) = restoReviews s
  /\ (forall v, v <> u ->
                Db.cart_of_user v (db (snd (Order.post_checkout e u paymentMethod s)))
                = Db.cart_of_user v s)
  /\ (transactions (db (snd (Order.post_checkout e u paymentMethod s))) = transactions s
      \/ exists t,
           transactions (db (snd (Order.post_checkout e u paymentMethod s)))
           = transactions s ++ [t]
           /\ Transaction.status t = "preparing"
           /\ Transaction.userId t = u
           /\ Transaction.id t = transactions_id_seq s).
Proof.
  pose proof (checkout_cases e u paymentMethod s) as Hcases.
  destruct (Order.post_checkout e u paymentMethod s) as [r [s' called]]. simpl in *.
  inversion Hcases as [r' Hcode | t [lines [_ Ht]] _ _ _ Hr
                       | t r' [lines [_ Ht]] _ _ _ _ _]; subst; simpl.
  - repeat split; auto.
  - repeat split; auto. right. eexists. repeat split.
  - split; [reflexivity |]. split; [reflexivity |]. split; [reflexivity |]. split.
    + intros v Hv. unfold Db.cart_of_user. simpl.
      apply filter_filter_other. intros c Hc. apply Z.eqb_eq in Hc.
      apply Z.eqb_neq. congruence.
    + right. eexists. repeat split.
Qed.

Lemma put_status_frame_witness :
  map frozen_part
    (transactions (db (snd (Order.put_status (Scenario.ok (Scenario.t0 + 9)) 7 1
                              (Some "done") Scenario.ordered))))
  = map frozen_part (transactions Scenario.ordered)
  /\ map Transaction.status
       (transactions (db (snd (Order.put_status (Scenario.ok (Scenario.t0 + 9)) 7 1
                                 (Some "done") Scenario.ordered)))) = ["done"].
Proof.
  split; [| reflexivity].
  apply (proj1 (put_status_frame (Scenario.ok (Scenario.t0 + 9)) 7 1 (Some "done")
                  Scenario.ordered)).
Defined.

Lemma checkout_frame_witness :
  8 <> 7
  /\ Db.cart_of_user 8 (db (snd (Order.post_checkout (Scenario.ok (Scenario.t0 + 2)) 7 "BRI"
                                   Scenario.shared)))
     = Db.cart_of_user 8 Scenario.shared
  /\ List.length (Db.cart_of_user 8 Scenario.shared) = 1%nat.
Proof.
  split; [discriminate |]. split; [| reflexivity].
  apply (proj1 (proj2 (proj2 (proj2
           (checkout_frame (Scenario.ok (Scenario.t0 + 2)) 7 "BRI" Scenario.shared))))).
  discriminate.
Defined.

(** ** Review mutations and the rating *)

(** The recomputation does not depend on the calls made before it. *)
Lemma updateRestaurantRating_world (e : env) (restaurantId : Z) (s : store)
  (called : list op) :
  exists called',
    Review.updateRestaurantRating e restaurantId (mkWorld s called)
    = Return tt (mkWorld (exec (Review.updateRestaurantRating e restaurantId) s) called').
Proof.
  unfold exec, Review.updateRestaurantRating. run_M.
  destruct (fails e restoReview_findMany); [eexists; reflexivity |].
  destruct (0 <? _); [| eexists; reflexivity].
  destruct (fails e restaurant_update); [eexists; reflexivity |].
  destruct (Db.restaurant_set_star _ _ _) as [[[] s'] |]; eexists; reflexivity.
Qed.

Lemma exec_rating_reviews (e : env) (restaurantId : Z) (s : store) :
  restoReviews (exec (Review.updateRestaurantRating e restaurantId) s) = restoReviews s.
Proof.
  unfold exec.
  destruct (updateRestaurantRating_returns e restaurantId (mkWorld s []))
    as [w' [-> [H _]]]. exact H.
Qed.

(** The rating of [restaurantId] is the rounded mean of the stars stored
    for it. *)
Lemma rating_fresh_after (e : env) (restaurantId : Z) (s : store) :
  fails e restoReview_findMany = false ->
  fails e restaurant_update = false ->
  Db.restaurant_by_id restaurantId s <> None ->
  Db.stars_of_restaurant restaurantId s <> [] ->
  fresh_rating restaurantId (exec (Review.updateRestaurantRating e restaurantId) s).
Proof.
  intros Hread Hwrite Hexists Hsome.
  destruct (Db.restaurant_by_id restaurantId s) as [r0 |] eqn:Hr0; [| congruence].
  unfold fresh_rating.
  rewrite (updateRestaurantRating_value e restaurantId s r0) by assumption.
  unfold Db.stars_of_restaurant, Db.reviews_of_restaurant.
  now rewrite exec_rating_reviews.
Qed.

Lemma review_of_pair_spec (u restaurantId : Z) (s : store) :
  Db.review_of_pair u restaurantId s = None ->
  forall r, In r (restoReviews s) -> RestoReview.userId r = u ->
            RestoReview.restaurantId r <> restaurantId.
Proof.
  unfold Db.review_of_pair. intros Hnone r Hin Hu Hr.
  apply (find_none _ _ Hnone) in Hin. rewrite Hu, Hr, !Z.eqb_refl in Hin. discriminate.
Qed.

(** X13: After a review is created (201, no store call failing) the stars
    stored for the restaurant are the former ones followed by the new one,
    and the restaurant's rating is the rounded mean of the stars now
    stored.  An empty comment is stored as no comment. *)
Theorem post_review_rating (e : env) (u : Z) (transactionId : string)
  (restaurantId star : Z) (comment : option string) (s : store) :
  reliable e ->
  Response.statusCode
    (fst (Review.post_review e u transactionId restaurantId star comment s)) = 201 ->
  Db.stars_of_restaurant restaurantId
    (db (snd (Review.post_review e u transactionId restaurantId star comment s)))
  = Db.stars_of_restaurant restaurantId s ++ [star]
  /\ fresh_rating restaurantId
       (db (snd (Review.post_review e u transactionId restaurantId star comment s)))
  /\ exists row,
       restoReviews
         (db (snd (Review.post_review e u transactionId restaurantId star comment s)))
       = restoReviews s ++ [row]
       /\ RestoReview.comment row
          = match comment with Some "" => None | c => c end.
Proof.
  intros Hrel.
  unfold Review.post_review, Review.post_review_body.
  cbv beta iota zeta delta [route bind ret throw deref prisma reading db calls].
  rewrite !Hrel.
  destruct (Db.order_by_transactionId transactionId u s); [| simpl; discriminate].
  destruct (Db.restaurant_by_id restaurantId s) as [r0 |] eqn:Hr0; [| simpl; discriminate].
  destruct (existsb _ _); [| simpl; discriminate].
  change (negb true) with false. cbv beta iota.
  destruct (Db.review_of_pair u restaurantId s); [simpl; discriminate |].
  unfold Db.review_insert.
  match goal with
  | |- context [Review.updateRestaurantRating e restaurantId (mkWorld ?s1 ?c)] =>
      destruct (updateRestaurantRating_world e restaurantId s1 c) as [c' ->];
      pose proof (rating_fresh_after e restaurantId s1 (Hrel _) (Hrel _)) as Hfresh;
      pose proof (exec_rating_reviews e restaurantId s1) as Hrows
  end.
  simpl in *. intros _.
  assert (Hstars : forall s' row,
            restoReviews s' = restoReviews s ++ [row] ->
            RestoReview.restaurantId row = restaurantId ->
            RestoReview.star row = star ->
            Db.stars_of_restaurant restaurantId s'
            = Db.stars_of_restaurant restaurantId s ++ [star]).
  { intros s' row Hs' Hrid Hstar. unfold Db.stars_of_restaurant, Db.reviews_of_restaurant.
    rewrite Hs', filter_app, map_app. simpl. rewrite Hrid, Z.eqb_refl. simpl.
    now rewrite Hstar. }
  split; [exact (Hstars _ _ Hrows eq_refl eq_refl) |]. split.
  - apply Hfresh.
    + unfold Db.restaurant_by_id in *. simpl. rewrite Hr0. discriminate.
    + unfold Db.stars_of_restaurant, Db.reviews_of_restaurant. simpl.
      rewrite filter_app, map_app. simpl. rewrite Z.eqb_refl.
      intros H. now apply app_eq_nil in H.
  - eexists. split; [exact Hrows | reflexivity].
Qed.

Lemma post_review_rating_witness :
  reliable (Scenario.ok (Scenario.t0 + 3))
  /\ Response.statusCode
       (fst (Review.post_review (Scenario.ok (Scenario.t0 + 3)) 7 "TXN17566500000027" 1 5
               (Some "") Scenario.ordered)) = 201
  /\ rating 1 Scenario.ordered = Some (9 # 2)
  /\ rating 1 Scenario.rated = Some (5 # 1)
  /\ map RestoReview.comment (restoReviews Scenario.rated) = [None].
Proof.
  assert (Hrel : reliable (Scenario.ok (Scenario.t0 + 3))) by (intros o; reflexivity).
  split; [exact Hrel |]. split; [reflexivity |]. split; [reflexivity |].
  destruct (post_review_rating (Scenario.ok (Scenario.t0 + 3)) 7 "TXN17566500000027" 1 5
              (Some "") Scenario.ordered Hrel eq_refl) as [Hstars [Hfresh [row [Hrows Hc]]]].
  fold Scenario.rated in Hstars, Hfresh, Hrows. split.
  - unfold fresh_rating in Hfresh. rewrite Hfresh, Hstars. reflexivity.
  - rewrite Hrows. simpl. now rewrite Hc.
Defined.

Lemma review_of_user_spec (id u : Z) (s : store) (r : RestoReview.t) :
  Db.review_of_user id u s = Some r ->
  In r (restoReviews s) /\ RestoReview.id r = id /\ RestoReview.userId r = u.
Proof.
  unfold Db.review_of_user. intros H. apply find_some in H.
  destruct H as [Hin H]. apply andb_prop in H. destruct H as [H1 H2].
  apply Z.eqb_eq in H1. apply Z.eqb_eq in H2. auto.
Qed.

Lemma review_by_id_present (id : Z) (l : list RestoReview.t) (r : RestoReview.t) :
  In r l -> RestoReview.id r = id ->
  find (fun r' => RestoReview.id r' =? id) l <> None.
Proof.
  intros Hin Hid Hnone. apply (find_none _ _ Hnone) in Hin.
  rewrite Hid, Z.eqb_refl in Hin. discriminate.
Qed.

(** X14: After a review's star is changed to a value from 1 to 5 by its author
    (no store call failing, the restaurant present), the review holds the
    new star, its comment is the one sent or else the former one, and the
    restaurant's rating is the rounded mean of the stars now stored. *)
Theorem put_review_rating (e : env) (u id v : Z) (comment : option (option string))
  (s : store) (review : RestoReview.t) :
  reliable e ->
  Db.review_of_user id u s = Some review ->
  1 <= v <= 5 ->
  Db.restaurant_by_id (RestoReview.restaurantId review) s <> None ->
  Response.statusCode (fst (Review.put_review e u id (Some v) comment s)) = 200
  /\ (exists review',
        Db.review_of_user id u (db (snd (Review.put_review e u id (Some v) comment s)))
        = Some review'
        /\ RestoReview.star review' = v
        /\ RestoReview.comment review'
           = match comment with Some c => c | None => RestoReview.comment review end
        /\ RestoReview.restaurantId review' = RestoReview.restaurantId review)
  /\ fresh_rating (RestoReview.restaurantId review)
       (db (snd (Review.put_review e u id (Some v) comment s))).
Proof.
  intros Hrel Hreview Hv Hresto.
  destruct (review_of_user_spec _ _ _ _ Hreview) as [Hin [Hid Hu]].
  unfold Review.put_review, Review.put_review_body. simpl JS.truthy.
  replace (negb (v =? 0)) with true by (symmetry; apply negb_true_iff, Z.eqb_neq; lia).
  replace ((v <? 1) || (5 <? v)) with false
    by (symmetry; apply orb_false_iff; split; apply Z.ltb_ge; lia).
  cbv beta iota zeta delta [route bind ret throw deref prisma reading db calls andb].
  rewrite !Hrel, Hreview.
  unfold Db.review_update.
  destruct (find (fun r => RestoReview.id r =? id) (restoReviews s)) as [r1 |] eqn:H1;
    [| now elim (review_by_id_present id _ review Hin Hid)].
  match goal with
  | |- context [Review.updateRestaurantRating e ?rid (mkWorld ?s1 ?c)] =>
      destruct (updateRestaurantRating_world e rid s1 c) as [c' ->];
      pose proof (rating_fresh_after e rid s1 (Hrel _) (Hrel _)) as Hfresh;
      pose proof (exec_rating_reviews e rid s1) as Hrows
  end.
  simpl in *. split; [reflexivity |]. split.
  - unfold Db.review_of_user. rewrite Hrows.
    rewrite (find_map_by_id RestoReview.id (Db.review_patch (Some v) comment (now e)))
      by reflexivity.
    fold (Db.review_of_user id u s). rewrite Hreview. simpl.
    rewrite Hid, Z.eqb_refl. eexists. split; [reflexivity |]. repeat split.
  - apply Hfresh; [assumption |].
    unfold Db.stars_of_restaurant, Db.reviews_of_restaurant. simpl.
    intros Hnil. apply map_eq_nil in Hnil.
    assert (Hin' : In (Db.review_patch (Some v) comment (now e) review)
                     (filter (fun r => RestoReview.restaurantId r
                                       =? RestoReview.restaurantId review)
                        (map (fun r' => if RestoReview.id r' =? id
                                        then Db.review_patch (Some v) comment (now e) r'
                                        else r')
                           (restoReviews s)))).
    { apply filter_In. split; [| simpl; apply Z.eqb_refl].
      apply in_map_iff. exists review. rewrite Hid, Z.eqb_refl. auto. }
    rewrite Hnil in Hin'. contradiction.
Qed.

Lemma put_review_rating_witness :
  reliable (Scenario.ok (Scenario.t0 + 3))
  /\ option_map RestoReview.star (Db.review_of_user 3 9 Scenario.reviewed) = Some 3
  /\ 1 <= 5 <= 5
  /\ fresh_rating 1
       (db (snd (Review.put_review (Scenario.ok (Scenario.t0 + 3)) 9 3 (Some 5) None
                   Scenario.reviewed)))
  /\ Db.stars_of_restaurant 1
       (db (snd (Review.put_review (Scenario.ok (Scenario.t0 + 3)) 9 3 (Some 5) None
                   Scenario.reviewed))) = [5; 4; 5].
Proof.
  assert (Hrel : reliable (Scenario.ok (Scenario.t0 + 3))) by (intros o; reflexivity).
  split; [exact Hrel |]. split; [reflexivity |]. split; [lia |]. split; [| reflexivity].
  destruct (Db.review_of_user 3 9 Scenario.reviewed) as [review |] eqn:Hreview;
    [| vm_compute in Hreview; discriminate].
  assert (Hrid : RestoReview.restaurantId review = 1).
  { vm_compute in Hreview. injection Hreview as <-. reflexivity. }
  rewrite <- Hrid at 1.
  apply (put_review_rating (Scenario.ok (Scenario.t0 + 3)) 9 3 5 None Scenario.reviewed
           review Hrel Hreview); [lia |].
  rewrite Hrid. discriminate.
Defined.

(** ** DELETE /review/:id *)

(** X15: After a review is deleted by its author (no store call failing) no
    review with that id is left and reviews with another id are untouched.
    If the restaurant still has reviews its rating is the rounded mean of
    the stars left; if that was its last review the rating is not touched,
    so it still shows the value computed while the review existed. *)
Theorem delete_review_rating (e : env) (u id : Z) (s : store) (review : RestoReview.t) :
  reliable e ->
  Db.review_of_user id u s = Some review ->
  fst (Review.delete_review e u id s)
  = successResponse None "Review deleted successfully" 200
  /\ (forall r, In r (restoReviews (db (snd (Review.delete_review e u id s))))
                <-> In r (restoReviews s) /\ RestoReview.id r <> id)
  /\ (Db.stars_of_restaurant (RestoReview.restaurantId review)
        (db (snd (Review.delete_review e u id s))) <> [] ->
      Db.restaurant_by_id (RestoReview.restaurantId review) s <> None ->
      fresh_rating (RestoReview.restaurantId review)
        (db (snd (Review.delete_review e u id s))))
  /\ (Db.stars_of_restaurant (RestoReview.restaurantId review)
        (db (snd (Review.delete_review e u id s))) = [] ->
      restaurants (db (snd (Review.delete_review e u id s))) = restaurants s).
Proof.
  intros Hrel Hreview.
  destruct (review_of_user_spec _ _ _ _ Hreview) as [Hin [Hid Hu]].
  unfold Review.delete_review, Review.delete_review_body.
  cbv beta iota zeta delta [route bind ret throw deref prisma reading db calls].
  rewrite !Hrel, Hreview.
  unfold Db.review_delete.
  destruct (find (fun r => RestoReview.id r =? id) (restoReviews s)) as [r1 |] eqn:H1;
    [| now elim (review_by_id_present id _ review Hin Hid)].
  match goal with
  | |- context [Review.updateRestaurantRating e ?rid (mkWorld ?s1 ?c)] =>
      destruct (updateRestaurantRating_world e rid s1 c) as [c' ->];
      pose proof (rating_fresh_after e rid s1 (Hrel _) (Hrel _)) as Hfresh;
      pose proof (exec_rating_reviews e rid s1) as Hrows;
      pose proof (updateRestaurantRating_empty e rid s1) as Hempty
  end.
  simpl in *. split; [reflexivity |]. split; [| split].
  - intros r. rewrite Hrows, filter_In, negb_true_iff, Z.eqb_neq. reflexivity.
  - intros Hsome Hresto. apply Hfresh; [assumption |].
    unfold Db.stars_of_restaurant, Db.reviews_of_restaurant in *.
    now rewrite Hrows in Hsome.
  - intros Hnone. rewrite Hempty; [reflexivity |].
    unfold Db.stars_of_restaurant, Db.reviews_of_restaurant in *.
    now rewrite Hrows in Hnone.
Qed.

Lemma delete_review_rating_witness :
  reliable (Scenario.ok (Scenario.t0 + 9))
  /\ Db.review_of_user 1 7 Scenario.rated <> None
  /\ rating 1 Scenario.rated = Some (5 # 1)
  /\ restoReviews (db (snd (Review.delete_review (Scenario.ok (Scenario.t0 + 9)) 7 1
                              Scenario.rated))) = []
  /\ rating 1 (db (snd (Review.delete_review (Scenario.ok (Scenario.t0 + 9)) 7 1
                          Scenario.rated))) = Some (5 # 1).
Proof.
  assert (Hrel : reliable (Scenario.ok (Scenario.t0 + 9))) by (intros o; reflexivity).
  split; [exact Hrel |]. split; [discriminate |]. split; [reflexivity |].
  split; [reflexivity |].
  destruct (Db.review_of_user 1 7 Scenario.rated) as [review |] eqn:Hreview;
    [| vm_compute in Hreview; discriminate].
  destruct (delete_review_rating (Scenario.ok (Scenario.t0 + 9)) 7 1 Scenario.rated review
              Hrel Hreview) as [_ [_ [_ Hlast]]].
  unfold rating, Db.restaurant_by_id. rewrite Hlast.
  - reflexivity.
  - vm_compute in Hreview. injection Hreview as <-. reflexivity.
Defined.

(** ** Reviews belong to their authors *)

(** X16: A review that is not the caller's, or does not exist, can be neither
    changed nor deleted: with a star that passes the range check the answer
    is 404 and nothing is written. *)
Theorem review_owner_only (e : env) (u id : Z) (s : store) :
  fails e restoReview_findFirst = false ->
  Db.review_of_user id u s = None ->
  (forall star comment,
     (forall v, star = Some v -> v = 0 \/ 1 <= v <= 5) ->
     Review.put_review e u id star comment s
     = (errorResponse "Review not found or does not belong to you" 404,
        mkWorld s [restoReview_findFirst]))
  /\ Review.delete_review e u id s
     = (errorResponse "Review not found or does not belong to you" 404,
        mkWorld s [restoReview_findFirst]).
Proof.
  intros Hfind Hnone. split.
  - intros star comment Hstar.
    unfold Review.put_review, Review.put_review_body.
    assert (Hcheck : JS.truthy star
                     && match star with
                        | Some v => (v <? 1) || (5 <? v)
                        | None => false
                        end = false).
    { destruct star as [v |]; [| reflexivity]. simpl.
      destruct (Hstar v eq_refl) as [-> | Hv]; [reflexivity |].
      apply andb_false_iff. right. apply orb_false_iff. split; apply Z.ltb_ge; lia. }
    rewrite Hcheck. run_M. rewrite Hfind, Hnone. reflexivity.
  - unfold Review.delete_review, Review.delete_review_body. run_M.
    rewrite Hfind, Hnone. reflexivity.
Qed.

Lemma review_owner_only_witness :
  fails (Scenario.ok (Scenario.t0 + 9)) restoReview_findFirst = false
  /\ Db.review_of_user 1 8 Scenario.reviewed = None
  /\ Db.review_of_user 1 7 Scenario.reviewed <> None
  /\ Review.put_review (Scenario.ok (Scenario.t0 + 9)) 8 1 (Some 1) None Scenario.reviewed
     = (errorResponse "Review not found or does not belong to you" 404,
        mkWorld Scenario.reviewed [restoReview_findFirst])
  /\ Review.delete_review (Scenario.ok (Scenario.t0 + 9)) 8 1 Scenario.reviewed
     = (errorResponse "Review not found or does not belong to you" 404,
        mkWorld Scenario.reviewed [restoReview_findFirst]).
Proof.
  split; [reflexivity |]. split; [reflexivity |]. split; [discriminate |].
  destruct (review_owner_only (Scenario.ok (Scenario.t0 + 9)) 8 1 Scenario.reviewed
              eq_refl eq_refl) as [Hput Hdelete].
  split; [| exact Hdelete].
  apply Hput. intros v [= <-]. right. lia.
Defined.

(** ** One review per user and restaurant *)

Lemma NoDup_map_filter {A B} (key : A -> B) (keep : A -> bool) (rows : list A) :
  NoDup (map key rows) -> NoDup (map key (filter keep rows)).
Proof.
  intros Hrows. induction rows as [| row rows IH]; simpl in *; [constructor |].
  inversion Hrows as [| ? ? Hnotin Hrest]; subst.
  destruct (keep row); simpl; [| auto].
  constructor; [| auto].
  intros Hin. apply Hnotin. apply in_map_iff in Hin.
  destruct Hin as [x [Hx Hinx]]. apply filter_In in Hinx.
  apply in_map_iff. exists x. tauto.
Qed.

Lemma NoDup_snoc {B} (l : list B) (b : B) : NoDup l -> ~ In b l -> NoDup (l ++ [b]).
Proof.
  intros Hl Hb. apply NoDup_app; [assumption | repeat constructor; intros [] |].
  intros x Hx [<- | []]. contradiction.
Qed.

(** X17: The review handlers keep one review per (user, restaurant), in every
    environment and for every input: creating, updating and deleting a
    review never leave two reviews of one user for one restaurant. *)
Theorem reviews_stay_unique (e : env) (u : Z) (s : store) :
  one_review_per_pair s ->
  (forall transactionId restaurantId star comment,
     one_review_per_pair
       (db (snd (Review.post_review e u transactionId restaurantId star comment s))))
  /\ (forall id star comment,
        one_review_per_pair (db (snd (Review.put_review e u id star comment s))))
  /\ (forall id, one_review_per_pair (db (snd (Review.delete_review e u id s)))).
Proof.
  intros Huniq.
  assert (Hafter : forall rid s1 called,
            one_review_per_pair s1 ->
            exists w', Review.updateRestaurantRating e rid (mkWorld s1 called)
                       = Return tt w'
                       /\ one_review_per_pair (db w')).
  { intros rid s1 called H1.
    destruct (updateRestaurantRating_returns e rid (mkWorld s1 called))
      as [w' [Hw [Hrows _]]].
    exists w'. split; [assumption |]. unfold one_review_per_pair in *.
    simpl in Hrows. now rewrite Hrows. }
  split; [| split].
  - intros transactionId restaurantId star comment.
    unfold Review.post_review, Review.post_review_body.
    cbv beta iota zeta delta [route bind ret throw deref prisma reading db calls].
    destruct (fails e transaction_findFirst); [assumption |].
    destruct (Db.order_by_transactionId transactionId u s); [| assumption].
    destruct (fails e restaurant_findUnique); [assumption |].
    destruct (Db.restaurant_by_id restaurantId s); [| assumption].
    destruct (negb _); [assumption |].
    destruct (fails e restoReview_findFirst); [assumption |].
    destruct (Db.review_of_pair u restaurantId s) eqn:Hpair; [assumption |].
    destruct (fails e restoReview_create); [assumption |].
    unfold Db.review_insert.
    match goal with
    | |- context [Review.updateRestaurantRating e ?rid (mkWorld ?s1 ?c)] =>
        destruct (Hafter rid s1 c) as [w' [-> Hw']]
    end.
    + unfold one_review_per_pair. simpl. rewrite map_app. simpl.
      apply NoDup_snoc; [exact Huniq |].
      intros Hin. apply in_map_iff in Hin. destruct Hin as [r [Hr Hin]].
      injection Hr as Hu Hrid.
      exact (review_of_pair_spec u restaurantId s Hpair r Hin Hu Hrid).
    + exact Hw'.
  - intros id star comment.
    unfold Review.put_review, Review.put_review_body.
    destruct (JS.truthy star && _); [exact Huniq |].
    cbv beta iota zeta delta [route bind ret throw deref prisma reading db calls].
    destruct (fails e restoReview_findFirst); [assumption |].
    destruct (Db.review_of_user id u s); [| assumption].
    destruct (fails e restoReview_update); [assumption |].
    unfold Db.review_update.
    destruct (find _ (restoReviews s)); [| assumption].
    assert (Hnew : forall star',
              one_review_per_pair
                (with_restoReviews s
                   (map (fun r' => if RestoReview.id r' =? id
                                   then Db.review_patch star' comment (now e) r' else r')
                      (restoReviews s))
                   (restoReviews_id_seq s))).
    { intros star'. unfold one_review_per_pair in *. simpl. rewrite map_map.
      erewrite map_ext; [exact Huniq |].
      intros r. destruct (RestoReview.id r =? id); reflexivity. }
    destruct (JS.truthy star).
    + match goal with
      | |- context [Review.updateRestaurantRating e ?rid (mkWorld ?s1 ?c)] =>
          destruct (Hafter rid s1 c (Hnew _)) as [w' [-> Hw']]
      end.
      exact Hw'.
    + apply Hnew.
  - intros id.
    unfold Review.delete_review, Review.delete_review_body.
    cbv beta iota zeta delta [route bind ret throw deref prisma reading db calls].
    destruct (fails e restoReview_findFirst); [assumption |].
    destruct (Db.review_of_user id u s); [| assumption].
    destruct (fails e restoReview_delete); [assumption |].
    unfold Db.review_delete.
    destruct (find _ (restoReviews s)); [| assumption].
    match goal with
    | |- context [Review.updateRestaurantRating e ?rid (mkWorld ?s1 ?c)] =>
        destruct (Hafter rid s1 c) as [w' [-> Hw']]
    end.
    + unfold one_review_per_pair in *. simpl. now apply NoDup_map_filter.
    + exact Hw'.
Qed.

Lemma reviews_stay_unique_witness :
  one_review_per_pair Scenario.ordered
  /\ one_review_per_pair Scenario.rated
  /\ List.length (restoReviews Scenario.rated) = 1%nat
  /\ restoReviews
       (db (snd (Review.post_review (Scenario.ok (Scenario.t0 + 5)) 7 "TXN17566500000027"
                   1 2 None Scenario.rated)))
     = restoReviews Scenario.rated.
Proof.
  assert (H0 : one_review_per_pair Scenario.ordered) by constructor.
  split; [exact H0 |]. split; [| split; reflexivity].
  apply (proj1 (reviews_stay_unique (Scenario.ok (Scenario.t0 + 3)) 7 Scenario.ordered H0)).
Defined.

(** ** The rating recomputation as a step of its own *)

Lemma set_star_twice (id : Z) (v : Q) (l : list Restaurant.t) :
  map (fun r => if Restaurant.id r =? id then Restaurant.with_star r v else r)
    (map (fun r => if Restaurant.id r =? id then Restaurant.with_star r v else r) l)
  = map (fun r => if Restaurant.id r =? id then Restaurant.with_star r v else r) l.
Proof.
  rewrite map_map. apply map_ext. intros r.
  destruct (Restaurant.id r =? id) eqn:E; simpl; [| now rewrite E].
  now rewrite E.
Qed.

(** X18: Recomputing the rating of a restaurant twice in a row leaves the store
    the first recomputation left, in every environment. *)
Theorem updateRestaurantRating_idempotent (e : env) (restaurantId : Z) (s : store) :
  exec (Review.updateRestaurantRating e restaurantId)
    (exec (Review.updateRestaurantRating e restaurantId) s)
  = exec (Review.updateRestaurantRating e restaurantId) s.
Proof.
  unfold exec, Review.updateRestaurantRating. run_M.
  destruct (fails e restoReview_findMany); simpl; [reflexivity |].
  destruct (0 <? Z.of_nat (List.length (Db.stars_of_restaurant restaurantId s))) eqn:Hsome;
    simpl; [| rewrite Hsome; reflexivity].
  destruct (fails e restaurant_update); simpl; [rewrite Hsome; reflexivity |].
  unfold Db.restaurant_set_star.
  destruct (Db.restaurant_by_id restaurantId s) as [r0 |] eqn:Hr0; simpl;
    [| rewrite Hsome, Hr0; reflexivity].
  change (Db.stars_of_restaurant restaurantId (with_restaurants s ?l))
    with (Db.stars_of_restaurant restaurantId s).
  rewrite Hsome.
  unfold Db.restaurant_by_id. simpl restaurants.
  rewrite (find_map_by_id Restaurant.id (fun r => Restaurant.with_star r _)) by reflexivity.
  fold (Db.restaurant_by_id restaurantId s). rewrite Hr0. simpl.
  unfold with_restaurants. simpl. now rewrite set_star_twice.
Qed.

(** ** Failures of the recomputation never fail the review request *)

Lemma rating_swallowed (e e' : env) (restaurantId : Z) (s : store) (called : list op) :
  exists w w',
    Review.updateRestaurantRating e restaurantId (mkWorld s called) = Return tt w
    /\ Review.updateRestaurantRating e' restaurantId (mkWorld s called) = Return tt w'
    /\ restoReviews (db w) = restoReviews s
    /\ restoReviews (db w') = restoReviews s.
Proof.
  destruct (updateRestaurantRating_returns e restaurantId (mkWorld s called))
    as [w [Hw [Hrows _]]].
  destruct (updateRestaurantRating_returns e' restaurantId (mkWorld s called))
    as [w' [Hw' [Hrows' _]]].
  exists w, w'. auto.
Qed.

(** X19: Whether the store calls of the rating recomputation fail or not makes
    no difference to the answer of a review request nor to the reviews it
    leaves stored: creation, update and deletion answer and write the same;
    only the cached rating may be left stale. *)
Theorem rating_failure_is_silent (e e' : env) (u : Z) (s : store) :
  same_but_rating e e' ->
  (forall transactionId restaurantId star comment,
     fst (Review.post_review e u transactionId restaurantId star comment s)
     = fst (Review.post_review e' u transactionId restaurantId star comment s)
     /\ restoReviews
          (db (snd (Review.post_review e u transactionId restaurantId star comment s)))
        = restoReviews
            (db (snd (Review.post_review e' u transactionId restaurantId star comment s))))
  /\ (forall id star comment,
        fst (Review.put_review e u id star comment s)
        = fst (Review.put_review e' u id star comment s)
        /\ restoReviews (db (snd (Review.put_review e u id star comment s)))
           = restoReviews (db (snd (Review.put_review e' u id star comment s))))
  /\ (forall id,
        fst (Review.delete_review e u id s) = fst (Review.delete_review e' u id s)
        /\ restoReviews (db (snd (Review.delete_review e u id s)))
           = restoReviews (db (snd (Review.delete_review e' u id s)))).
Proof.
  intros [Hnow Hfails].
  assert (H1 : fails e transaction_findFirst = fails e' transaction_findFirst)
    by (apply Hfails; discriminate).
  assert (H2 : fails e restaurant_findUnique = fails e' restaurant_findUnique)
    by (apply Hfails; discriminate).
  assert (H3 : fails e restoReview_findFirst = fails e' restoReview_findFirst)
    by (apply Hfails; discriminate).
  assert (H4 : fails e restoReview_create = fails e' restoReview_create)
    by (apply Hfails; discriminate).
  assert (H5 : fails e restoReview_update = fails e' restoReview_update)
    by (apply Hfails; discriminate).
  assert (H6 : fails e restoReview_delete = fails e' restoReview_delete)
    by (apply Hfails; discriminate).
  split; [| split].
  - intros transactionId restaurantId star comment.
    unfold Review.post_review, Review.post_review_body.
    cbv beta iota zeta delta [route bind ret throw deref prisma reading db calls].
    rewrite <- H1, <- H2, <- H3, <- H4.
    destruct (fails e transaction_findFirst); [split; reflexivity |].
    destruct (Db.order_by_transactionId transactionId u s); [| split; reflexivity].
    destruct (fails e restaurant_findUnique); [split; reflexivity |].
    destruct (Db.restaurant_by_id restaurantId s); [| split; reflexivity].
    destruct (negb _); [split; reflexivity |].
    destruct (fails e restoReview_findFirst); [split; reflexivity |].
    destruct (Db.review_of_pair u restaurantId s); [split; reflexivity |].
    destruct (fails e restoReview_create); [split; reflexivity |].
    unfold Db.review_insert. rewrite <- Hnow.
    match goal with
    | |- context [Review.updateRestaurantRating e ?rid (mkWorld ?s1 ?c)] =>
        destruct (rating_swallowed e e' rid s1 c) as [w [w' [-> [-> [Hw Hw']]]]]
    end.
    simpl. split; [reflexivity | exact (eq_trans Hw (eq_sym Hw'))].
  - intros id star comment.
    unfold Review.put_review, Review.put_review_body.
    destruct (JS.truthy star && _); [split; reflexivity |].
    cbv beta iota zeta delta [route bind ret throw deref prisma reading db calls].
    rewrite <- H3, <- H5.
    destruct (fails e restoReview_findFirst); [split; reflexivity |].
    destruct (Db.review_of_user id u s); [| split; reflexivity].
    destruct (fails e restoReview_update); [split; reflexivity |].
    unfold Db.review_update. rewrite <- Hnow.
    destruct (find _ (restoReviews s)); [| split; reflexivity].
    destruct (JS.truthy star); [| split; reflexivity].
    match goal with
    | |- context [Review.updateRestaurantRating e ?rid (mkWorld ?s1 ?c)] =>
        destruct (rating_swallowed e e' rid s1 c) as [w [w' [-> [-> [Hw Hw']]]]]
    end.
    simpl. split; [reflexivity | exact (eq_trans Hw (eq_sym Hw'))].
  - intros id.
    unfold Review.delete_review, Review.delete_review_body.
    cbv beta iota zeta delta [route bind ret throw deref prisma reading db calls].
    rewrite <- H3, <- H6.
    destruct (fails e restoReview_findFirst); [split; reflexivity |].
    destruct (Db.review_of_user id u s); [| split; reflexivity].
    destruct (fails e restoReview_delete); [split; reflexivity |].
    unfold Db.review_delete.
    destruct (find _ (restoReviews s)); [| split; reflexivity].
    match goal with
    | |- context [Review.updateRestaurantRating e ?rid (mkWorld ?s1 ?c)] =>
        destruct (rating_swallowed e e' rid s1 c) as [w [w' [-> [-> [Hw Hw']]]]]
    end.
    simpl. split; [reflexivity | exact (eq_trans Hw (eq_sym Hw'))].
Qed.

Lemma rating_failure_is_silent_witness :
  same_but_rating (Scenario.failing (Scenario.t0 + 3) restaurant_update)
    (Scenario.ok (Scenario.t0 + 3))
  /\ Response.statusCode
       (fst (Review.post_review (Scenario.failing (Scenario.t0 + 3) restaurant_update) 7
               "TXN17566500000027" 1 5 (Some "") Scenario.ordered)) = 201
  /\ rating 1
       (db (snd (Review.post_review (Scenario.failing (Scenario.t0 + 3) restaurant_update) 7
                   "TXN17566500000027" 1 5 (Some "") Scenario.ordered))) = Some (9 # 2)
  /\ restoReviews
       (db (snd (Review.post_review (Scenario.failing (Scenario.t0 + 3) restaurant_update) 7
                   "TXN17566500000027" 1 5 (Some "") Scenario.ordered)))
     = restoReviews Scenario.rated.
Proof.
  assert (Hsame : same_but_rating (Scenario.failing (Scenario.t0 + 3) restaurant_update)
                    (Scenario.ok (Scenario.t0 + 3))).
  { split; [reflexivity |]. intros o _ Ho.
    destruct o; try reflexivity. now elim Ho. }
  split; [exact Hsame |]. split; [reflexivity |]. split; [reflexivity |].
  apply (proj1 (rating_failure_is_silent _ _ 7 Scenario.ordered Hsame)).
Defined.

(** ** Handlers in sequence *)

(** X20: After a successful checkout the caller's cart reads as empty: GET /cart
    answers with no restaurant group and a summary of zero items, zero
    price and zero restaurants. *)
Theorem cart_empty_after_checkout (e e' : env) (u : Z) (paymentMethod : string)
  (s : store) :
  Response.statusCode (fst (Order.post_checkout e u paymentMethod s)) = 201 ->
  fails e' userCartItem_findMany = false ->
  fst (Cart.get_cart e' u (db (snd (Order.post_checkout e u paymentMethod s))))
  = successResponse (Some (Cart.mkCartData [] (Cart.mkCartSummary 0 0 0))) "Success" 200.
Proof.
  intros Hok Hread.
  pose proof (checkout_cases e u paymentMethod s) as Hcases.
  destruct (Order.post_checkout e u paymentMethod s) as [r [s' called]]. simpl in *.
  inversion Hcases; subst; try contradiction; try discriminate.
  unfold Cart.get_cart, Cart.get_cart_body. run_M. rewrite Hread.
  unfold Db.cart_newest_first, Db.cart_of_user, with_userCartItems, with_transactions.
  cbn [userCartItems]. rewrite cart_cleared. reflexivity.
Qed.

Lemma cart_empty_after_checkout_witness :
  Response.statusCode
    (fst (Order.post_checkout (Scenario.ok (Scenario.t0 + 2)) 7 "BRI" Scenario.cart2)) = 201
  /\ Cart.summary Scenario.cart2_view = Cart.mkCartSummary 3 115000 2
  /\ fst (Cart.get_cart (Scenario.ok (Scenario.t0 + 3)) 7 Scenario.ordered)
     = successResponse (Some (Cart.mkCartData [] (Cart.mkCartSummary 0 0 0))) "Success" 200.
Proof.
  split; [reflexivity |]. split; [reflexivity |].
  apply (cart_empty_after_checkout (Scenario.ok (Scenario.t0 + 2))
           (Scenario.ok (Scenario.t0 + 3)) 7 "BRI" Scenario.cart2); reflexivity.
Defined.

Lemma same_id_same_row (l : list UserCartItem.t) (a b : UserCartItem.t) :
  NoDup (map UserCartItem.id l) ->
  In a l -> In b l -> UserCartItem.id a = UserCartItem.id b -> a = b.
Proof.
  induction l as [| c l IH]; simpl; intros Hnd Ha Hb Hid; [contradiction |].
  inversion Hnd as [| ? ? Hnotin Hrest]; subst.
  destruct Ha as [-> | Ha], Hb as [-> | Hb]; auto.
  - elim Hnotin. rewrite Hid. now apply in_map.
  - elim Hnotin. rewrite <- Hid. now apply in_map.
Qed.

Lemma find_app_fresh {A} (p : A -> bool) (l : list A) (a : A) :
  (forall x, In x l -> p x = false) -> p a = true -> find p (l ++ [a]) = Some a.
Proof.
  intros Hl Ha. induction l as [| x l IH]; simpl.
  - now rewrite Ha.
  - rewrite (Hl x) by now left. apply IH. intros y Hy. apply Hl. now right.
Qed.

(** X21: The answer of POST /cart names the stored entry: in a store whose cart
    ids are distinct and below the sequence, looking up the id of a 201
    answer as the caller finds an entry of the restaurant and menu asked
    for, holding the quantity the answer reports. *)
Theorem post_cart_answer_is_stored (e : env) (u r m : Z) (quantity : option Z)
  (s : store) (d : Cart.cartItemData) :
  cart_keys s ->
  Response.data (fst (Cart.post_cart e u r m quantity s)) = Some d ->
  exists c,
    Db.cart_item_of_user (Cart.id d) u (db (snd (Cart.post_cart e u r m quantity s)))
    = Some c
    /\ UserCartItem.restaurantId c = r
    /\ UserCartItem.menuId c = m
    /\ UserCartItem.quantity c = Cart.quantity d.
Proof.
  intros [Hnodup Hbelow].
  unfold Cart.post_cart, Cart.post_cart_body, Cart.cartItem_json. run_M.
  destruct (fails e restaurant_findUnique); [discriminate |].
  destruct (Db.restaurant_by_id r s); [| discriminate].
  destruct (fails e restoMenu_findFirst); [discriminate |].
  destruct (Db.menu_of_restaurant m r s); [| discriminate].
  destruct (fails e userCartItem_findFirst); [discriminate |].
  destruct (Db.cart_entry u r m s) as [existing |] eqn:Hentry.
  - destruct (fails e userCartItem_update); [discriminate |].
    unfold Db.cart_entry in Hentry. apply find_some in Hentry.
    destruct Hentry as [Hin Hsame]. apply same_entry_true in Hsame.
    destruct Hsame as [Hu [Hr Hm]].
    unfold Db.cart_update.
    destruct (find (fun c => UserCartItem.id c =? UserCartItem.id existing)
                (userCartItems s)) as [c1 |] eqn:H1; [| discriminate].
    apply find_some in H1. destruct H1 as [Hin1 Hid1]. apply Z.eqb_eq in Hid1.
    assert (Hc1 : c1 = existing) by (apply (same_id_same_row _ _ _ Hnodup); assumption).
    subst c1. simpl.
    destruct (option_map Db.select_menu _); [| discriminate].
    simpl. intros [= <-]. simpl.
    unfold Db.cart_item_of_user. simpl.
    rewrite (find_map_by_id UserCartItem.id (Db.set_quantity _ (now e))) by reflexivity.
    destruct (find _ (userCartItems s)) as [c2 |] eqn:H2.
    + apply find_some in H2. destruct H2 as [Hin2 Hmatch].
      apply andb_prop in Hmatch. destruct Hmatch as [Hid2 _]. apply Z.eqb_eq in Hid2.
      assert (Hc2 : c2 = existing) by (apply (same_id_same_row _ _ _ Hnodup); assumption).
      subst c2. simpl. rewrite Z.eqb_refl. eexists. split; [reflexivity |].
      simpl. auto.
    + apply (find_none _ _ H2) in Hin. rewrite Hu, !Z.eqb_refl in Hin. discriminate.
  - destruct (fails e userCartItem_create); [discriminate |].
    unfold Db.cart_create. simpl.
    destruct (option_map Db.select_menu _); [| discriminate].
    simpl. intros [= <-]. simpl.
    unfold Db.cart_item_of_user. simpl.
    rewrite find_app_fresh.
    + eexists. split; [reflexivity |]. simpl. auto.
    + intros x Hx. specialize (Hbelow x Hx).
      apply andb_false_iff. left. apply Z.eqb_neq. lia.
    + simpl. now rewrite !Z.eqb_refl.
Qed.

Lemma post_cart_answer_is_stored_witness :
  cart_keys Scenario.cart2
  /\ option_map Cart.quantity
       (Response.data (fst (Cart.post_cart (Scenario.ok (Scenario.t0 + 2)) 7 1 5 (Some 4)
                              Scenario.cart2))) = Some 6
  /\ option_map UserCartItem.quantity
       (Db.cart_item_of_user 1 7
          (db (snd (Cart.post_cart (Scenario.ok (Scenario.t0 + 2)) 7 1 5 (Some 4)
                      Scenario.cart2)))) = Some 6.
Proof.
  assert (Hkeys : cart_keys Scenario.cart2).
  { split.
    - repeat constructor; simpl; intuition discriminate.
    - intros c [<- | [<- | []]]; reflexivity. }
  split; [exact Hkeys |]. split; [reflexivity |].
  destruct (Response.data (fst (Cart.post_cart (Scenario.ok (Scenario.t0 + 2)) 7 1 5
                                  (Some 4) Scenario.cart2))) as [d |] eqn:Hd;
    [| vm_compute in Hd; discriminate].
  destruct (post_cart_answer_is_stored (Scenario.ok (Scenario.t0 + 2)) 7 1 5 (Some 4)
              Scenario.cart2 d Hkeys Hd) as [c [Hc [_ [_ Hq]]]].
  assert (Hid : Cart.id d = 1) by (vm_compute in Hd; injection Hd as <-; reflexivity).
  assert (Hqd : Cart.quantity d = 6) by (vm_compute in Hd; injection Hd as <-; reflexivity).
  rewrite Hid in Hc. rewrite Hc. simpl. now rewrite Hq, Hqd.
Defined.

(** ** The rating histogram of a restaurant *)

Lemma get_set_same {V} (o : JS.object V) (k : Z) (v : V) :
  JS.get (JS.set o k v) k = Some v.
Proof.
  induction o as [| [k' v'] o IH]; simpl.
  - now rewrite Z.eqb_refl.
  - destruct (k' =? k) eqn:E; simpl; [now rewrite Z.eqb_refl |].
    destruct (JS.precedes k k'); simpl; [now rewrite Z.eqb_refl |].
    now rewrite E.
Qed.

Lemma get_set_other {V} (o : JS.object V) (k k0 : Z) (v : V) :
  k0 <> k -> JS.get (JS.set o k v) k0 = JS.get o k0.
Proof.
  intros Hne. apply Z.eqb_neq in Hne. rewrite Z.eqb_sym in Hne.
  induction o as [| [k' v'] o IH]; simpl.
  - now rewrite Hne.
  - destruct (k' =? k) eqn:E; simpl.
    + apply Z.eqb_eq in E. subst k'. now rewrite Hne.
    + destruct (JS.precedes k k'); simpl; [now rewrite Hne |].
      destruct (k' =? k0); [reflexivity | exact IH].
Qed.

Lemma set_keeps_keys {V} (o : JS.object V) (k : Z) (v : V) :
  enumerated (keys o) -> In k (keys o) -> keys (JS.set o k v) = keys o.
Proof.
  induction o as [| [k' v'] o IH]; simpl; intros Henum Hin; [contradiction |].
  destruct Henum as [Hhead Henum].
  destruct (k' =? k) eqn:E; simpl.
  - apply Z.eqb_eq in E. now subst.
  - destruct Hin as [-> | Hin]; [rewrite Z.eqb_refl in E; discriminate |].
    destruct (JS.precedes k k') eqn:L;
      [now elim (enumerated_fresh o k k' Hhead L) |].
    simpl. f_equal. now apply IH.
Qed.

Lemma values_by_key (o : JS.object Z) :
  NoDup (keys o) ->
  JS.values o
  = map (fun k => match JS.get o k with Some v => v | None => 0 end) (keys o).
Proof.
  unfold JS.values, keys.
  induction o as [| [k v] o IH]; simpl; intros Hnd; [reflexivity |].
  inversion Hnd as [| ? ? Hnotin Hrest]; subst.
  rewrite Z.eqb_refl. f_equal.
  rewrite (IH Hrest). apply map_ext_in. intros x Hx.
  destruct (k =? x) eqn:E; [| reflexivity].
  apply Z.eqb_eq in E. subst. contradiction.
Qed.

Lemma find_group (F : Z -> Z) (ks : list Z) (k : Z) :
  find (fun g => Db.g_star g =? k) (map (fun x => Db.mkStarGroup x (F x)) ks)
  = if in_dec Z.eq_dec k ks then Some (Db.mkStarGroup k (F k)) else None.
Proof.
  induction ks as [| x ks IH]; simpl; [reflexivity |].
  destruct (x =? k) eqn:E.
  - apply Z.eqb_eq in E. subst. destruct (Z.eq_dec k k); [reflexivity | congruence].
  - apply Z.eqb_neq in E. destruct (Z.eq_dec x k); [contradiction |].
    rewrite IH. destruct (in_dec Z.eq_dec k ks); reflexivity.
Qed.

Lemma forEach_set_get (groups : list Db.starGroup) (o : JS.object Z) (k : Z) :
  NoDup (map Db.g_star groups) ->
  JS.get (fold_left (fun stats rating =>
                       JS.set stats (Db.g_star rating) (Db.g_count rating)) groups o) k
  = match find (fun g => Db.g_star g =? k) groups with
    | Some g => Some (Db.g_count g)
    | None => JS.get o k
    end.
Proof.
  revert o. induction groups as [| g groups IH]; simpl; intros o Hnd; [reflexivity |].
  inversion Hnd as [| ? ? Hnotin Hrest]; subst.
  rewrite (IH _ Hrest).
  destruct (Db.g_star g =? k) eqn:E.
  - apply Z.eqb_eq in E. subst k.
    destruct (find _ groups) as [g' |] eqn:Hfind; [| apply get_set_same].
    apply find_some in Hfind. destruct Hfind as [Hin Hk]. apply Z.eqb_eq in Hk.
    elim Hnotin. rewrite <- Hk. now apply in_map.
  - apply Z.eqb_neq in E.
    destruct (find _ groups); [reflexivity |].
    apply get_set_other. congruence.
Qed.

Lemma ascending_indices (l : list Z) :
  ascending l -> Forall (fun k => JS.is_index k = true) l -> enumerated l.
Proof.
  induction l as [| x l IH]; simpl; intros Hasc Hidx; [exact I |].
  destruct Hasc as [Hlt Hasc].
  inversion Hidx as [| ? ? Hx Hl]; subst.
  split; [| auto].
  intros y Hy. specialize (Hlt y Hy). split; [lia |].
  unfold JS.precedes. rewrite Hx. simpl.
  apply andb_false_iff. right. apply Z.ltb_ge. lia.
Qed.

Lemma forEach_set_keys (groups : list Db.starGroup) (o : JS.object Z) :
  enumerated (keys o) ->
  (forall g, In g groups -> In (Db.g_star g) (keys o)) ->
  keys (fold_left (fun stats rating =>
                     JS.set stats (Db.g_star rating) (Db.g_count rating)) groups o)
  = keys o.
Proof.
  revert o. induction groups as [| g groups IH]; simpl; intros o Hasc Hin; [reflexivity |].
  assert (Hkeys : keys (JS.set o (Db.g_star g) (Db.g_count g)) = keys o)
    by (apply set_keeps_keys; auto).
  rewrite IH.
  - exact Hkeys.
  - rewrite Hkeys. exact Hasc.
  - intros g' Hg'. rewrite Hkeys. auto.
Qed.

Lemma groupBy_star_distinct (restaurantId : Z) (s : store) :
  NoDup (map Db.g_star (Db.review_groupBy_star restaurantId s)).
Proof.
  unfold Db.review_groupBy_star. rewrite map_map. simpl. rewrite map_id.
  apply NoDup_nodup.
Qed.

Lemma ratingStats_get (restaurantId : Z) (s : store) (k : Z) :
  JS.get (Review.ratingStats (Db.review_groupBy_star restaurantId s)) k
  = let n := Z.of_nat (count_occ Z.eq_dec (Db.stars_of_restaurant restaurantId s) k) in
    if (0 <? n) || ((1 <=? k) && (k <=? 5)) then Some n else None.
Proof.
  unfold Review.ratingStats.
  rewrite forEach_set_get by apply groupBy_star_distinct.
  unfold Db.review_groupBy_star. cbv zeta.
  set (stars := Db.stars_of_restaurant restaurantId s).
  rewrite (find_group (fun x => Z.of_nat (count_occ Z.eq_dec stars x))).
  destruct (in_dec Z.eq_dec k (nodup Z.eq_dec stars)) as [Hin | Hout].
  - apply nodup_In in Hin. apply (count_occ_In Z.eq_dec) in Hin. simpl.
    destruct (0 <? Z.of_nat (count_occ Z.eq_dec stars k)) eqn:L; [reflexivity |].
    apply Z.ltb_ge in L. lia.
  - rewrite nodup_In in Hout. apply (count_occ_not_In Z.eq_dec) in Hout.
    rewrite Hout. change (0 <? Z.of_nat 0) with false. cbv [orb].
    destruct ((1 <=? k) && (k <=? 5)) eqn:R.
    + apply andb_prop in R. destruct R as [R1 R5].
      apply Z.leb_le in R1. apply Z.leb_le in R5.
      assert (Hk : k = 1 \/ k = 2 \/ k = 3 \/ k = 4 \/ k = 5) by lia.
      destruct Hk as [-> | [-> | [-> | [-> | ->]]]]; reflexivity.
    + apply andb_false_iff in R. cbn [JS.get].
      rewrite Z.leb_gt, Z.leb_gt in R.
      destruct (1 =? k) eqn:E1; [apply Z.eqb_eq in E1; lia |].
      destruct (2 =? k) eqn:E2; [apply Z.eqb_eq in E2; lia |].
      destruct (3 =? k) eqn:E3; [apply Z.eqb_eq in E3; lia |].
      destruct (4 =? k) eqn:E4; [apply Z.eqb_eq in E4; lia |].
      destruct (5 =? k) eqn:E5; [apply Z.eqb_eq in E5; lia |].
      reflexivity.
Qed.

Lemma count_stars (stars : list Z) :
  Forall (fun x => 1 <= x <= 5) stars ->
  Z.of_nat (count_occ Z.eq_dec stars 1) + Z.of_nat (count_occ Z.eq_dec stars 2)
  + Z.of_nat (count_occ Z.eq_dec stars 3) + Z.of_nat (count_occ Z.eq_dec stars 4)
  + Z.of_nat (count_occ Z.eq_dec stars 5)
  = Z.of_nat (List.length stars).
Proof.
  induction 1 as [| x stars Hx _ IH]; [reflexivity |].
  cbn [count_occ List.length].
  destruct (Z.eq_dec x 1), (Z.eq_dec x 2), (Z.eq_dec x 3), (Z.eq_dec x 4),
    (Z.eq_dec x 5); lia.
Qed.

(** X22: The histogram of GET /review/restaurant/:restaurantId holds, under
    every star value, the number of the restaurant's reviews with that
    star; the values 1 to 5 are listed even when no review has them, any
    other value only when some review has it. *)
Theorem rating_histogram_counts (restaurantId : Z) (s : store) (k : Z) :
  JS.get (Review.ratingStats (Db.review_groupBy_star restaurantId s)) k
  = let n := Z.of_nat (List.length
                         (filter (fun r => RestoReview.star r =? k)
                            (Db.reviews_of_restaurant restaurantId s))) in
    if (0 <? n) || ((1 <=? k) && (k <=? 5)) then Some n else None.
Proof.
  rewrite ratingStats_get. cbv zeta.
  replace (count_occ Z.eq_dec (Db.stars_of_restaurant restaurantId s) k)
    with (List.length (filter (fun r => RestoReview.star r =? k)
                         (Db.reviews_of_restaurant restaurantId s)));
    [reflexivity |].
  unfold Db.stars_of_restaurant.
  induction (Db.reviews_of_restaurant restaurantId s) as [| r l IH]; simpl; [reflexivity |].
  destruct (Z.eq_dec (RestoReview.star r) k) as [Heq | Hne].
  - apply Z.eqb_eq in Heq. rewrite Heq. simpl. now rewrite IH.
  - apply Z.eqb_neq in Hne. now rewrite Hne.
Qed.

(** X23: When the stars of a restaurant's reviews lie between 1 and 5, the
    histogram has exactly the keys 1 to 5 and its counts add up to the
    number of reviews of the restaurant. *)
Theorem rating_histogram_total (restaurantId : Z) (s : store) :
  Forall (fun x => 1 <= x <= 5) (Db.stars_of_restaurant restaurantId s) ->
  keys (Review.ratingStats (Db.review_groupBy_star restaurantId s)) = [1; 2; 3; 4; 5]
  /\ sumZ (JS.values (Review.ratingStats (Db.review_groupBy_star restaurantId s)))
     = Z.of_nat (List.length (Db.reviews_of_restaurant restaurantId s)).
Proof.
  intros Hstars.
  assert (Hkeys : keys (Review.ratingStats (Db.review_groupBy_star restaurantId s))
                  = [1; 2; 3; 4; 5]).
  { unfold Review.ratingStats. rewrite forEach_set_keys; [reflexivity | |].
    - apply ascending_indices; [| repeat constructor].
      simpl. repeat split; intros y Hy; simpl in Hy; try lia; try contradiction.
    - intros g Hg. unfold Db.review_groupBy_star in Hg.
      apply in_map_iff in Hg. destruct Hg as [x [<- Hx]]. simpl.
      apply nodup_In in Hx. rewrite Forall_forall in Hstars.
      specialize (Hstars x Hx). lia. }
  split; [exact Hkeys |].
  rewrite values_by_key by (rewrite Hkeys; repeat constructor; simpl; lia).
  rewrite Hkeys. cbn [map]. rewrite !ratingStats_get. cbv zeta.
  change ((1 <=? 1) && (1 <=? 5)) with true.
  change ((1 <=? 2) && (2 <=? 5)) with true.
  change ((1 <=? 3) && (3 <=? 5)) with true.
  change ((1 <=? 4) && (4 <=? 5)) with true.
  change ((1 <=? 5) && (5 <=? 5)) with true.
  rewrite !orb_true_r. cbn [sumZ].
  pose proof (count_stars _ Hstars) as Hsum.
  unfold Db.stars_of_restaurant in Hsum at 6. rewrite length_map in Hsum.
  lia.
Qed.

Lemma rating_histogram_total_witness :
  Db.stars_of_restaurant 1 Scenario.reviewed = [5; 4; 3]
  /\ JS.values (Review.ratingStats (Db.review_groupBy_star 1 Scenario.reviewed))
     = [0; 0; 1; 1; 1]
  /\ sumZ (JS.values (Review.ratingStats (Db.review_groupBy_star 1 Scenario.reviewed)))
     = Z.of_nat (List.length (Db.reviews_of_restaurant 1 Scenario.reviewed)).
Proof.
  split; [reflexivity |]. split; [reflexivity |].
  apply (rating_histogram_total 1 Scenario.reviewed).
  repeat constructor; simpl; lia.
Defined.

(** ** Instances of the identifier and rounding lemmas *)

Lemma transactionId_inj_same_width_witness :
  String.length (JS.toString (Scenario.t0 + 2)) = 13%nat
  /\ Order.transactionId (Scenario.t0 + 2) 7 = "TXN17566500000027"
  /\ (Scenario.t0 + 2 = 1756650000002 /\ 7 = 7).
Proof.
  split; [reflexivity |]. split; [reflexivity |].
  apply (transactionId_inj_same_width (Scenario.t0 + 2) 7 1756650000002 7); reflexivity.
Defined.

Lemma double_rating_agrees_witness :
  JS.Double.tenths 17 4 = 43
  /\ JS.Double.tenths (sumZ [5; 4; 4; 4]) (Z.of_nat (List.length [5; 4; 4; 4]))
     = JS.Math_round (mean [5; 4; 4; 4] * 10).
Proof.
  split; [vm_compute; reflexivity |].
  apply (double_rating_agrees [5; 4; 4; 4]).
  - discriminate.
  - simpl. lia.
  - repeat constructor; lia.
Defined.
